(** * PFM-DenseBench: the client-side aggregation engine

    A shallow embedding of the aggregation functions of [js/leaderboard.js]
    and [js/performance.js], and the properties the specification states
    about them.

    Modelling conventions.
    - A JavaScript number is a rational ([Q]): sums and quotients are exact,
      rounding of IEEE doubles is not modelled.  Equality of numbers is
      numeric equality ([==]).
    - A JavaScript object used as a dictionary is the list of its own
      enumerable entries, in the order [Object.entries] yields them.
      A property read [o[k]] first looks at the own entries and then at
      [Object.prototype], whose member names are listed in
      [objectPrototypeKeys].  A property write [o[k] = v] creates or
      overwrites an own entry (the legacy setter behind the name
      [__proto__] is not modelled).
    - A [TypeError] raised by the code is the [TypeError] outcome of
      [result].
    - Where a property is about the identity of objects (which objects a
      call writes to), the functions are given a second time over a heap
      of objects, in [Heap]. *)

From Stdlib Require Import QArith Lqa.
From stdpp Require Import base list strings sorting sets.

Set Warnings "-clear-no-such-hyp".

Local Open Scope string_scope.
Local Open Scope list_scope.

(** ** JavaScript values and built-ins used by the engine *)

Module Js.

(** Outcome of a function that may throw. *)
Inductive result (A : Type) : Type :=
| Ok (a : A)
| TypeError.
Arguments Ok {A} a.
Arguments TypeError {A}.

#[global] Instance result_ret : MRet result := λ A a, Ok a.
#[global] Instance result_bind : MBind result := λ A B k r,
  match r with
  | Ok a => k a
  | TypeError => TypeError
  end.

(** [for (const x of xs) { acc = body(acc, x) }] where the body may throw. *)
Fixpoint foldM {A S} (body : S → A → result S) (xs : list A) (acc : S)
  : result S :=
  match xs with
  | [] => Ok acc
  | x :: xs' => acc' ← body acc x; foldM body xs' acc'
  end.

(** [xs.forEach((item, idx) => ...)]: the items paired with their index. *)
Definition indexed {A} (xs : list A) : list (nat * A) :=
  zip (seq 0 (length xs)) xs.

(** An object as the list of its own entries. *)
Abbreviation JsObject V := (list (string * V)).

Fixpoint lookupOwn {V} (k : string) (o : JsObject V) : option V :=
  match o with
  | [] => None
  | (k', v) :: o' => if decide (k = k') then Some v else lookupOwn k o'
  end.

(** Member names of [Object.prototype] in a browser. *)
Definition objectPrototypeKeys : list string :=
  [ "constructor"; "__defineGetter__"; "__defineSetter__"; "hasOwnProperty";
    "__lookupGetter__"; "__lookupSetter__"; "isPrototypeOf";
    "propertyIsEnumerable"; "toString"; "valueOf"; "__proto__";
    "toLocaleString" ].

(** What [o[k]] evaluates to: an own value, a member of
    [Object.prototype] (a function or object, hence truthy), or
    [undefined]. *)
Inductive Property (V : Type) : Type :=
| Own (v : V)
| Inherited
| Undefined.
Arguments Own {V} v.
Arguments Inherited {V}.
Arguments Undefined {V}.

Definition getProp {V} (k : string) (o : JsObject V) : Property V :=
  match lookupOwn k o with
  | Some v => Own v
  | None =>
      if bool_decide (k ∈ objectPrototypeKeys) then Inherited else Undefined
  end.

(** [o[k] = v]: an existing key keeps its place, a new one goes last. *)
Fixpoint setProp {V} (k : string) (v : V) (o : JsObject V) : JsObject V :=
  match o with
  | [] => [(k, v)]
  | (k', v') :: o' =>
      if decide (k = k') then (k, v) :: o' else (k', v') :: setProp k v o'
  end.

(** [Object.keys], [Object.values]. *)
Definition keys {V} (o : JsObject V) : list string := o.*1.
Definition values {V} (o : JsObject V) : list V := o.*2.

(** [arr.includes(x)] on an array of strings. *)
Definition includes (x : string) (arr : list string) : bool :=
  bool_decide (x ∈ arr).

(** [Array.prototype.sort(cmp)].  The standard requires the sort to be
    stable; for a comparator that is a consistent ordering the result is
    then determined, and is the one of a stable insertion sort: [x] stays
    in front of a later [y] unless [cmp x y > 0]. *)
Fixpoint insertSorted {A} (cmp : A → A → Q) (x : A) (l : list A) : list A :=
  match l with
  | [] => [x]
  | y :: l' =>
      if Qlt_le_dec 0 (cmp x y) then y :: insertSorted cmp x l'
      else x :: y :: l'
  end.

Definition sort {A} (cmp : A → A → Q) (l : list A) : list A :=
  foldr (insertSorted cmp) [] l.

(** The comparators [(a, b) => b.key - a.key] and [(a, b) => a.key - b.key]. *)
Definition descending {A} (key : A → Q) (a b : A) : Q := (key b - key a)%Q.

(** A rank or a length as a number. *)
Definition num (n : nat) : Q := inject_Z (Z.of_nat n).

(** [xs.reduce((a, b) => a + b, 0)]. *)
Definition sum (xs : list Q) : Q := fold_left Qplus xs 0%Q.

(** [xs.reduce((a, b) => a + b, 0) / xs.length]. *)
Definition average (xs : list Q) : Q := (sum xs / num (length xs))%Q.

(** A [Set] of strings in insertion order; [add] ignores a member. *)
Definition setAdd (s : list string) (x : string) : list string :=
  if bool_decide (x ∈ s) then s else s ++ [x].

End Js.

Import Js.

(** ** The raw data store *)

(** [{mean, ci_lower, ci_upper}] *)
Module Observation.
Record t := {
  mean : Q;
  ci_lower : Q;
  ci_upper : Q
}.
End Observation.

(** metric name ↦ observation *)
Abbreviation Metrics := (JsObject Observation.t).
(** model key ↦ metrics *)
Abbreviation Models := (JsObject Metrics).
(** dataset name ↦ models: the content of one [<method>.json] *)
Abbreviation MethodData := (JsObject Models).
(** method name ↦ method data *)
Abbreviation RawData := (JsObject MethodData).

(** The summary file [stats.json]. *)
Record ModelRankRecord := {
  model_key : string;
  model_display : string;
  avg_rank : Q;
  avg_rank_display : string;
  position : nat;
  total_comparisons : nat
}.

Record DatasetSotaRecord := {
  mDice : Q;
  mDice_display : string;
  sota_model : string;
  sota_model_key : string;
  sota_method : string;
  sota_category : string;
  dataset_display : string;
  sota_ci_lower : Q;
  sota_ci_upper : Q
}.

Record MethodComparison := {
  method_display : string;
  avg_mDice : Q;
  avg_mDice_display : string
}.

Record Stats := {
  model_ranks : list ModelRankRecord;
  dataset_sota : JsObject DatasetSotaRecord;
  method_comparison : JsObject MethodComparison
}.

(** ** The category classifier

    [for (const [category, datasets] of Object.entries(table))
       if (datasets.includes(dataset)) return category;
     return 'Other';]
    The loop is the same in both files; each runs it over its own table. *)

Fixpoint firstCategory (table : JsObject (list string)) (dataset : string)
  : string :=
  match table with
  | [] => "Other"
  | (category, datasets) :: table' =>
      if includes dataset datasets then category
      else firstCategory table' dataset
  end.

(** ** The rank aggregator

    The same lines occur in [computeDetailedStats] and in
    [computeModelDatasetRanks]:
    [Object.entries(models).filter(([_, m]) => m.Mean_Dice)
       .map(([model, m]) => ({ model, score: m.Mean_Dice.mean }))
       .sort((a, b) => b.score - a.score)]
    followed by [scores.forEach((item, idx) => ... idx + 1 ...)]. *)

Module ScoreItem.
Record t := {
  model : string;
  score : Q
}.
End ScoreItem.

(** [m.Mean_Dice]: the name is not a member of [Object.prototype], and an
    observation is an object, hence truthy when present. *)
Definition Mean_Dice (m : Metrics) : option Observation.t :=
  lookupOwn "Mean_Dice" m.

(** [filter] and [map] in one pass. *)
Definition scoreItems (models : Models) : list ScoreItem.t :=
  omap (fun '(k, m) =>
          match Mean_Dice m with
          | Some obs =>
              Some {| ScoreItem.model := k; ScoreItem.score := Observation.mean obs |}
          | None => None
          end) models.

(** [(a, b) => b.score - a.score] *)
Definition byScoreDescending : ScoreItem.t → ScoreItem.t → Q :=
  descending ScoreItem.score.

Definition sortedScores (models : Models) : list ScoreItem.t :=
  sort byScoreDescending (scoreItems models).

(** The pairs [(item.model, idx + 1)] the [forEach] visits, in order. *)
Definition rankModels (models : Models) : list (string * nat) :=
  map (fun '(idx, item) => (ScoreItem.model item, idx + 1))
      (indexed (sortedScores models)).

(** ** [js/leaderboard.js] *)

Module Leaderboard.

(** [CONFIG.methods] *)
Definition methods : list string :=
  ["frozen"; "lora"; "dora"; "cnn"; "transformer"].

(** [CONFIG.datasetCategories] *)
Definition datasetCategories : JsObject (list string) :=
  [ ("Nuclear", ["CoNIC2022"; "CoNSeP"; "cpm15"; "cpm17"; "kumar"; "Kumar";
                 "Lizard"; "NuCLS"; "PanNuke"; "TNBC"]);
    ("Gland", ["GlaS"; "CRAG"; "RINGS"]);
    ("Tissue", ["BCSS"; "CoCaHis"; "COSAS24"; "EBHI"; "WSSS4LUAD";
                "Janowczyk"]) ].

Definition getDatasetCategory (dataset : string) : string :=
  firstCategory datasetCategories dataset.

(** An entry of [modelCategoryRanks]:
    [{ model, overall, Nuclear: [], Gland: [], Tissue: [] }], to which the
    averaging loop adds [NuclearAvg], [GlandAvg] and [TissueAvg]
    ([None] while the property is not there yet). *)
Module CategoryRanks.
Record t := {
  model : string;
  overall : Q;
  Nuclear : list nat;
  Gland : list nat;
  Tissue : list nat;
  NuclearAvg : option Q;
  GlandAvg : option Q;
  TissueAvg : option Q
}.

(** [r[category]] when it is one of the three arrays. *)
Definition ranks (category : string) (r : t) : option (list nat) :=
  if decide (category = "Nuclear") then Some (Nuclear r)
  else if decide (category = "Gland") then Some (Gland r)
  else if decide (category = "Tissue") then Some (Tissue r)
  else None.

(** [r[category + "Avg"]] *)
Definition avg (category : string) (r : t) : option Q :=
  if decide (category = "Nuclear") then NuclearAvg r
  else if decide (category = "Gland") then GlandAvg r
  else if decide (category = "Tissue") then TissueAvg r
  else None.

(** [r[category].push(rank)]; anything but an array has no [push]. *)
Definition push (category : string) (rank : nat) (r : t) : result t :=
  if decide (category = "Nuclear") then
    Ok {| model := model r; overall := overall r;
          Nuclear := Nuclear r ++ [rank]; Gland := Gland r;
          Tissue := Tissue r; NuclearAvg := NuclearAvg r;
          GlandAvg := GlandAvg r; TissueAvg := TissueAvg r |}
  else if decide (category = "Gland") then
    Ok {| model := model r; overall := overall r;
          Nuclear := Nuclear r; Gland := Gland r ++ [rank];
          Tissue := Tissue r; NuclearAvg := NuclearAvg r;
          GlandAvg := GlandAvg r; TissueAvg := TissueAvg r |}
  else if decide (category = "Tissue") then
    Ok {| model := model r; overall := overall r;
          Nuclear := Nuclear r; Gland := Gland r;
          Tissue := Tissue r ++ [rank]; NuclearAvg := NuclearAvg r;
          GlandAvg := GlandAvg r; TissueAvg := TissueAvg r |}
  else TypeError.
End CategoryRanks.

(** An entry of [modelMethodPerformance]: the arrays under the method
    names, and the numbers (or [null], here [None]) under the names
    [<method>Avg]. *)
Module MethodPerformance.
Record t := {
  scores : JsObject (list Q);
  avgs : JsObject (option Q)
}.
End MethodPerformance.

(** An entry of [modelDatasetRanks]: [{ model_display, datasets: {} }]. *)
Module DatasetRanks.
Record t := {
  model_display : string;
  datasets : JsObject Q
}.
End DatasetRanks.

Record DetailedStats := {
  modelCategoryRanks : JsObject CategoryRanks.t;
  modelMethodPerformance : JsObject MethodPerformance.t;
  modelDatasetRanks : JsObject DatasetRanks.t
}.

(** *** [computeDetailedStats], first part: ranks per category *)

(** [for (const model of stats.model_ranks)
      modelCategoryRanks[model.model_key] = { ... }] *)
Definition newCategoryRanks (m : ModelRankRecord) : CategoryRanks.t :=
  {| CategoryRanks.model := model_display m;
     CategoryRanks.overall := avg_rank m;
     CategoryRanks.Nuclear := []; CategoryRanks.Gland := [];
     CategoryRanks.Tissue := [];
     CategoryRanks.NuclearAvg := None; CategoryRanks.GlandAvg := None;
     CategoryRanks.TissueAvg := None |}.

Definition initCategoryRanks (modelRanks : list ModelRankRecord)
  : JsObject CategoryRanks.t :=
  fold_left (fun acc m => setProp (model_key m) (newCategoryRanks m) acc)
            modelRanks [].

(** The body of [scores.forEach]:
    [if (modelCategoryRanks[item.model])
       modelCategoryRanks[item.model][category].push(idx + 1);]
    A member of [Object.prototype] passes the test and has no array
    under [category]. *)
Definition recordCategoryRank (category : string)
    (acc : JsObject CategoryRanks.t) (p : string * nat)
  : result (JsObject CategoryRanks.t) :=
  match getProp p.1 acc with
  | Own r => r' ← CategoryRanks.push category p.2 r; Ok (setProp p.1 r' acc)
  | Inherited => TypeError
  | Undefined => Ok acc
  end.

(** The loops over [Object.entries(rawData)] and
    [Object.entries(methodData)]. *)
Definition collectCategoryRanks (rawData : RawData)
    (acc : JsObject CategoryRanks.t) : result (JsObject CategoryRanks.t) :=
  foldM (fun acc (me : string * MethodData) =>
    foldM (fun acc (de : string * Models) =>
      let category := getDatasetCategory de.1 in
      if decide (category = "Other") then Ok acc
      else foldM (recordCategoryRank category) (rankModels de.2) acc)
      me.2 acc)
    rawData acc.

(** [ranks.length > 0 ? ranks.reduce((a, b) => a + b, 0) / ranks.length : 999] *)
Definition averageRankOr999 (ranks : list nat) : Q :=
  if decide (0 < length ranks) then average (num <$> ranks) else 999%Q.

(** [for (const category of ['Nuclear', 'Gland', 'Tissue'])
      modelData[category + 'Avg'] = ...] *)
Definition withCategoryAverages (r : CategoryRanks.t) : CategoryRanks.t :=
  {| CategoryRanks.model := CategoryRanks.model r;
     CategoryRanks.overall := CategoryRanks.overall r;
     CategoryRanks.Nuclear := CategoryRanks.Nuclear r;
     CategoryRanks.Gland := CategoryRanks.Gland r;
     CategoryRanks.Tissue := CategoryRanks.Tissue r;
     CategoryRanks.NuclearAvg := Some (averageRankOr999 (CategoryRanks.Nuclear r));
     CategoryRanks.GlandAvg := Some (averageRankOr999 (CategoryRanks.Gland r));
     CategoryRanks.TissueAvg := Some (averageRankOr999 (CategoryRanks.Tissue r)) |}.

(** [for (const modelData of Object.values(modelCategoryRanks)) ...] *)
Definition averageCategoryRanks (acc : JsObject CategoryRanks.t)
  : JsObject CategoryRanks.t :=
  prod_map id withCategoryAverages <$> acc.

(** *** [computeDetailedStats], second part: performance per method *)

(** [modelMethodPerformance[modelKey] = {};
     for (const m of CONFIG.methods) modelMethodPerformance[modelKey][m] = [];] *)
Definition newMethodPerformance : MethodPerformance.t :=
  {| MethodPerformance.scores :=
       fold_left (fun o m => setProp m [] o) methods [];
     MethodPerformance.avgs := [] |}.

(** [modelMethodPerformance[modelKey][method].push(x)] on an entry. *)
Definition pushScore (method : string) (x : Q) (e : MethodPerformance.t)
  : result MethodPerformance.t :=
  match lookupOwn method (MethodPerformance.scores e) with
  | Some l =>
      Ok {| MethodPerformance.scores :=
              setProp method (l ++ [x]) (MethodPerformance.scores e);
            MethodPerformance.avgs := MethodPerformance.avgs e |}
  | None => TypeError
  end.

(** The body of the innermost loop:
    [if (!metrics.Mean_Dice) continue;
     if (!modelMethodPerformance[modelKey]) { ... }
     modelMethodPerformance[modelKey][method].push(metrics.Mean_Dice.mean);] *)
Definition recordScore (method : string)
    (acc : JsObject MethodPerformance.t) (me : string * Metrics)
  : result (JsObject MethodPerformance.t) :=
  match Mean_Dice me.2 with
  | None => Ok acc
  | Some obs =>
      match getProp me.1 acc with
      | Own e =>
          e' ← pushScore method (Observation.mean obs) e;
          Ok (setProp me.1 e' acc)
      | Inherited => TypeError
      | Undefined =>
          e' ← pushScore method (Observation.mean obs) newMethodPerformance;
          Ok (setProp me.1 e' acc)
      end
  end.

Definition collectMethodPerformance (rawData : RawData)
  : result (JsObject MethodPerformance.t) :=
  foldM (fun acc (me : string * MethodData) =>
    foldM (fun acc (de : string * Models) =>
      foldM (recordScore me.1) de.2 acc)
      me.2 acc)
    rawData [].

(** [scores.length > 0 ? scores.reduce((a, b) => a + b, 0) / scores.length : null] *)
Definition averageOrNull (scores : list Q) : option Q :=
  if decide (0 < length scores) then Some (average scores) else None.

(** [const scores = modelData[method];
     modelData[method + 'Avg'] = ...] *)
Definition withMethodAverage (e : MethodPerformance.t) (method : string)
  : result MethodPerformance.t :=
  match lookupOwn method (MethodPerformance.scores e) with
  | Some l =>
      Ok {| MethodPerformance.scores := MethodPerformance.scores e;
            MethodPerformance.avgs :=
              setProp (method +:+ "Avg") (averageOrNull l)
                      (MethodPerformance.avgs e) |}
  | None => TypeError
  end.

(** [for (const method of CONFIG.methods) ...] on one entry *)
Definition withMethodAverages (e : MethodPerformance.t)
  : result MethodPerformance.t :=
  foldM withMethodAverage methods e.

(** [for (const modelData of Object.values(modelMethodPerformance)) ...] *)
Definition averageMethodPerformance (acc : JsObject MethodPerformance.t)
  : result (JsObject MethodPerformance.t) :=
  foldM (fun averaged (ke : string * MethodPerformance.t) =>
           e' ← withMethodAverages ke.2;
           Ok (averaged ++ [(ke.1, e')]))
        acc [].

(** *** [computeModelDatasetRanks] *)

Definition initDatasetRanks (modelRanks : list ModelRankRecord)
  : JsObject DatasetRanks.t :=
  fold_left (fun acc m =>
               setProp (model_key m)
                 {| DatasetRanks.model_display := model_display m;
                    DatasetRanks.datasets := [] |} acc)
            modelRanks [].

(** [const allDatasets = new Set(); ... allDatasets.add(dataset)] *)
Definition allDatasets (rawData : RawData) : list string :=
  fold_left (fun s methodData => fold_left setAdd (keys methodData) s)
            (values rawData) [].

(** [if (!modelRanksByMethod[item.model]) modelRanksByMethod[item.model] = [];
     modelRanksByMethod[item.model].push(idx + 1);] *)
Definition recordMethodRank (acc : JsObject (list nat)) (p : string * nat)
  : result (JsObject (list nat)) :=
  match getProp p.1 acc with
  | Own l => Ok (setProp p.1 (l ++ [p.2]) acc)
  | Inherited => TypeError
  | Undefined => Ok (setProp p.1 [p.2] acc)
  end.

(** [for (const [method, methodData] of Object.entries(rawData)) {
       if (!methodData[dataset]) continue; ... }]
    When [dataset] names a member of [Object.prototype] the test passes
    and [Object.entries] of that member is empty. *)
Definition modelRanksByMethod (rawData : RawData) (dataset : string)
  : result (JsObject (list nat)) :=
  foldM (fun acc (me : string * MethodData) =>
           match getProp dataset me.2 with
           | Own models => foldM recordMethodRank (rankModels models) acc
           | Inherited => Ok acc
           | Undefined => Ok acc
           end)
        rawData [].

(** [if (modelDatasetRanks[modelKey]) {
       const avgRank = ranks.reduce((a, b) => a + b, 0) / ranks.length;
       modelDatasetRanks[modelKey].datasets[dataset] = avgRank; }] *)
Definition storeAverageRank (dataset : string)
    (acc : JsObject DatasetRanks.t) (kr : string * list nat)
  : result (JsObject DatasetRanks.t) :=
  match getProp kr.1 acc with
  | Own r =>
      Ok (setProp kr.1
            {| DatasetRanks.model_display := DatasetRanks.model_display r;
               DatasetRanks.datasets :=
                 setProp dataset (average (num <$> kr.2))
                         (DatasetRanks.datasets r) |}
            acc)
  | Inherited => TypeError
  | Undefined => Ok acc
  end.

Definition computeModelDatasetRanks (rawData : RawData)
    (modelRanks : list ModelRankRecord) : result (JsObject DatasetRanks.t) :=
  foldM (fun acc dataset =>
           byMethod ← modelRanksByMethod rawData dataset;
           foldM (storeAverageRank dataset) byMethod acc)
        (allDatasets rawData) (initDatasetRanks modelRanks).

(** *** [computeDetailedStats] *)

Definition computeDetailedStats (rawData : RawData) (stats : Stats)
  : result DetailedStats :=
  ranks ← collectCategoryRanks rawData (initCategoryRanks (model_ranks stats));
  let modelCategoryRanks := averageCategoryRanks ranks in
  perf ← collectMethodPerformance rawData;
  modelMethodPerformance ← averageMethodPerformance perf;
  modelDatasetRanks ← computeModelDatasetRanks rawData (model_ranks stats);
  Ok {| modelCategoryRanks := modelCategoryRanks;
        modelMethodPerformance := modelMethodPerformance;
        modelDatasetRanks := modelDatasetRanks |}.

End Leaderboard.

(** ** [js/performance.js] *)

Module Performance.

(** [PERF_CONFIG.methods], [PERF_CONFIG.methodNames] *)
Definition methods : list string :=
  ["frozen"; "lora"; "dora"; "cnn"; "transformer"].

Definition methodNames : JsObject string :=
  [ ("frozen", "Frozen"); ("lora", "LoRA"); ("dora", "DoRA");
    ("cnn", "CNN Adapter"); ("transformer", "Trans. Adapter") ].

(** [PERF_CONFIG.metrics]: the pairs [{ key, name }] *)
Definition metrics : list (string * string) :=
  [ ("Mean_Dice", "mDice"); ("mIoU", "mIoU");
    ("Pixel_Accuracy", "Pixel Acc"); ("Mean_Accuracy", "mAcc");
    ("Frequency_Weighted_IoU", "FW IoU"); ("Mean_Precision", "mPrecision");
    ("Mean_Recall", "mRecall"); ("Mean_F1", "mF1") ].

(** [PERF_CONFIG.datasetCategories] *)
Definition datasetCategories : JsObject (list string) :=
  [ ("Nuclear", ["CoNIC2022"; "CoNSeP"; "cpm15"; "cpm17"; "kumar";
                 "Lizard"; "NuCLS"; "PanNuke"; "TNBC"]);
    ("Gland", ["GlaS"; "CRAG"; "RINGS"]);
    ("Tissue", ["BCSS"; "CoCaHis"; "COSAS24"; "EBHI"; "WSSS4LUAD";
                "Janowczyk"]) ].

Definition datasetDisplayNames : JsObject string :=
  [ ("CoNIC2022", "CoNIC2022"); ("PanNuke", "PanNuke"); ("cpm15", "CPM15");
    ("cpm17", "CPM17"); ("kumar", "Kumar"); ("CoNSeP", "CoNSeP");
    ("TNBC", "TNBC"); ("NuCLS", "NuCLS"); ("Lizard", "Lizard");
    ("GlaS", "GlaS"); ("CRAG", "CRAG"); ("RINGS", "RINGS");
    ("BCSS", "BCSS"); ("CoCaHis", "CoCaHis"); ("COSAS24", "COSAS24");
    ("EBHI", "EBHI"); ("WSSS4LUAD", "WSSS4LUAD");
    ("Janowczyk", "Janowczyk") ].

Definition modelDisplayNames : JsObject string :=
  [ ("PathOrchestra", "PathOrchestra"); ("conch_v1_5", "CONCHv1.5");
    ("conch_v1", "CONCH"); ("gigapath", "Prov-GigaPath");
    ("hibou_l", "Hibou-L"); ("hoptimus_0", "H-Optimus-0");
    ("hoptimus_1", "H-Optimus-1"); ("kaiko-vitl14", "Kaiko-L");
    ("lunit_vits8", "Lunit"); ("midnight12k", "Midnight-12k");
    ("musk", "MUSK"); ("phikon", "Phikon"); ("phikon_v2", "Phikon-v2");
    ("uni_v1", "UNI"); ("uni_v2", "UNI2-h"); ("virchow_v1", "Virchow");
    ("virchow_v2", "Virchow2") ].

Definition getDatasetCategory (dataset : string) : string :=
  firstCategory datasetCategories dataset.

(** What [table[key]] holds when it is used as a label: a string of the
    table, a member of [Object.prototype], or [undefined]. *)
Definition Label : Type := Property string.

(** [PERF_CONFIG.modelDisplayNames[modelKey] || modelKey]; the names in
    the table are non-empty, hence truthy. *)
Definition getModelDisplayName (modelKey : string) : Label :=
  match getProp modelKey modelDisplayNames with
  | Undefined => Own modelKey
  | found => found
  end.

(** [PERF_CONFIG.datasetDisplayNames[datasetKey] || datasetKey] *)
Definition getDatasetDisplayName (datasetKey : string) : Label :=
  match getProp datasetKey datasetDisplayNames with
  | Undefined => Own datasetKey
  | found => found
  end.

(** An element of [metricData]. *)
Module Datum.
Record t := {
  model : string;
  modelDisplay : Label;
  method : string;
  methodDisplay : Label;
  mean : Q;
  ci_lower : Q;
  ci_upper : Q;
  std : Q
}.
End Datum.

(** [processed[dataset].metrics[metric.key]] *)
Module MetricSummary.
Record t := {
  name : string;
  data : list Datum.t;
  best : option Datum.t
}.
End MetricSummary.

(** [processed[dataset]] *)
Module Dataset.
Record t := {
  name : Label;
  category : string;
  metrics : JsObject MetricSummary.t
}.
End Dataset.

(** [const allDatasets = new Set(); ... allDatasets.add(dataset)] *)
Definition allDatasets (rawData : RawData) : list string :=
  fold_left (fun s methodData => fold_left setAdd (keys methodData) s)
            (values rawData) [].

(** The object pushed for an observation:
    [{ model: modelKey, modelDisplay: getModelDisplayName(modelKey),
       method: method, methodDisplay: PERF_CONFIG.methodNames[method],
       mean: ..., ci_lower: ..., ci_upper: ...,
       std: (ci_upper - ci_lower) / (2 * 1.96) }] *)
Definition datum (method modelKey : string) (obs : Observation.t) : Datum.t :=
  {| Datum.model := modelKey;
     Datum.modelDisplay := getModelDisplayName modelKey;
     Datum.method := method;
     Datum.methodDisplay := getProp method methodNames;
     Datum.mean := Observation.mean obs;
     Datum.ci_lower := Observation.ci_lower obs;
     Datum.ci_upper := Observation.ci_upper obs;
     Datum.std :=
       ((Observation.ci_upper obs - Observation.ci_lower obs)
        / (2 * 1.96))%Q |}.

(** [if (modelMetrics[metric.key]) metricData.push({ ... })]; the metric
    keys are those of [PERF_CONFIG.metrics], none of which names a member
    of [Object.prototype]. *)
Definition pushDatum (method metricKey : string) (metricData : list Datum.t)
    (me : string * Metrics) : list Datum.t :=
  match lookupOwn metricKey me.2 with
  | Some obs => metricData ++ [datum method me.1 obs]
  | None => metricData
  end.

(** [for (const [method, methodData] of Object.entries(rawData)) {
       if (!methodData[dataset]) continue;
       for (const [modelKey, modelMetrics] of Object.entries(methodData[dataset])) ... }]
    When [dataset] names a member of [Object.prototype] the test passes
    and [Object.entries] of that member is empty. *)
Definition collectMetricData (rawData : RawData) (dataset metricKey : string)
  : list Datum.t :=
  fold_left (fun metricData (me : string * MethodData) =>
               match getProp dataset me.2 with
               | Own models =>
                   fold_left (pushDatum me.1 metricKey) models metricData
               | Inherited => metricData
               | Undefined => metricData
               end)
            rawData [].

(** [(a, b) => b.mean - a.mean] *)
Definition byMeanDescending : Datum.t → Datum.t → Q :=
  descending Datum.mean.

(** [metricData.sort(...); { name: metric.name, data: metricData,
      best: metricData.length > 0 ? metricData[0] : null }] *)
Definition summarize (rawData : RawData) (dataset : string)
    (metric : string * string) : MetricSummary.t :=
  let metricData :=
    sort byMeanDescending (collectMetricData rawData dataset metric.1) in
  {| MetricSummary.name := metric.2;
     MetricSummary.data := metricData;
     MetricSummary.best :=
       if decide (0 < length metricData) then metricData !! 0%nat else None |}.

(** The entry of [dataset]: it is stored with [metrics: {}] and filled in
    place, one metric after the other; this is its content once filled. *)
Definition processDataset (rawData : RawData) (dataset : string)
  : Dataset.t :=
  {| Dataset.name := getDatasetDisplayName dataset;
     Dataset.category := getDatasetCategory dataset;
     Dataset.metrics :=
       fold_left (fun ms metric =>
                    setProp metric.1 (summarize rawData dataset metric) ms)
                 metrics [] |}.

Definition processPerformanceData (rawData : RawData)
  : JsObject Dataset.t :=
  fold_left (fun processed dataset =>
               setProp dataset (processDataset rawData dataset) processed)
            (allDatasets rawData) [].

End Performance.

(** ** The page session

    [let globalData = { stats: null, rawData: {}, charts: {} }] and the
    statements of [init] that store the loaded files and run the
    aggregation:
    [globalData.stats = stats; globalData.rawData = rawData;
     globalData.detailedStats = computeDetailedStats(rawData, stats);]
    (the charts belong to the rendering). *)

Module Page.




End Page.

(** ** The same functions on a heap

    For the question whether the functions write to the objects they are
    given, objects live in a heap and are referred to by location; a
    property write and [push] update a cell in place, and two references
    to one location see the same cell.  The arrays that
    [Object.entries], [filter], [map] and [sort] build and drop, and the
    [Set] of dataset names, are kept as lists outside the heap.

    Reads are exact on tables of the specified shape (dictionaries of
    dictionaries with numbers at the leaves, strings as keys); on other
    values a read yields [undefined], no entries or [TypeError].  A write
    to an object of the heap is never dropped. *)

Module Heap.

Abbreviation loc := nat.

Inductive value : Type :=
| Undef
| Null
| Num (q : Q)
| Str (s : string)
| Ref (l : loc)
| Builtin.  (* a member of [Object.prototype] *)

(** An object: its own properties, and its elements when it is an array. *)
Record cell := {
  props : JsObject value;
  elems : option (list value)
}.

Definition object (ps : JsObject value) : cell :=
  {| props := ps; elems := None |}.
Definition array (xs : list value) : cell :=
  {| props := []; elems := Some xs |}.

Abbreviation heap := (list cell).

(** A computation reads and updates the heap and may throw; the heap is
    kept when it throws. *)
Definition M (A : Type) : Type := heap → result A * heap.

#[global] Instance M_ret : MRet M := λ A a h, (Ok a, h).
#[global] Instance M_bind : MBind M := λ A B k m h,
  match m h with
  | (Ok a, h') => k a h'
  | (TypeError, h') => (TypeError, h')
  end.

Fixpoint forEach {A} (xs : list A) (body : A → M unit) : M unit :=
  match xs with
  | [] => mret ()
  | x :: xs' => body x;; forEach xs' body
  end.

(** [{ ... }] and [[]]: a new cell at the end of the heap. *)
Definition alloc (c : cell) : M value :=
  λ h, (Ok (Ref (length h)), h ++ [c]).

(** [v[k]] *)
Definition getValue (v : value) (k : string) (h : heap) : result value :=
  match v with
  | Undef | Null => TypeError
  | Ref l =>
      match h !! l with
      | Some c =>
          match getProp k (props c) with
          | Own x => Ok x
          | Inherited => Ok Builtin
          | Undefined => Ok Undef
          end
      | None => Ok Undef
      end
  | _ => Ok Undef
  end.

Definition get (v : value) (k : string) : M value :=
  λ h, (getValue v k h, h).

(** [v[k] = x]; on a number or a string the write is dropped, and a
    builtin is not part of the heap. *)
Definition store (v : value) (k : string) (x : value) (h : heap) : heap :=
  match v with
  | Ref l =>
      match h !! l with
      | Some c => <[l := {| props := setProp k x (props c); elems := elems c |}]> h
      | None => h
      end
  | _ => h
  end.

Definition set (v : value) (k : string) (x : value) : M unit :=
  λ h, match v with
       | Undef | Null => (TypeError, h)
       | _ => (Ok (), store v k x h)
       end.

(** [v.push(x)]; only an array has [push]. *)
Definition push (v : value) (x : value) : M unit :=
  λ h, match v with
       | Ref l =>
           match h !! l with
           | Some c =>
               match elems c with
               | Some xs =>
                   (Ok (), <[l := {| props := props c; elems := Some (xs ++ [x]) |}]> h)
               | None => (TypeError, h)
               end
           | None => (TypeError, h)
           end
       | _ => (TypeError, h)
       end.

(** [Object.entries(v)] *)
Definition entriesOf (v : value) (h : heap) : result (JsObject value) :=
  match v with
  | Undef | Null => TypeError
  | Ref l => match h !! l with Some c => Ok (props c) | None => Ok [] end
  | _ => Ok []
  end.

Definition entries (v : value) : M (JsObject value) :=
  λ h, (entriesOf v h, h).

(** The elements of an array, for [for ... of], [length] and [reduce]. *)
Definition elementsOf (v : value) (h : heap) : result (list value) :=
  match v with
  | Ref l =>
      match h !! l with
      | Some c => match elems c with Some xs => Ok xs | None => TypeError end
      | None => TypeError
      end
  | _ => TypeError
  end.

Definition elements (v : value) : M (list value) :=
  λ h, (elementsOf v h, h).

(** The test of [if (v)]. *)
Definition truthy (v : value) : bool :=
  match v with
  | Undef | Null => false
  | Num q => negb (Qeq_bool q 0)
  | Str s => negb (String.eqb s "")
  | Ref _ | Builtin => true
  end.

(** A value as a number and as a property key.  The tables have numbers
    and strings there; what is not a number is read as [0], and a key that
    is an object, a number or a builtin as the key of an object. *)
Definition toNum (v : value) : Q := match v with Num q => q | _ => 0%Q end.
Definition toKey (v : value) : string :=
  match v with
  | Str s => s
  | Undef => "undefined"
  | Null => "null"
  | _ => "[object Object]"
  end.

(** [CONFIG.methods] as in [js/leaderboard.js]. *)
Definition methods : list string := Leaderboard.methods.

(** [Object.entries(models).filter(([_, m]) => m.Mean_Dice)
      .map(([model, m]) => ({ model, score: m.Mean_Dice.mean }))] *)
Fixpoint scoreItems (es : JsObject value) : M (list (string * Q)) :=
  match es with
  | [] => mret []
  | (k, m) :: es' =>
      d ← get m "Mean_Dice";
      if truthy d then
        s ← get d "mean"; rest ← scoreItems es'; mret ((k, toNum s) :: rest)
      else scoreItems es'
  end.

(** [... .sort((a, b) => b.score - a.score)] *)
Definition sortedScores (models : value) : M (list (string * Q)) :=
  es ← entries models;
  items ← scoreItems es;
  mret (sort (descending snd) items).

(** [modelCategoryRanks[model.model_key] =
       { model: model.model_display, overall: model.avg_rank,
         Nuclear: [], Gland: [], Tissue: [] }] *)
Definition initCategoryRanks (modelCategoryRanks model : value) : M unit :=
  key ← get model "model_key";
  display ← get model "model_display";
  overall ← get model "avg_rank";
  nuclear ← alloc (array []);
  gland ← alloc (array []);
  tissue ← alloc (array []);
  r ← alloc (object [("model", display); ("overall", overall);
                     ("Nuclear", nuclear); ("Gland", gland);
                     ("Tissue", tissue)]);
  set modelCategoryRanks (toKey key) r.

(** [if (modelCategoryRanks[item.model])
       modelCategoryRanks[item.model][category].push(idx + 1);] *)
Definition recordCategoryRank (modelCategoryRanks : value) (category : string)
    (p : nat * (string * Q)) : M unit :=
  r ← get modelCategoryRanks p.2.1;
  if truthy r then
    r' ← get modelCategoryRanks p.2.1;
    ranks ← get r' category;
    push ranks (Num (num (p.1 + 1)))
  else mret ().

Definition collectCategoryRanks (modelCategoryRanks rawData : value) : M unit :=
  ms ← entries rawData;
  forEach ms (λ me,
    ds ← entries me.2;
    forEach ds (λ de,
      let category := Leaderboard.getDatasetCategory de.1 in
      if decide (category = "Other") then mret ()
      else
        scores ← sortedScores de.2;
        forEach (indexed scores)
                (recordCategoryRank modelCategoryRanks category))).

(** [const ranks = modelData[category];
     modelData[category + 'Avg'] = ranks.length > 0 ? ... : 999;] *)
Definition setCategoryAverage (modelData : value) (category : string) : M unit :=
  ranks ← get modelData category;
  xs ← elements ranks;
  set modelData (category +:+ "Avg")
      (Num (if decide (0 < length xs) then average (toNum <$> xs) else 999%Q)).

Definition averageCategoryRanks (modelCategoryRanks : value) : M unit :=
  es ← entries modelCategoryRanks;
  forEach es.*2 (λ modelData,
    forEach ["Nuclear"; "Gland"; "Tissue"] (setCategoryAverage modelData)).

(** [if (!metrics.Mean_Dice) continue;
     if (!modelMethodPerformance[modelKey]) {
       modelMethodPerformance[modelKey] = {};
       for (const m of CONFIG.methods) modelMethodPerformance[modelKey][m] = [];
     }
     modelMethodPerformance[modelKey][method].push(metrics.Mean_Dice.mean);] *)
Definition recordScore (modelMethodPerformance : value) (method : string)
    (ke : string * value) : M unit :=
  d ← get ke.2 "Mean_Dice";
  if truthy d then
    e ← get modelMethodPerformance ke.1;
    (if truthy e then mret ()
     else
       o ← alloc (object []);
       set modelMethodPerformance ke.1 o;;
       forEach methods (λ m,
         e' ← get modelMethodPerformance ke.1;
         a ← alloc (array []);
         set e' m a));;
    e' ← get modelMethodPerformance ke.1;
    scores ← get e' method;
    d' ← get ke.2 "Mean_Dice";
    x ← get d' "mean";
    push scores x
  else mret ().

Definition collectMethodPerformance (modelMethodPerformance rawData : value)
  : M unit :=
  ms ← entries rawData;
  forEach ms (λ me,
    ds ← entries me.2;
    forEach ds (λ de,
      ks ← entries de.2;
      forEach ks (recordScore modelMethodPerformance me.1))).

(** [const scores = modelData[method];
     modelData[method + 'Avg'] = scores.length > 0 ? ... : null;] *)
Definition setMethodAverage (modelData : value) (method : string) : M unit :=
  scores ← get modelData method;
  xs ← elements scores;
  set modelData (method +:+ "Avg")
      (if decide (0 < length xs) then Num (average (toNum <$> xs)) else Null).

Definition averageMethodPerformance (modelMethodPerformance : value) : M unit :=
  es ← entries modelMethodPerformance;
  forEach es.*2 (λ modelData, forEach methods (setMethodAverage modelData)).

(** [modelDatasetRanks[model.model_key] =
       { model_display: model.model_display, datasets: {} }] *)
Definition initDatasetRanks (modelDatasetRanks model : value) : M unit :=
  key ← get model "model_key";
  display ← get model "model_display";
  datasets ← alloc (object []);
  r ← alloc (object [("model_display", display); ("datasets", datasets)]);
  set modelDatasetRanks (toKey key) r.

(** [for (const methodData of Object.values(rawData))
       for (const dataset of Object.keys(methodData)) allDatasets.add(dataset);] *)
Fixpoint allDatasets (ms : JsObject value) (s : list string) : M (list string) :=
  match ms with
  | [] => mret s
  | me :: ms' =>
      ds ← entries me.2;
      allDatasets ms' (fold_left setAdd (keys ds) s)
  end.

(** [if (!modelRanksByMethod[item.model]) modelRanksByMethod[item.model] = [];
     modelRanksByMethod[item.model].push(idx + 1);] *)
Definition recordMethodRank (modelRanksByMethod : value)
    (p : nat * (string * Q)) : M unit :=
  x ← get modelRanksByMethod p.2.1;
  (if truthy x then mret ()
   else a ← alloc (array []); set modelRanksByMethod p.2.1 a);;
  y ← get modelRanksByMethod p.2.1;
  push y (Num (num (p.1 + 1))).

(** [if (modelDatasetRanks[modelKey]) {
       const avgRank = ranks.reduce((a, b) => a + b, 0) / ranks.length;
       modelDatasetRanks[modelKey].datasets[dataset] = avgRank; }] *)
Definition storeAverageRank (modelDatasetRanks : value) (dataset : string)
    (kr : string * value) : M unit :=
  r ← get modelDatasetRanks kr.1;
  if truthy r then
    xs ← elements kr.2;
    r' ← get modelDatasetRanks kr.1;
    datasets ← get r' "datasets";
    set datasets dataset (Num (average (toNum <$> xs)))
  else mret ().

Definition averageDataset (modelDatasetRanks rawData : value) (dataset : string)
  : M unit :=
  modelRanksByMethod ← alloc (object []);
  ms ← entries rawData;
  forEach ms (λ me,
    models ← get me.2 dataset;
    if truthy models then
      models' ← get me.2 dataset;
      scores ← sortedScores models';
      forEach (indexed scores) (recordMethodRank modelRanksByMethod)
    else mret ());;
  es ← entries modelRanksByMethod;
  forEach es (storeAverageRank modelDatasetRanks dataset).

Definition computeModelDatasetRanks (rawData modelRanks : value) : M value :=
  modelDatasetRanks ← alloc (object []);
  models ← elements modelRanks;
  forEach models (initDatasetRanks modelDatasetRanks);;
  ms ← entries rawData;
  datasets ← allDatasets ms [];
  forEach datasets (averageDataset modelDatasetRanks rawData);;
  mret modelDatasetRanks.

Definition computeDetailedStats (rawData stats : value) : M value :=
  modelCategoryRanks ← alloc (object []);
  model_ranks ← get stats "model_ranks";
  models ← elements model_ranks;
  forEach models (initCategoryRanks modelCategoryRanks);;
  collectCategoryRanks modelCategoryRanks rawData;;
  averageCategoryRanks modelCategoryRanks;;
  modelMethodPerformance ← alloc (object []);
  collectMethodPerformance modelMethodPerformance rawData;;
  averageMethodPerformance modelMethodPerformance;;
  model_ranks' ← get stats "model_ranks";
  modelDatasetRanks ← computeModelDatasetRanks rawData model_ranks';
  alloc (object [("modelCategoryRanks", modelCategoryRanks);
                 ("modelMethodPerformance", modelMethodPerformance);
                 ("modelDatasetRanks", modelDatasetRanks)]).

End Heap.

(** ** Notions the specification speaks of *)

(** The categories that have an average. *)
Definition namedCategories : list string := ["Nuclear"; "Gland"; "Tissue"].



(** The ranks a ranking gives to the model [key]. *)
Definition ranksOf (key : string) (ranking : list (string * nat)) : list nat :=
  (filter (fun p => p.1 = key) ranking).*2.



(** The model [key] has a [Mean_Dice] observation somewhere in the table. *)
Definition observed (rawData : RawData) (key : string) : Prop :=
  ∃ me de m obs, me ∈ rawData ∧ de ∈ me.2 ∧ (key, m) ∈ de.2
    ∧ Mean_Dice m = Some obs.

(** The model [key] has a [Mean_Dice] observation for [dataset] under some
    method. *)
Definition observedOn (rawData : RawData) (dataset key : string) : Prop :=
  ∃ me models m obs, me ∈ rawData ∧ lookupOwn dataset me.2 = Some models
    ∧ (key, m) ∈ models ∧ Mean_Dice m = Some obs.

(** The ranks of the model [key] for [dataset], one ranking per method
    that has the dataset, in the order of the methods. *)
Definition methodRanks (rawData : RawData) (dataset key : string) : list nat :=
  me ← rawData;
  match lookupOwn dataset me.2 with
  | Some models => ranksOf key (rankModels models)
  | None => []
  end.

(** The observations of a metric for a dataset, over all methods and
    models, in the order they are met. *)
Definition observations (rawData : RawData) (dataset metricKey : string)
  : list (string * string * Observation.t) :=
  me ← rawData;
  match lookupOwn dataset me.2 with
  | Some models =>
      ke ← models;
      match lookupOwn metricKey ke.2 with
      | Some obs => [(me.1, ke.1, obs)]
      | None => []
      end
  | None => []
  end.

(** Every method of the table is one of [CONFIG.methods], as in a table
    built by [loadAllData]. *)
Definition configuredMethods (rawData : RawData) : Prop :=
  ∀ me, me ∈ rawData → me.1 ∈ Leaderboard.methods.


(** ** A sample table

    Two methods; [GlaS] is a Gland dataset and [DS1] is of no category.
    The model [m3] is listed in the summary and has no observation; the
    model [m4] has an observation and is not listed. *)

Definition sampleMetrics (q : Q) : Metrics :=
  [ ("Mean_Dice",
     {| Observation.mean := q; Observation.ci_lower := q - 0.01;
        Observation.ci_upper := q + 0.01 |}) ].

Definition sampleRawData : RawData :=
  [ ("frozen",
     [ ("DS1", [("m1", sampleMetrics 0.9); ("m2", sampleMetrics 0.7)]);
       ("GlaS", [("m1", sampleMetrics 0.5); ("m2", sampleMetrics 0.6);
                 ("m4", sampleMetrics 0.6); ("m5", [])]) ]);
    ("lora",
     [ ("DS1", [("m1", sampleMetrics 0.8); ("m2", sampleMetrics 0.95)]) ]) ].

Definition sampleModel (key : string) (rank : Q) : ModelRankRecord :=
  {| model_key := key; model_display := key; avg_rank := rank;
     avg_rank_display := ""; position := 1; total_comparisons := 3 |}.

Definition sampleStats : Stats :=
  {| model_ranks := [sampleModel "m1" 1.5; sampleModel "m2" 1.5;
                     sampleModel "m3" 3];
     dataset_sota := []; method_comparison := [] |}.

Definition sampleDetailedStats : Leaderboard.DetailedStats :=
  Eval vm_compute in
    match Leaderboard.computeDetailedStats sampleRawData sampleStats with
    | Ok out => out
    | TypeError =>
        {| Leaderboard.modelCategoryRanks := [];
           Leaderboard.modelMethodPerformance := [];
           Leaderboard.modelDatasetRanks := [] |}
    end.




(** A table in which a model key names a member of [Object.prototype]. *)
Definition sampleInheritedKey : RawData :=
  [ ("frozen", [ ("GlaS", [("constructor", sampleMetrics 0.5)]) ]) ].

(** The datum of an observation met under a method for a model. *)
Definition datumOf (o : string * string * Observation.t) : Performance.Datum.t :=
  Performance.datum o.1.1 o.1.2 o.2.

(** ** Views of the accumulators used in the proofs *)



(** The ranks of [key] gathered so far, none when it has no entry yet. *)
Definition gathered (key : string) (acc : JsObject (list nat)) : list nat :=
  default [] (lookupOwn key acc).



(** Numeric equality is decidable. *)
#[local] Instance Qeq_decision : RelDecision Qeq := Qeq_dec.

(** ** The tables as objects of the heap

    What [JSON.parse] makes of the files: an object for every dictionary
    and every record, an array for every list. *)

Module Store.
Import Heap.

Fixpoint allocEntries {V} (f : V → M value) (o : JsObject V)
  : M (JsObject value) :=
  match o with
  | [] => mret []
  | (k, v) :: o' => x ← f v; rest ← allocEntries f o'; mret ((k, x) :: rest)
  end.

Definition allocObject {V} (f : V → M value) (o : JsObject V) : M value :=
  es ← allocEntries f o; alloc (object es).

Fixpoint allocElements {V} (f : V → M value) (xs : list V) : M (list value) :=
  match xs with
  | [] => mret []
  | v :: xs' => x ← f v; rest ← allocElements f xs'; mret (x :: rest)
  end.

Definition allocArray {V} (f : V → M value) (xs : list V) : M value :=
  vs ← allocElements f xs; alloc (array vs).

Definition observation (obs : Observation.t) : M value :=
  alloc (object [("mean", Num (Observation.mean obs));
                 ("ci_lower", Num (Observation.ci_lower obs));
                 ("ci_upper", Num (Observation.ci_upper obs))]).

Definition rawData : RawData → M value :=
  allocObject (allocObject (allocObject (allocObject observation))).

Definition modelRank (r : ModelRankRecord) : M value :=
  alloc (object [("model_key", Str (model_key r));
                 ("model_display", Str (model_display r));
                 ("avg_rank", Num (avg_rank r));
                 ("avg_rank_display", Str (avg_rank_display r));
                 ("position", Num (num (position r)));
                 ("total_comparisons", Num (num (total_comparisons r)))]).

Definition datasetSota (r : DatasetSotaRecord) : M value :=
  alloc (object [("mDice", Num (mDice r));
                 ("mDice_display", Str (mDice_display r));
                 ("sota_model", Str (sota_model r));
                 ("sota_model_key", Str (sota_model_key r));
                 ("sota_method", Str (sota_method r));
                 ("sota_category", Str (sota_category r));
                 ("dataset_display", Str (dataset_display r));
                 ("sota_ci_lower", Num (sota_ci_lower r));
                 ("sota_ci_upper", Num (sota_ci_upper r))]).

Definition methodComparison (r : MethodComparison) : M value :=
  alloc (object [("method_display", Str (method_display r));
                 ("avg_mDice", Num (avg_mDice r));
                 ("avg_mDice_display", Str (avg_mDice_display r))]).

Definition stats (s : Stats) : M value :=
  ranks ← allocArray modelRank (model_ranks s);
  sota ← allocObject datasetSota (dataset_sota s);
  comparison ← allocObject methodComparison (method_comparison s);
  alloc (object [("model_ranks", ranks); ("dataset_sota", sota);
                 ("method_comparison", comparison)]).

(** [v[k1][k2]...] *)
Fixpoint path (v : value) (ks : list string) (h : heap) : result value :=
  match ks with
  | [] => Ok v
  | k :: ks' =>
      match getValue v k h with
      | Ok x => path x ks' h
      | TypeError => TypeError
      end
  end.

(** The number read at a path, if there is one. *)
Definition numberAt (v : value) (ks : list string) (h : heap) : option Q :=
  match path v ks h with Ok (Num q) => Some q | _ => None end.

(** The heap after the page has loaded [table] and [summary], and the two
    references. *)
Definition loaded (table : RawData) (summary : Stats)
  : result (value * value) * heap :=
  (r ← rawData table; s ← stats summary; mret (r, s)) [].

End Store.

(** The same reads in the aggregate of the tables. *)
Definition categoryAvgOf (out : Leaderboard.DetailedStats)
    (key category : string) : option Q :=
  r ← lookupOwn key (Leaderboard.modelCategoryRanks out);
  Leaderboard.CategoryRanks.avg category r.

Definition methodAvgOf (out : Leaderboard.DetailedStats)
    (key method : string) : option Q :=
  e ← lookupOwn key (Leaderboard.modelMethodPerformance out);
  a ← lookupOwn (method +:+ "Avg") (Leaderboard.MethodPerformance.avgs e);
  a.

Definition datasetRankOf (out : Leaderboard.DetailedStats)
    (key dataset : string) : option Q :=
  e ← lookupOwn key (Leaderboard.modelDatasetRanks out);
  lookupOwn dataset (Leaderboard.DatasetRanks.datasets e).

(** ** What a call leaves alone

    The objects of the inputs are the cells below [n0]; a call makes its
    own objects beyond them. *)

(** The cells below [n0] are the same in [h'] as in [h]. *)
Definition frame (n0 : nat) (h h' : Heap.heap) : Prop :=
  (n0 ≤ length h → n0 ≤ length h')%nat
  ∧ ∀ l, (l < n0)%nat → h' !! l = h !! l.

(** From [h], the computation keeps the cells below [n0], and its result
    and final heap satisfy [Q] when it returns. *)
Definition wp (n0 : nat) {A} (m : Heap.M A) (Q : A → Heap.heap → Prop)
    (h : Heap.heap) : Prop :=
  frame n0 h (m h).2
  ∧ match (m h).1 with Ok a => Q a (m h).2 | TypeError => True end.

(** A value that, when it is a reference, refers to an object made during
    the call. *)
Definition freshVal (n0 : nat) (v : Heap.value) : Prop :=
  match v with Heap.Ref l => (n0 ≤ l)%nat | _ => True end.

(** A computation that only reads. *)
Definition readonly {A} (m : Heap.M A) : Prop := ∀ h, (m h).2 = h.

(** A reference to an object of the call whose properties under [names]
    are fresh; [names] are the property names under which the code looks
    for an object to write to. *)
Definition goodRef (n0 : nat) (names : string → Prop) (h : Heap.heap)
    (v : Heap.value) : Prop :=
  match v with
  | Heap.Ref r =>
      (n0 ≤ r)%nat ∧ (r < length h)%nat
      ∧ ∀ c k x, h !! r = Some c → (k, x) ∈ Heap.props c → names k →
          freshVal n0 x
  | _ => True
  end.

(** A dictionary of the call all of whose values are such references. *)
Definition goodMap (n0 : nat) (names : string → Prop) (h : Heap.heap)
    (root : Heap.loc) : Prop :=
  (n0 ≤ root)%nat ∧ (root < length h)%nat
  ∧ ∀ c k v, h !! root = Some c → (k, v) ∈ Heap.props c →
      goodRef n0 names h v.

(** From [h] to [h']: the heap got longer, and a property of an old cell
    is as before or holds a fresh value. *)
Definition grows (n0 : nat) (h h' : Heap.heap) : Prop :=
  (length h ≤ length h')%nat
  ∧ ∀ l c' k x, (l < length h)%nat → h' !! l = Some c' →
      (k, x) ∈ Heap.props c' →
      freshVal n0 x ∨ ∃ c, h !! l = Some c ∧ (k, x) ∈ Heap.props c.

(** The names under which each accumulator is written through. *)
Definition named (k : string) : Prop := k ∈ namedCategories.
Definition anyName (k : string) : Prop := True.
Definition datasetsName (k : string) : Prop := k = "datasets".

(** ** Strings *)

Module JsString.

(** [c.toLowerCase()] for one character: the letters A to Z. *)
Definition lowerChar (c : Ascii.ascii) : Ascii.ascii :=
  let n := Ascii.nat_of_ascii c in
  if (65 <=? n)%nat && (n <=? 90)%nat then Ascii.ascii_of_nat (n + 32) else c.

(** [s.toLowerCase()].  A string is a sequence of bytes; the function is
    exact on ASCII strings, as the names of the configuration are, and
    leaves every other byte as it is. *)
Fixpoint toLowerCase (s : string) : string :=
  match s with
  | EmptyString => EmptyString
  | String c s' => String (lowerChar c) (toLowerCase s')
  end.

End JsString.

(** ** Numbers with the infinities

    What [valA - valB] evaluates to once [Infinity] stands in for a
    missing value. *)

Module Number.

Inductive t : Type :=
| Finite (q : Q)
| Infinity
| NegInfinity
| NaN.

(** [a - b] *)
Definition minus (a b : t) : t :=
  match a, b with
  | NaN, _ | _, NaN => NaN
  | Finite x, Finite y => Finite (x - y)
  | Finite _, Infinity => NegInfinity
  | Finite _, NegInfinity => Infinity
  | Infinity, Infinity => NaN
  | Infinity, _ => Infinity
  | NegInfinity, NegInfinity => NaN
  | NegInfinity, _ => NegInfinity
  end.

(** What [Array.prototype.sort] makes of the result of its comparator:
    [NaN] counts as [+0], and otherwise only the sign is looked at. *)
Definition comparison (v : t) : Q :=
  match v with
  | Finite q => q
  | Infinity => 1
  | NegInfinity => -1
  | NaN => 0
  end.

End Number.

(** [Math.max(a, b)] on two numbers. *)
Definition mathMax (a b : Q) : Q := if Qlt_le_dec a b then b else a.

(** The test of [if (q)] and of [q || ...] on a number. *)
Definition truthyNumber (q : Q) : bool := negb (Qeq_bool q 0).

(** ** [js/leaderboard.js]: loading, tables and cards

    The functions below the aggregation: what [loadAllData] assembles,
    and the data behind the rows and cards that the render functions turn
    into HTML (the markup itself, the charts and the event wiring are not
    modelled).  The keys of the objects are names of methods, datasets
    and models; none is taken to be an array index (a key such as 7),
    which [Object.entries] would move to the front.  The fields [model],
    [model_key], [method], [category], [ci_lower] and [ci_upper] of an
    entry of [dataset_sota] are the fields [sota_model], [sota_model_key],
    [sota_method], [sota_category], [sota_ci_lower] and [sota_ci_upper] of
    [DatasetSotaRecord]. *)

Module LeaderboardTables.
Import Leaderboard.

(** [if (data) rawData[method] = data;] where [data] is what
    [loadMethodData] gave for [method]: the content of the file, or
    [null] (here [None]) when the file could not be fetched or parsed. *)
Definition storeMethod (loadMethodData : string → option MethodData)
    (rawData : RawData) (method : string) : RawData :=
  match loadMethodData method with
  | Some data => setProp method data rawData
  | None => rawData
  end.

(** [loadAllData]:
    [const results = await Promise.all(promises);
     const rawData = {};
     for (const [method, data] of results) { if (data) rawData[method] = data; }]
    [results] pairs every method of [CONFIG.methods], in this order, with
    its [data]. *)
Definition loadAllData (loadMethodData : string → option MethodData)
  : RawData :=
  fold_left (storeMethod loadMethodData) methods [].

(** [CONFIG.methodNames] *)
Definition methodNames : JsObject string :=
  [ ("frozen", "Frozen"); ("lora", "LoRA"); ("dora", "DoRA");
    ("cnn", "CNN Adapter"); ("transformer", "Trans. Adapter") ].

(** [CONFIG.allDatasets] *)
Definition CONFIG_allDatasets : list string :=
  [ "CoNIC2022"; "PanNuke"; "cpm15"; "cpm17"; "kumar"; "CoNSeP"; "TNBC";
    "NuCLS"; "Lizard";
    "GlaS"; "CRAG"; "RINGS";
    "BCSS"; "CoCaHis"; "COSAS24"; "EBHI"; "WSSS4LUAD"; "Janowczyk" ].

(** [getUniqueDatasets]:
    [const existingDatasets = new Set(Object.keys(datasetSota));
     return CONFIG.allDatasets.filter(d =>
       existingDatasets.has(d) || existingDatasets.has(d.toLowerCase()));] *)
Definition getUniqueDatasets {V} (datasetSota : JsObject V) : list string :=
  let existingDatasets := keys datasetSota in
  filter (fun d => d ∈ existingDatasets
                   ∨ JsString.toLowerCase d ∈ existingDatasets)
         CONFIG_allDatasets.

(** A row of [tableData].  In the source the ranks per dataset are
    properties of the row itself, [row[dataset]], beside the fixed ones;
    no dataset of [CONFIG.allDatasets] has the name of a fixed one, and
    they are kept apart here as [cells]. *)
Module TableRow.
Record t := {
  rank : nat;
  model : string;
  model_key : string;
  overall : Q;
  overall_display : string;
  isTop3 : bool;
  cells : JsObject (option Q)
}.
End TableRow.

(** [detailedStats.modelDatasetRanks[model.model_key]?.datasets || {}]:
    a member of [Object.prototype] has no [datasets]. *)
Definition datasetRanksOf (detailedStats : DetailedStats) (key : string)
  : JsObject Q :=
  match getProp key (modelDatasetRanks detailedStats) with
  | Own e => DatasetRanks.datasets e
  | Inherited => []
  | Undefined => []
  end.

(** [datasetRanks[key]] where it is a number other than 0, for [||].
    The keys read are the names of [CONFIG.allDatasets] and their
    lower-case forms, none of which names a member of [Object.prototype]. *)
Definition truthyRank (datasetRanks : JsObject Q) (key : string) : option Q :=
  match lookupOwn key datasetRanks with
  | Some q => if truthyNumber q then Some q else None
  | None => None
  end.

(** [datasetRanks[dataset] || datasetRanks[dataset.toLowerCase()] || null] *)
Definition datasetCell (datasetRanks : JsObject Q) (dataset : string)
  : option Q :=
  match truthyRank datasetRanks dataset with
  | Some q => Some q
  | None => truthyRank datasetRanks (JsString.toLowerCase dataset)
  end.

(** [modelRanks.map((model, idx) => { const row = {...};
       datasets.forEach(dataset => { row[dataset] = ...; }); return row; })] *)
Definition tableRow (detailedStats : DetailedStats) (datasets : list string)
    (p : nat * ModelRankRecord) : TableRow.t :=
  let datasetRanks := datasetRanksOf detailedStats (model_key p.2) in
  {| TableRow.rank := position p.2;
     TableRow.model := model_display p.2;
     TableRow.model_key := model_key p.2;
     TableRow.overall := avg_rank p.2;
     TableRow.overall_display := avg_rank_display p.2;
     TableRow.isTop3 := bool_decide (p.1 < 3)%nat;
     TableRow.cells :=
       fold_left (fun row dataset =>
                    setProp dataset (datasetCell datasetRanks dataset) row)
                 datasets [] |}.

(** The [tableData] that [renderLeaderboardTable] stores. *)
Definition renderLeaderboardTable {V} (modelRanks : list ModelRankRecord)
    (detailedStats : DetailedStats) (datasetSota : JsObject V)
  : list TableRow.t :=
  let datasets := getUniqueDatasets datasetSota in
  tableRow detailedStats datasets <$> indexed modelRanks.

(** [let currentSort = { column: 'rank', direction: 'asc' }] *)
Inductive Direction := asc | desc.

Module Sort.
Record t := {
  column : string;
  direction : Direction
}.
End Sort.

Definition currentSort : Sort.t :=
  {| Sort.column := "rank"; Sort.direction := asc |}.

(** [if (currentSort.column === column) {
       currentSort.direction = currentSort.direction === 'asc' ? 'desc' : 'asc';
     } else { currentSort.column = column; currentSort.direction = 'asc'; }] *)
Definition toggleSort (s : Sort.t) (column : string) : Sort.t :=
  if decide (Sort.column s = column) then
    {| Sort.column := Sort.column s;
       Sort.direction :=
         match Sort.direction s with asc => desc | desc => asc end |}
  else {| Sort.column := column; Sort.direction := asc |}.

(** [a[column]] for a column of the header with [data-type="number"]:
    [rank], [overall] or a dataset; [None] is [null] or [undefined]. *)
Definition numericValue (column : string) (a : TableRow.t) : option Q :=
  if decide (column = "rank") then Some (num (TableRow.rank a))
  else if decide (column = "overall") then Some (TableRow.overall a)
  else match lookupOwn column (TableRow.cells a) with
       | Some v => v
       | None => None
       end.

(** [if (valA === null || valA === undefined) valA = Infinity;] *)
Definition orInfinity (v : option Q) : Number.t :=
  match v with
  | Some q => Number.Finite q
  | None => Number.Infinity
  end.

(** The comparator of [handleSort] for [type] other than ['string']:
    [currentSort.direction === 'asc' ? valA - valB : valB - valA]. *)
Definition compareRows (s : Sort.t) (a b : TableRow.t) : Number.t :=
  let valA := orInfinity (numericValue (Sort.column s) a) in
  let valB := orInfinity (numericValue (Sort.column s) b) in
  match Sort.direction s with
  | asc => Number.minus valA valB
  | desc => Number.minus valB valA
  end.

(** [handleSort(column, 'number')]: the new sort state and the rows handed
    to [renderTableBody]; [tableData] itself is copied, not sorted. *)
Definition handleSort (s : Sort.t) (tableData : list TableRow.t)
    (column : string) : Sort.t * list TableRow.t :=
  let s' := toggleSort s column in
  (s', sort (fun a b => Number.comparison (compareRows s' a b)) tableData).

(** [const categoryMap = { nuclear: 'Nuclear', gland: 'Gland', tissue: 'Tissue' }] *)
Definition categoryMap : JsObject string :=
  [ ("nuclear", "Nuclear"); ("gland", "Gland"); ("tissue", "Tissue") ].

(** [(a, b) => b[1].mDice - a[1].mDice] *)
Definition byMDiceDescending
  : string * DatasetSotaRecord → string * DatasetSotaRecord → Q :=
  descending (fun e => mDice e.2).

(** [data.category === category] where [category] is what
    [categoryMap[activeTask]] gave: the category of an entry is a string,
    which is neither [undefined] nor a member of [Object.prototype]. *)
Definition hasCategory (category : Property string)
    (e : string * DatasetSotaRecord) : Prop :=
  match category with
  | Own c => sota_category e.2 = c
  | Inherited => False
  | Undefined => False
  end.

#[local] Instance hasCategory_dec category e : Decision (hasCategory category e).
Proof. destruct category; simpl; apply _. Defined.

(** [renderTasksTable(datasetSota, activeTask)]: the entries behind the
    rows, in the order of the rows; when there is none the table says
    "No data available".
    [let datasets = Object.entries(datasetSota)
       .sort((a, b) => b[1].mDice - a[1].mDice);
     if (activeTask !== 'all') {
       const category = categoryMap[activeTask];
       datasets = datasets.filter(([_, data]) => data.category === category); }] *)
Definition renderTasksTable (datasetSota : JsObject DatasetSotaRecord)
    (activeTask : string) : list (string * DatasetSotaRecord) :=
  let datasets := sort byMDiceDescending datasetSota in
  if decide (activeTask = "all") then datasets
  else filter (hasCategory (getProp activeTask categoryMap)) datasets.

(** [Math.max(x, ...xs)] *)
Definition mathMaxOf (x : Q) (xs : list Q) : Q := fold_left mathMax xs x.

(** A card of [renderTaskCards]. *)
Module TaskCard.
Record t := {
  count : nat;
  avgDice : Q;
  bestDice : Q
}.
End TaskCard.

(** [const datasets = Object.values(datasetSota).filter(d => d.category === category);
     const avgDice = datasets.length > 0
       ? datasets.reduce((sum, d) => sum + d.mDice, 0) / datasets.length : 0;
     const bestDice = datasets.length > 0
       ? Math.max(...datasets.map(d => d.mDice)) : 0;] *)
Definition renderTaskCard (datasetSota : JsObject DatasetSotaRecord)
    (category : string) : TaskCard.t :=
  let datasets :=
    filter (fun d => sota_category d = category) (values datasetSota) in
  {| TaskCard.count := length datasets;
     TaskCard.avgDice :=
       if decide (0 < length datasets) then
         (fold_left (fun sum d => sum + mDice d) datasets 0
          / num (length datasets))%Q
       else 0%Q;
     TaskCard.bestDice :=
       match mDice <$> datasets with
       | x :: xs => mathMaxOf x xs
       | [] => 0%Q
       end |}.

(** [categories.forEach(category => ...)] over
    [['Nuclear', 'Gland', 'Tissue']] *)
Definition renderTaskCards (datasetSota : JsObject DatasetSotaRecord)
  : list (string * TaskCard.t) :=
  (fun category => (category, renderTaskCard datasetSota category))
    <$> ["Nuclear"; "Gland"; "Tissue"].

(** [let bestMethod = null; let bestScore = -1;
     for (const method of CONFIG.methods) {
       const score = perfData[`${method}Avg`];
       if (score !== null && score > bestScore) {
         bestScore = score; bestMethod = method; } }]
    An average that is missing is [undefined], and [undefined > bestScore]
    is false. *)
Definition bestMethodStep (perfData : MethodPerformance.t)
    (best : option string * Q) (method : string) : option string * Q :=
  match lookupOwn (method +:+ "Avg") (MethodPerformance.avgs perfData) with
  | Some (Some score) =>
      if Qlt_le_dec best.2 score then (Some method, score) else best
  | Some None => best
  | None => best
  end.

Definition bestMethod (perfData : MethodPerformance.t) : option string :=
  (fold_left (bestMethodStep perfData) methods (None, (-1)%Q)).1.

(** A row of the method table: the name of the model, the score under
    each method of [CONFIG.methods] ([None] where the cell shows "-"),
    and the best method. *)
Module MethodRow.
Record t := {
  model : string;
  scores : list (option Q);
  best : option string
}.
End MethodRow.

(** [score !== null ? formatNumber(score, 4) : '-'] where
    [score = perfData[`${m}Avg`]]; [formatNumber] calls [toFixed] on its
    argument, which [undefined] does not have. *)
Definition methodCell (perfData : MethodPerformance.t) (m : string)
  : result (option Q) :=
  match lookupOwn (m +:+ "Avg") (MethodPerformance.avgs perfData) with
  | Some (Some score) => Ok (Some score)
  | Some None => Ok None
  | None => TypeError
  end.

(** The body of [modelRanks.forEach]:
    [const perfData = detailedStats.modelMethodPerformance[model.model_key];
     if (!perfData) return; ...]
    A member of [Object.prototype] passes the test and has no averages. *)
Definition renderMethodRow (detailedStats : DetailedStats)
    (rows : list MethodRow.t) (model : ModelRankRecord)
  : result (list MethodRow.t) :=
  match getProp (model_key model) (modelMethodPerformance detailedStats) with
  | Own perfData =>
      scores ← mapM (methodCell perfData) methods;
      Ok (rows ++ [ {| MethodRow.model := model_display model;
                       MethodRow.scores := scores;
                       MethodRow.best := bestMethod perfData |} ])
  | Inherited => TypeError
  | Undefined => Ok rows
  end.

(** The rows of [renderMethodTable]; when there is none the table says
    "No data available". *)
Definition renderMethodTable (modelRanks : list ModelRankRecord)
    (detailedStats : DetailedStats) : result (list MethodRow.t) :=
  foldM (renderMethodRow detailedStats) modelRanks [].

(** A card of [renderMethodCards]: the key of the method, its entry of
    [method_comparison], and whether it carries the "Best" badge. *)
Module MethodCard.
Record t := {
  key : string;
  data : MethodComparison;
  isBest : bool
}.
End MethodCard.

(** [const sorted = Object.entries(methodComparison)
       .sort((a, b) => b[1].avg_mDice - a[1].avg_mDice);
     sorted.forEach(([key, data], idx) => { const isBest = idx === 0; ... })] *)
Definition renderMethodCards (methodComparison : JsObject MethodComparison)
  : list MethodCard.t :=
  (fun p : nat * (string * MethodComparison) =>
     {| MethodCard.key := p.2.1; MethodCard.data := p.2.2;
        MethodCard.isBest := bool_decide (p.1 = 0%nat) |})
    <$> indexed (sort (descending (fun e => avg_mDice e.2)) methodComparison).

(** [updateModelInfo]:
    [let bestPerf = 0;
     for (const [dataset, data] of Object.entries(datasetSota)) {
       if (data.model_key === modelKey) bestPerf = Math.max(bestPerf, data.mDice); }] *)
Definition bestPerf (modelKey : string)
    (datasetSota : JsObject DatasetSotaRecord) : Q :=
  fold_left (fun best (e : string * DatasetSotaRecord) =>
               if decide (sota_model_key e.2 = modelKey)
               then mathMax best (mDice e.2) else best)
            datasetSota 0%Q.

(** An entry of [modelResults] in [renderModelDatasetTable]:
    [{ score, method: CONFIG.methodNames[method],
       category: getDatasetCategory(dataset) }], to which the second loop
    adds [rank]. *)
Module ModelResult.
Record t := {
  score : Q;
  method : Property string;
  category : string;
  rank : option nat
}.
End ModelResult.

(** [{ score, method: CONFIG.methodNames[method],
       category: getDatasetCategory(dataset) }] with
    [score = models[modelKey].Mean_Dice.mean] *)
Definition newResult (method dataset : string) (obs : Observation.t)
  : ModelResult.t :=
  {| ModelResult.score := Observation.mean obs;
     ModelResult.method := getProp method methodNames;
     ModelResult.category := getDatasetCategory dataset;
     ModelResult.rank := None |}.

(** [if (models[modelKey] && models[modelKey].Mean_Dice) {
       const score = models[modelKey].Mean_Dice.mean;
       if (!modelResults[dataset] || score > modelResults[dataset].score)
         modelResults[dataset] = { score, method: ..., category: ... }; }]
    A member of [Object.prototype] has no [Mean_Dice] and no [score], and
    a comparison with [undefined] is false. *)
Definition recordResult (modelKey method : string)
    (modelResults : JsObject ModelResult.t) (de : string * Models)
  : JsObject ModelResult.t :=
  match getProp modelKey de.2 with
  | Own metrics =>
      match Mean_Dice metrics with
      | Some obs =>
          match getProp de.1 modelResults with
          | Own r =>
              if Qlt_le_dec (ModelResult.score r) (Observation.mean obs)
              then setProp de.1 (newResult method de.1 obs) modelResults
              else modelResults
          | Inherited => modelResults
          | Undefined =>
              setProp de.1 (newResult method de.1 obs) modelResults
          end
      | None => modelResults
      end
  | Inherited => modelResults
  | Undefined => modelResults
  end.

(** The first loop: over [Object.entries(rawData)] and
    [Object.entries(methodData)]. *)
Definition collectModelResults (modelKey : string) (rawData : RawData)
  : JsObject ModelResult.t :=
  fold_left (fun modelResults (me : string * MethodData) =>
               fold_left (recordResult modelKey me.1) me.2 modelResults)
            rawData [].

(** [if (metrics.Mean_Dice && metrics.Mean_Dice.mean > result.score) rank++;] *)
Definition countAbove (score : Q) (rank : nat) (ke : string * Metrics) : nat :=
  match Mean_Dice ke.2 with
  | Some obs =>
      if Qlt_le_dec score (Observation.mean obs) then S rank else rank
  | None => rank
  end.

(** [let rank = 1;
     for (const [method, methodData] of Object.entries(rawData)) {
       if (methodData[dataset]) {
         for (const [otherModel, metrics] of Object.entries(methodData[dataset])) ... } }]
    [Object.entries] of a member of [Object.prototype] is empty. *)
Definition rankIn (rawData : RawData) (dataset : string) (score : Q) : nat :=
  fold_left (fun rank (me : string * MethodData) =>
               match getProp dataset me.2 with
               | Own models => fold_left (countAbove score) models rank
               | Inherited => rank
               | Undefined => rank
               end)
            rawData 1%nat.

(** The second loop: [result.rank = rank] for an entry of
    [modelResults]. *)
Definition setRank (rawData : RawData) (e : string * ModelResult.t)
  : string * ModelResult.t :=
  (e.1, {| ModelResult.score := ModelResult.score e.2;
           ModelResult.method := ModelResult.method e.2;
           ModelResult.category := ModelResult.category e.2;
           ModelResult.rank :=
             Some (rankIn rawData e.1 (ModelResult.score e.2)) |}).

(** The two loops and
    [Object.entries(modelResults).sort((a, b) => b[1].score - a[1].score)]:
    the entries behind the rows of [renderModelDatasetTable]; when there
    is none the table says "No data available". *)
Definition renderModelDatasetTable (modelKey : string) (rawData : RawData)
  : list (string * ModelResult.t) :=
  sort (descending (fun e => ModelResult.score e.2))
       (setRank rawData <$> collectModelResults modelKey rawData).

(** [getRankBadge(Math.min(result.rank, 18))]: the rank shown. *)
Definition shownRank (rank : nat) : nat := rank `min` 18.

End LeaderboardTables.

(** ** [js/performance.js]: cards and charts

    The data behind the bars of [renderMetricChart] and the order of the
    cards of [renderAllDatasetCards]; the markup and the chart objects are
    not modelled. *)

Module PerformanceCards.
Import Performance.

(** [renderMetricChart], "group by model, show best method for each":
    [metricData.data.forEach(item => {
       if (!modelBest[item.model] || item.mean > modelBest[item.model].mean)
         modelBest[item.model] = item; });]
    A member of [Object.prototype] has no [mean], and a comparison with
    [undefined] is false. *)
Definition recordBest (modelBest : JsObject Datum.t) (item : Datum.t)
  : JsObject Datum.t :=
  match getProp (Datum.model item) modelBest with
  | Own held =>
      if Qlt_le_dec (Datum.mean held) (Datum.mean item)
      then setProp (Datum.model item) item modelBest
      else modelBest
  | Inherited => modelBest
  | Undefined => setProp (Datum.model item) item modelBest
  end.

(** [const sortedModels = Object.values(modelBest)
       .sort((a, b) => b.mean - a.mean);]
    the items behind the bars, from left to right. *)
Definition sortedModels (data : list Datum.t) : list Datum.t :=
  sort byMeanDescending (values (fold_left recordBest data [])).

(** An entry of [processedData] as [renderAllDatasetCards] reads it, for
    a dataset whose display name is a string (as it is unless the dataset
    key names a member of [Object.prototype]). *)
Module Card.
Record t := {
  name : string;
  category : string
}.
End Card.

(** [let currentFilters = { search: '', category: 'all', metric: 'all' }] *)
Module Filters.
Record t := {
  search : string;
  category : string;
  metric : string
}.
End Filters.

(** [const catOrder = { Nuclear: 0, Gland: 1, Tissue: 2 }] *)
Definition catOrder : JsObject Q :=
  [ ("Nuclear", 0%Q); ("Gland", 1%Q); ("Tissue", 2%Q) ].

(** [(catOrder[category] || 99)]; the categories are those the classifier
    gives, none of which names a member of [Object.prototype]. *)
Definition categoryOrder (category : string) : Q :=
  match lookupOwn category catOrder with
  | Some q => if truthyNumber q then q else 99%Q
  | None => 99%Q
  end.

(** [s.includes(t)] on strings. *)
Fixpoint isPrefix (t s : string) : bool :=
  match t, s with
  | EmptyString, _ => true
  | String c t', String c' s' => bool_decide (c = c') && isPrefix t' s'
  | String _ _, EmptyString => false
  end.

Fixpoint stringIncludes (s t : string) : bool :=
  isPrefix t s
  || match s with
     | EmptyString => false
     | String _ s' => stringIncludes s' t
     end.

Section cards.
(** [a.localeCompare(b)], which depends on the locale of the browser. *)
Variable localeCompare : string → string → Q.

(** The comparator of [datasets.sort]:
    [const catDiff = (catOrder[a[1].category] || 99)
                     - (catOrder[b[1].category] || 99);
     if (catDiff !== 0) return catDiff;
     return a[1].name.localeCompare(b[1].name);] *)
Definition compareCards (a b : string * Card.t) : Q :=
  let catDiff :=
    (categoryOrder (Card.category a.2) - categoryOrder (Card.category b.2))%Q in
  if Qeq_bool catDiff 0 then localeCompare (Card.name a.2) (Card.name b.2)
  else catDiff.

(** [renderAllDatasetCards]: the cards shown, in their order; with none
    the container says "No datasets found matching your filters."
    [let datasets = Object.entries(processedData);
     if (filters.category !== 'all')
       datasets = datasets.filter(([_, data]) => data.category === filters.category);
     if (filters.search) {
       const searchLower = filters.search.toLowerCase();
       datasets = datasets.filter(([key, data]) =>
         data.name.toLowerCase().includes(searchLower) ||
         key.toLowerCase().includes(searchLower)); }
     datasets.sort(...);] *)
Definition renderAllDatasetCards (processedData : JsObject Card.t)
    (filters : Filters.t) : list (string * Card.t) :=
  let datasets := processedData in
  let datasets :=
    if decide (Filters.category filters = "all") then datasets
    else filter (fun e => Card.category e.2 = Filters.category filters)
                datasets in
  let datasets :=
    if decide (Filters.search filters = "") then datasets
    else
      let searchLower := JsString.toLowerCase (Filters.search filters) in
      filter (fun e =>
                stringIncludes (JsString.toLowerCase (Card.name e.2))
                               searchLower
                || stringIncludes (JsString.toLowerCase e.1) searchLower)
             datasets in
  sort compareCards datasets.
End cards.

End PerformanceCards.

(** ** Samples for the page *)


(** The comparison of two numbers is decidable. *)
#[local] Instance Qlt_decision : RelDecision Qlt := fun x y =>
  match Qlt_le_dec x y with
  | left H => left H
  | right H => right (Qle_not_lt _ _ H)
  end.

(** ** Notions of the further properties *)

(** For [sort(cmp)]: [x] may stay in front of [y]. *)
Definition mayPrecede {A} (cmp : A → A → Q) (x y : A) : Prop :=
  ¬ (0 < cmp x y)%Q.

(** The order of a numeric column of the leaderboard: ascending, the
    numbers from small to large and then the missing values; descending,
    the missing values and then the numbers from large to small. *)
Definition inOrder (d : LeaderboardTables.Direction) (va vb : option Q)
  : Prop :=
  match d, va, vb with
  | LeaderboardTables.asc, Some x, Some y => (x <= y)%Q
  | LeaderboardTables.asc, None, Some _ => False
  | LeaderboardTables.asc, _, None => True
  | LeaderboardTables.desc, Some x, Some y => (y <= x)%Q
  | LeaderboardTables.desc, Some _, None => False
  | LeaderboardTables.desc, None, _ => True
  end.

(** The columns of the header with [data-type="number"]. *)
Definition numericColumn (column : string) : Prop :=
  column = "rank" ∨ column = "overall"
  ∨ column ∈ LeaderboardTables.CONFIG_allDatasets.

(** Two values that the comparator of [handleSort] does not tell apart. *)
Definition sameValue (va vb : option Q) : Prop :=
  match va, vb with
  | Some x, Some y => (x == y)%Q
  | None, None => True
  | _, _ => False
  end.

#[local] Instance sameValue_dec va vb : Decision (sameValue va vb).
Proof. destruct va, vb; simpl; apply _. Defined.

(** The cross-method average rank of the model [key] for [dataset], if
    the model is ranked there at all. *)
Definition averageRank (rawData : RawData) (dataset key : string)
  : option Q :=
  let ranks := methodRanks rawData dataset key in
  if decide (ranks = []) then None else Some (average (num <$> ranks)).

(** The number under [<method>Avg] in an entry of
    [modelMethodPerformance], if there is one. *)
Definition methodAverage (perfData : Leaderboard.MethodPerformance.t)
    (method : string) : option Q :=
  match lookupOwn (method +:+ "Avg")
                  (Leaderboard.MethodPerformance.avgs perfData) with
  | Some (Some q) => Some q
  | Some None => None
  | None => None
  end.

(** A summary that lists a model under the name of a member of
    [Object.prototype]. *)
Definition sampleInheritedStats : Stats :=
  {| model_ranks := [sampleModel "m1" 1; sampleModel "toString" 2];
     dataset_sota := []; method_comparison := [] |}.

Definition sampleInheritedDetailedStats : Leaderboard.DetailedStats :=
  Eval vm_compute in
    match Leaderboard.computeDetailedStats sampleRawData sampleInheritedStats with
    | Ok out => out
    | TypeError =>
        {| Leaderboard.modelCategoryRanks := [];
           Leaderboard.modelMethodPerformance := [];
           Leaderboard.modelDatasetRanks := [] |}
    end.

(** The results that the first loop of [renderModelDatasetTable] meets
    for [dataset]: one per method under which the model has a Mean_Dice
    observation for it, in iteration order. *)
Definition candidates (modelKey : string) (rawData : RawData)
    (dataset : string) : list LeaderboardTables.ModelResult.t :=
  me ← rawData; de ← me.2;
  if decide (de.1 = dataset) then
    match getProp modelKey de.2 with
    | Own metrics =>
        match Mean_Dice metrics with
        | Some obs => [LeaderboardTables.newResult me.1 de.1 obs]
        | None => []
        end
    | Inherited => []
    | Undefined => []
    end
  else [].

(** The better of the item held so far and a new one: the new one has
    to be strictly larger to replace it. *)
Definition better {A} (score : A → Q) (held : option A) (new : A)
  : option A :=
  match held with
  | Some r => if Qlt_le_dec (score r) (score new) then Some new else Some r
  | None => Some new
  end.

(** The row of [GlaS] in the dataset table of the model [m1] of the sample
    table. *)
Definition sampleModelRow : LeaderboardTables.ModelResult.t :=
  Eval vm_compute in
    match lookupOwn "GlaS"
            (LeaderboardTables.renderModelDatasetTable "m1" sampleRawData) with
    | Some r => r
    | None =>
        {| LeaderboardTables.ModelResult.score := 0;
           LeaderboardTables.ModelResult.method := Undefined;
           LeaderboardTables.ModelResult.category := "";
           LeaderboardTables.ModelResult.rank := None |}
    end.

(** The leaderboard table of the sample, with the one column [GlaS]. *)
Definition sampleTable : list LeaderboardTables.TableRow.t :=
  LeaderboardTables.renderLeaderboardTable (model_ranks sampleStats)
    sampleDetailedStats [("GlaS", ())].

(** Three cards in the order of the file, and a comparison of names that
    stands in for [localeCompare]. *)
Definition sampleCards : JsObject PerformanceCards.Card.t :=
  [ ("kumar", {| PerformanceCards.Card.name := "Kumar";
                 PerformanceCards.Card.category := "Nuclear" |});
    ("BCSS", {| PerformanceCards.Card.name := "BCSS";
                PerformanceCards.Card.category := "Tissue" |});
    ("GlaS", {| PerformanceCards.Card.name := "GlaS";
                PerformanceCards.Card.category := "Gland" |}) ].

Definition sampleFilters : PerformanceCards.Filters.t :=
  {| PerformanceCards.Filters.search := "";
     PerformanceCards.Filters.category := "all";
     PerformanceCards.Filters.metric := "all" |}.

Definition byLength (a b : string) : Q :=
  (num (String.length a) - num (String.length b))%Q.

(** * Properties *)

(** ** Facts about the built-ins *)

Section own_properties.
Context {V : Type}.
Implicit Types (o : JsObject V) (k : string) (v : V).

Lemma lookupOwn_setProp_eq k v o : lookupOwn k (setProp k v o) = Some v.
Proof.
  induction o as [|[k' v'] o IH]; simpl.
  - by rewrite decide_True.
  - destruct (decide (k = k')) as [->|Hne]; simpl.
    + by rewrite decide_True.
    + by rewrite decide_False.
Qed.

Lemma lookupOwn_setProp_ne k k' v o :
  k ≠ k' → lookupOwn k' (setProp k v o) = lookupOwn k' o.
Proof.
  intros Hne. induction o as [|[k0 v0] o IH]; simpl.
  - by rewrite decide_False.
  - destruct (decide (k = k0)) as [->|Hk]; simpl.
    + by rewrite !decide_False.
    + destruct (decide (k' = k0)); done.
Qed.

Lemma lookupOwn_setProp k k' v o :
  lookupOwn k' (setProp k v o)
  = if decide (k = k') then Some v else lookupOwn k' o.
Proof.
  destruct (decide (k = k')) as [->|Hne].
  - apply lookupOwn_setProp_eq.
  - by apply lookupOwn_setProp_ne.
Qed.

Lemma lookupOwn_Some_elem k v o : lookupOwn k o = Some v → (k, v) ∈ o.
Proof.
  induction o as [|[k' v'] o IH]; simpl; [done|].
  destruct (decide (k = k')) as [->|Hne].
  - intros [= ->]. left.
  - intros H. right. auto.
Qed.

Lemma lookupOwn_None k o : lookupOwn k o = None ↔ k ∉ keys o.
Proof.
  unfold keys. induction o as [|[k' v'] o IH]; simpl.
  - split; [intros _; apply not_elem_of_nil | done].
  - rewrite not_elem_of_cons. destruct (decide (k = k')) as [->|Hne].
    + split; [done | intros [? _]; done].
    + rewrite IH. tauto.
Qed.

Lemma lookupOwn_is_Some k o : is_Some (lookupOwn k o) ↔ k ∈ keys o.
Proof.
  rewrite <-not_eq_None_Some, lookupOwn_None.
  destruct (decide (k ∈ keys o)); tauto.
Qed.


Lemma lookupOwn_app k o1 o2 :
  lookupOwn k (o1 ++ o2)
  = match lookupOwn k o1 with Some v => Some v | None => lookupOwn k o2 end.
Proof.
  induction o1 as [|[k' v'] o1 IH]; simpl; [done|].
  destruct (decide (k = k')); done.
Qed.

Lemma getProp_Own k o v : getProp k o = Own v ↔ lookupOwn k o = Some v.
Proof.
  unfold getProp. destruct (lookupOwn k o); [|case_bool_decide]; naive_solver.
Qed.

Lemma getProp_Undefined k o :
  getProp k o = Undefined
  ↔ lookupOwn k o = None ∧ k ∉ objectPrototypeKeys.
Proof.
  unfold getProp. destruct (lookupOwn k o); [|case_bool_decide]; naive_solver.
Qed.

Lemma getProp_Inherited k o :
  getProp k o = Inherited
  ↔ lookupOwn k o = None ∧ k ∈ objectPrototypeKeys.
Proof.
  unfold getProp. destruct (lookupOwn k o); [|case_bool_decide]; naive_solver.
Qed.

Lemma getProp_plain k o :
  k ∉ objectPrototypeKeys →
  getProp k o = match lookupOwn k o with Some v => Own v | None => Undefined end.
Proof.
  intros Hk. unfold getProp. destruct (lookupOwn k o); [done|].
  by rewrite bool_decide_false.
Qed.
End own_properties.

Section folds.
Context {A S : Type}.

Lemma foldM_app (body : S → A → result S) xs ys acc :
  foldM body (xs ++ ys) acc = (acc' ← foldM body xs acc; foldM body ys acc').
Proof.
  revert acc. induction xs as [|x xs IH]; intros acc; simpl; [done|].
  destruct (body acc x); simpl; [apply IH | done].
Qed.

(** An invariant kept by every successful step holds after the loop. *)
Lemma foldM_invariant (P : S → Prop) (body : S → A → result S) xs acc acc' :
  (∀ s x s', x ∈ xs → P s → body s x = Ok s' → P s') →
  P acc → foldM body xs acc = Ok acc' → P acc'.
Proof.
  revert acc. induction xs as [|x xs IH]; intros acc Hstep Hacc; simpl.
  - by intros [= <-].
  - destruct (body acc x) as [s|] eqn:Hb; simpl; [|done].
    apply IH.
    + intros s0 y s' Hy. apply Hstep. by right.
    + eapply Hstep; [left | done | done].
Qed.

End folds.

Lemma indexed_lookup {A} (xs : list A) i :
  indexed xs !! i = (fun x => (i, x)) <$> xs !! i.
Proof.
  unfold indexed. rewrite lookup_zip_with.
  destruct (xs !! i) as [x|] eqn:Hx; simpl.
  - rewrite lookup_seq_lt; [done|]. by eapply lookup_lt_Some.
  - by destruct (seq 0 (length xs) !! i).
Qed.

Lemma indexed_length {A} (xs : list A) : length (indexed xs) = length xs.
Proof. unfold indexed. rewrite length_zip_with, length_seq. lia. Qed.

(** The sum by [reduce] starts from the accumulator. *)
Lemma fold_left_Qplus (xs : list Q) (a : Q) :
  (fold_left Qplus xs a == a + sum xs)%Q.
Proof.
  unfold sum. revert a. induction xs as [|x xs IH]; intros a; simpl.
  - lra.
  - rewrite (IH (a + x)%Q), (IH (0 + x)%Q). lra.
Qed.

Lemma sum_cons (x : Q) (xs : list Q) : (sum (x :: xs) == x + sum xs)%Q.
Proof. unfold sum at 1. simpl. rewrite fold_left_Qplus. lra. Qed.

Lemma num_pos n : (0 < n)%nat → (0 < num n)%Q.
Proof.
  intros Hn. unfold num, Qlt. simpl. lia.
Qed.

Lemma num_S n : (num (S n) == num n + 1)%Q.
Proof.
  unfold num. rewrite Nat2Z.inj_succ, <-Z.add_1_r, inject_Z_plus. reflexivity.
Qed.

Lemma num_le n m : (n ≤ m)%nat → (num n <= num m)%Q.
Proof. intros H. unfold num. rewrite <-Zle_Qle. lia. Qed.



(** The quotient is the arithmetic mean: times the count, it is the sum. *)
Lemma average_spec (xs : list Q) :
  xs ≠ [] → (average xs * num (length xs) == sum xs)%Q.
Proof.
  intros Hne. unfold average.
  assert (0 < num (length xs))%Q as Hpos.
  { apply num_pos. destruct xs; [done | simpl; lia]. }
  field. lra.
Qed.

(** ** [Array.prototype.sort] with a comparator [(a, b) => key(b) - key(a)] *)

Lemma filter_sublist {A} (P : A → Prop) `{!∀ x, Decision (P x)} (l1 l2 : list A) :
  l1 `sublist_of` l2 → filter P l1 `sublist_of` filter P l2.
Proof.
  induction 1 as [|x l1 l2 _ IH|x l1 l2 _ IH]; rewrite ?filter_cons.
  - done.
  - destruct (decide (P x)); [by constructor | done].
  - destruct (decide (P x)); [by constructor | done].
Qed.

Lemma StronglySorted_lookup {A} (R : relation A) (l : list A) i j x y :
  StronglySorted R l → (i < j)%nat →
  l !! i = Some x → l !! j = Some y → R x y.
Proof.
  intros Hl. revert i j. induction Hl as [|z l Hl IH Hz]; intros i j Hij; [done|].
  destruct i as [|i], j as [|j]; simpl; try lia.
  - intros [= ->] Hy. rewrite Forall_forall in Hz. apply Hz.
    by eapply list_elem_of_lookup_2.
  - apply IH. lia.
Qed.

Section sort_by_key.
Context {A : Type} (cmp : A → A → Q) (key : A → Q).
(** The comparator orders by [key], largest first. *)
Hypothesis cmp_sign : ∀ a b, (0 < cmp a b)%Q ↔ (key a < key b)%Q.

Lemma cmp_cases x y :
  {(key x < key y)%Q ∧ ∀ l, insertSorted cmp x (y :: l) = y :: insertSorted cmp x l}
  + {(key y <= key x)%Q ∧ ∀ l, insertSorted cmp x (y :: l) = x :: y :: l}.
Proof.
  destruct (Qlt_le_dec 0 (cmp x y)) as [Hlt|Hle] eqn:Hd.
  - left. split; [by apply cmp_sign|]. intros l. simpl. by rewrite Hd.
  - right. split.
    + apply Qnot_lt_le. intros H%cmp_sign. lra.
    + intros l. simpl. by rewrite Hd.
Qed.

Lemma insertSorted_length x l : length (insertSorted cmp x l) = S (length l).
Proof.
  induction l as [|y l IH]; [done|].
  destruct (cmp_cases x y) as [[_ ->]|[_ ->]]; simpl; by rewrite ?IH.
Qed.

Lemma sort_length l : length (sort cmp l) = length l.
Proof.
  induction l as [|x l IH]; simpl; [done|].
  by rewrite insertSorted_length, IH.
Qed.

Lemma insertSorted_Permutation x l : insertSorted cmp x l ≡ₚ x :: l.
Proof.
  induction l as [|y l IH]; [done|].
  destruct (cmp_cases x y) as [[_ ->]|[_ ->]]; [|done].
  rewrite IH. apply Permutation_swap.
Qed.

Lemma sort_Permutation l : sort cmp l ≡ₚ l.
Proof.
  induction l as [|x l IH]; simpl; [done|].
  by rewrite insertSorted_Permutation, IH.
Qed.

(** Sorted: every element is at least as large as the ones after it. *)
Lemma insertSorted_sorted x l :
  StronglySorted (fun a b => (key b <= key a)%Q) l →
  StronglySorted (fun a b => (key b <= key a)%Q) (insertSorted cmp x l).
Proof.
  induction 1 as [|y l Hl IH Hy].
  - repeat constructor.
  - destruct (cmp_cases x y) as [[Hlt ->]|[Hle ->]].
    + constructor; [done|].
      rewrite insertSorted_Permutation. constructor; [lra | done].
    + constructor; [by constructor|].
      constructor; [lra|].
      eapply Forall_impl; [exact Hy|]. simpl. intros z Hz. lra.
Qed.

Lemma sort_sorted l :
  StronglySorted (fun a b => (key b <= key a)%Q) (sort cmp l).
Proof.
  induction l as [|x l IH]; simpl; [constructor|].
  by apply insertSorted_sorted.
Qed.

(** Stable: the elements of one key value keep their order. *)
Lemma insertSorted_filter (q : Q) x l :
  filter (fun y => (key y == q)%Q) (insertSorted cmp x l)
  = filter (fun y => (key y == q)%Q) (x :: l).
Proof.
  induction l as [|y l IH]; [done|].
  destruct (cmp_cases x y) as [[Hlt ->]|[Hle ->]]; [|done].
  rewrite filter_cons, IH, !filter_cons.
  destruct (decide (key y == q)%Q) as [Hy|Hy];
    destruct (decide (key x == q)%Q) as [Hx|Hx]; try done.
  rewrite Hy, Hx in Hlt. lra.
Qed.

Lemma sort_filter (q : Q) l :
  filter (fun y => (key y == q)%Q) (sort cmp l)
  = filter (fun y => (key y == q)%Q) l.
Proof.
  induction l as [|x l IH]; simpl; [done|].
  by rewrite insertSorted_filter, !filter_cons, IH.
Qed.

Lemma sort_stable a b l :
  (key a == key b)%Q →
  [a; b] `sublist_of` l → [a; b] `sublist_of` sort cmp l.
Proof.
  intros Hab Hl.
  transitivity (filter (fun y => (key y == key a)%Q) (sort cmp l));
    [|apply sublist_filter].
  rewrite sort_filter.
  assert ([a; b] = filter (fun y => (key y == key a)%Q) [a; b]) as ->.
  { rewrite !filter_cons, filter_nil.
    rewrite decide_True by reflexivity. by rewrite decide_True by by symmetry. }
  by apply filter_sublist.
Qed.

(** The head of the sorted array is the first maximum of the input. *)
Lemma sort_head b rest l :
  sort cmp l = b :: rest →
  ∃ pre post, l = pre ++ b :: post
    ∧ Forall (fun x => (key x < key b)%Q) pre
    ∧ Forall (fun x => (key x <= key b)%Q) post.
Proof.
  revert b rest. induction l as [|x l IH]; intros b rest; simpl; [done|].
  destruct (sort cmp l) as [|y s] eqn:Hs.
  - intros [= <- <-]. apply (f_equal length) in Hs.
    rewrite sort_length in Hs. destruct l; [|done].
    exists [], []. by repeat constructor.
  - destruct (IH y s eq_refl) as (pre & post & -> & Hpre & Hpost).
    destruct (cmp_cases x y) as [[Hlt ->]|[Hle ->]]; intros [= <- <-].
    + exists (x :: pre), post. split_and!; [done| |done].
      constructor; [lra | done].
    + exists [], (pre ++ y :: post). split_and!; [done|constructor|].
      apply Forall_app. split; [|constructor].
      * eapply Forall_impl; [exact Hpre|]. simpl. intros z Hz. lra.
      * lra.
      * eapply Forall_impl; [exact Hpost|]. simpl. intros z Hz. lra.
Qed.

Lemma sort_nil l : sort cmp l = [] ↔ l = [].
Proof.
  split; [|by intros ->].
  intros H. apply (f_equal length) in H. rewrite sort_length in H.
  by destruct l.
Qed.

End sort_by_key.

Lemma descending_sign {A} (key : A → Q) (a b : A) :
  (0 < descending key a b)%Q ↔ (key a < key b)%Q.
Proof. unfold descending. split; intros; lra. Qed.


(** ** The rank aggregator *)

Lemma elem_of_scoreItems (x : ScoreItem.t) (models : Models) :
  x ∈ scoreItems models
  ↔ ∃ k m obs, (k, m) ∈ models ∧ Mean_Dice m = Some obs
      ∧ x = {| ScoreItem.model := k; ScoreItem.score := Observation.mean obs |}.
Proof.
  unfold scoreItems. rewrite list_elem_of_omap. split.
  - intros ([k m] & Hin & Hx). destruct (Mean_Dice m) as [obs|] eqn:Hobs; [|done].
    injection Hx as <-. eauto 6.
  - intros (k & m & obs & Hin & Hobs & ->). exists (k, m).
    by rewrite Hobs.
Qed.

Lemma scoreItems_observed (models : Models) :
  ScoreItem.model <$> scoreItems models
  = (filter (fun e => is_Some (Mean_Dice e.2)) models).*1.
Proof.
  unfold scoreItems. induction models as [|[k m] models IH]; [done|].
  rewrite filter_cons. simpl.
  destruct (Mean_Dice m) as [obs|]; simpl; [|done].
  f_equal. apply IH.
Qed.

Lemma rankModels_lookup (models : Models) i :
  rankModels models !! i
  = (fun item => (ScoreItem.model item, i + 1)) <$> sortedScores models !! i.
Proof.
  unfold rankModels. rewrite list_lookup_fmap, indexed_lookup.
  by destruct (sortedScores models !! i).
Qed.

Lemma rankModels_length (models : Models) :
  length (rankModels models) = length (scoreItems models).
Proof.
  unfold rankModels, sortedScores.
  by rewrite length_fmap, indexed_length, (sort_length _ _ (descending_sign ScoreItem.score)).
Qed.

Lemma rankModels_names (models : Models) :
  (rankModels models).*1 = ScoreItem.model <$> sortedScores models.
Proof.
  apply list_eq. intros i.
  rewrite !list_lookup_fmap, rankModels_lookup.
  by destruct (sortedScores models !! i).
Qed.

Lemma rankModels_ranks (models : Models) :
  (rankModels models).*2 = seq 1 (length (scoreItems models)).
Proof.
  apply list_eq. intros i.
  rewrite list_lookup_fmap, rankModels_lookup.
  destruct (sortedScores models !! i) as [x|] eqn:Hx; simpl.
  - apply lookup_lt_Some in Hx as Hi.
    unfold sortedScores in Hi. rewrite (sort_length _ _ (descending_sign ScoreItem.score)) in Hi.
    rewrite lookup_seq_lt by done. f_equal. lia.
  - apply lookup_ge_None in Hx as Hi.
    unfold sortedScores in Hi. rewrite (sort_length _ _ (descending_sign ScoreItem.score)) in Hi.
    symmetry. apply lookup_ge_None. by rewrite length_seq.
Qed.

(** Every rank is between 1 and the number of ranked models. *)
Lemma rankModels_bound (models : Models) (name : string) (rank : nat) :
  (name, rank) ∈ rankModels models →
  (1 ≤ rank ≤ length (rankModels models))%nat.
Proof.
  intros Hin. rewrite rankModels_length.
  assert (rank ∈ (rankModels models).*2) as Hr.
  { apply list_elem_of_fmap. by exists (name, rank). }
  rewrite rankModels_ranks, elem_of_seq in Hr. lia.
Qed.

(** C1. For the models of any (method, dataset) pair, the rank aggregator
    (keep the models with a Mean_Dice observation, sort by mean descending,
    rank = position + 1) hands out the ranks 1, 2, ..., k in this order,
    where k is the number of models with a Mean_Dice observation, to
    exactly these models; the model of rank 1 has the maximum mean; and two
    models with equal means keep their iteration order. *)
Theorem rank_aggregator_permutation_max_stable (models : Models) :
  let observed := filter (fun e => is_Some (Mean_Dice e.2)) models in
  (rankModels models).*2 = seq 1 (length observed)
  ∧ (rankModels models).*1 ≡ₚ observed.*1
  ∧ (∀ name, (name, 1%nat) ∈ rankModels models →
       ∃ m obs, (name, m) ∈ models ∧ Mean_Dice m = Some obs
         ∧ ∀ k' m' obs', (k', m') ∈ models → Mean_Dice m' = Some obs' →
             (Observation.mean obs' <= Observation.mean obs)%Q)
  ∧ (∀ a b, [a; b] `sublist_of` scoreItems models →
       (ScoreItem.score a == ScoreItem.score b)%Q →
       ∃ i j, (i < j)%nat
         ∧ sortedScores models !! i = Some a
         ∧ sortedScores models !! j = Some b
         ∧ rankModels models !! i = Some (ScoreItem.model a, (i + 1)%nat)
         ∧ rankModels models !! j = Some (ScoreItem.model b, (j + 1)%nat)).
Proof.
  intros observed. split_and!.
  - rewrite rankModels_ranks. f_equal.
    rewrite <-(length_fmap ScoreItem.model), scoreItems_observed.
    by rewrite length_fmap.
  - rewrite rankModels_names. unfold sortedScores.
    rewrite (sort_Permutation _ _ (descending_sign ScoreItem.score)). by rewrite scoreItems_observed.
  - intros name Hin.
    apply list_elem_of_lookup in Hin as [i Hi].
    rewrite rankModels_lookup in Hi.
    destruct (sortedScores models !! i) as [top|] eqn:Htop; [|done].
    injection Hi as <- Hi0. assert (i = 0%nat) as -> by lia.
    unfold sortedScores in Htop.
    destruct (sort byScoreDescending (scoreItems models)) as [|b rest] eqn:Hs;
      [done|]. injection Htop as ->.
    apply (sort_head _ _ (descending_sign ScoreItem.score)) in Hs as (pre & post & Hl & Hpre & Hpost).
    assert (top ∈ scoreItems models) as Htopin.
    { rewrite Hl. apply elem_of_app. right. left. }
    apply elem_of_scoreItems in Htopin as (k & m & obs & Hkm & Hobs & ->).
    exists m, obs. split_and!; [done..|].
    intros k' m' obs' Hkm' Hobs'.
    assert ({| ScoreItem.model := k'; ScoreItem.score := Observation.mean obs' |}
              ∈ scoreItems models) as Hx.
    { apply elem_of_scoreItems. eauto 6. }
    rewrite Hl, elem_of_app, elem_of_cons in Hx.
    rewrite Forall_forall in Hpre, Hpost.
    destruct Hx as [Hx|[Hx|Hx]].
    + apply Hpre in Hx. simpl in Hx. lra.
    + injection Hx as _ ->. lra.
    + by apply Hpost in Hx.
  - intros a b Hab Heq.
    apply (sort_stable _ _ (descending_sign ScoreItem.score)) in Hab; [|done].
    change (sort _ _) with (sortedScores models) in Hab.
    apply sublist_cons_l in Hab as (s1 & s2 & Hs & Hb).
    apply sublist_cons_l in Hb as (s3 & s4 & -> & _).
    exists (length s1), (length s1 + S (length s3))%nat.
    assert (sortedScores models !! length s1 = Some a) as Ha.
    { rewrite Hs. by apply list_lookup_middle. }
    assert (sortedScores models !! (length s1 + S (length s3))%nat = Some b) as Hb.
    { rewrite Hs, lookup_app_r by lia.
      replace (length s1 + S (length s3) - length s1)%nat with (S (length s3)) by lia.
      simpl. by apply list_lookup_middle. }
    split_and!; [lia | done | done | |].
    + by rewrite rankModels_lookup, Ha.
    + by rewrite rankModels_lookup, Hb.
Qed.

(** ** The category classifier *)

Lemma firstCategory_cases (table : JsObject (list string)) (dataset : string) :
  (∃ category datasets,
      (category, datasets) ∈ table ∧ dataset ∈ datasets
      ∧ firstCategory table dataset = category)
  ∨ ((∀ category datasets, (category, datasets) ∈ table → dataset ∉ datasets)
     ∧ firstCategory table dataset = "Other").
Proof.
  induction table as [|[c ds] table IH]; simpl.
  - right. split; [|done]. intros ?? H. by apply elem_of_nil in H.
  - unfold includes. case_bool_decide as Hin.
    + left. exists c, ds. split_and!; [left | done | done].
    + destruct IH as [(c' & ds' & Hc & Hd & Hf)|[Hnone Hf]].
      * left. exists c', ds'. split_and!; [by right | done | done].
      * right. split; [|done]. intros c' ds' [[= -> ->]|H]%elem_of_cons; eauto.
Qed.

(** Each classifier returns the category whose list has the name, and
    ["Other"] when no list has it. *)
Lemma getDatasetCategory_leaderboard (dataset : string) :
  (∃ datasets,
      (Leaderboard.getDatasetCategory dataset, datasets)
        ∈ Leaderboard.datasetCategories ∧ dataset ∈ datasets)
  ∨ ((∀ category datasets,
        (category, datasets) ∈ Leaderboard.datasetCategories →
        dataset ∉ datasets)
     ∧ Leaderboard.getDatasetCategory dataset = "Other").
Proof.
  unfold Leaderboard.getDatasetCategory.
  destruct (firstCategory_cases Leaderboard.datasetCategories dataset)
    as [(c & ds & Hc & Hd & <-)|H]; eauto.
Qed.

Lemma getDatasetCategory_performance (dataset : string) :
  (∃ datasets,
      (Performance.getDatasetCategory dataset, datasets)
        ∈ Performance.datasetCategories ∧ dataset ∈ datasets)
  ∨ ((∀ category datasets,
        (category, datasets) ∈ Performance.datasetCategories →
        dataset ∉ datasets)
     ∧ Performance.getDatasetCategory dataset = "Other").
Proof.
  unfold Performance.getDatasetCategory.
  destruct (firstCategory_cases Performance.datasetCategories dataset)
    as [(c & ds & Hc & Hd & <-)|H]; eauto.
Qed.

(** The two tables differ in one name only. *)
Lemma classifiers_agree_except_Kumar (dataset : string) :
  dataset ≠ "Kumar" →
  Leaderboard.getDatasetCategory dataset
  = Performance.getDatasetCategory dataset.
Proof.
  intros Hne.
  unfold Leaderboard.getDatasetCategory, Performance.getDatasetCategory.
  simpl. unfold includes.
  repeat case_bool_decide; try done; exfalso; set_solver.
Qed.

(** C2. The classifier of leaderboard.js and the classifier of
    performance.js do not return the same category for every dataset name:
    for the name "Kumar" the first answers "Nuclear" (its Nuclear list has
    both "kumar" and "Kumar") and the second answers "Other" (its list has
    "kumar" only). *)
Theorem classifiers_disagree_on_Kumar :
  Leaderboard.getDatasetCategory "Kumar" = "Nuclear"
  ∧ Performance.getDatasetCategory "Kumar" = "Other".
Proof. split; reflexivity. Qed.

(** The category of a dataset is one of four names. *)
Lemma getDatasetCategory_range (dataset : string) :
  Leaderboard.getDatasetCategory dataset
    ∈ ["Nuclear"; "Gland"; "Tissue"; "Other"].
Proof.
  unfold Leaderboard.getDatasetCategory. simpl.
  repeat (destruct (includes dataset _)); set_solver.
Qed.

(** ** The category rank averager *)

Section category_ranks.
Import Leaderboard.




Lemma ranksOf_app key r1 r2 :
  ranksOf key (r1 ++ r2) = ranksOf key r1 ++ ranksOf key r2.
Proof. unfold ranksOf. by rewrite filter_app, fmap_app. Qed.






Lemma initCategoryRanks_keys (modelRanks : list ModelRankRecord) key :
  key ∈ keys (initCategoryRanks modelRanks)
  ↔ key ∈ model_key <$> modelRanks.
Proof.
  unfold initCategoryRanks.
  induction modelRanks as [|m0 modelRanks IH] using rev_ind.
  - simpl. by rewrite !elem_of_nil.
  - rewrite fold_left_app, fmap_app, elem_of_app. simpl.
    rewrite <-lookupOwn_is_Some, lookupOwn_setProp, list_elem_of_singleton.
    case_decide; subst.
    + split; [intros _; by right | eauto].
    + rewrite lookupOwn_is_Some, IH. naive_solver.
Qed.






End category_ranks.




(** ** The cross-method performance averager *)

(** A loop that appends to a view of its state appends, in all, the
    contributions of its items. *)
Lemma foldM_append {A S B} (view : S → option (list B)) (c : A → list B)
    (body : S → A → result S) xs acc acc' :
  (∀ s x s', body s x = Ok s' → view s' = (fun l => l ++ c x) <$> view s) →
  foldM body xs acc = Ok acc' →
  view acc' = (fun l => l ++ (x ← xs; c x)) <$> view acc.
Proof.
  intros Hstep. revert acc. induction xs as [|x xs IH]; intros acc; simpl.
  - intros [= <-]. destruct (view acc); simpl; by rewrite ?app_nil_r.
  - destruct (body acc x) as [s|] eqn:Hb; simpl; [|done].
    intros Hfold. rewrite (IH _ Hfold), (Hstep _ _ _ Hb).
    destruct (view acc); simpl; by rewrite ?app_assoc.
Qed.

(** A loop whose steps keep a key, or add it when the item contributes,
    has the key at the end exactly when it had it or some item contributed. *)
Lemma foldM_presence {A S} (present : S → Prop) (adds : A → Prop)
    (body : S → A → result S) xs acc acc' :
  (∀ s x s', body s x = Ok s' → present s' ↔ present s ∨ adds x) →
  foldM body xs acc = Ok acc' →
  present acc' ↔ present acc ∨ ∃ x, x ∈ xs ∧ adds x.
Proof.
  intros Hstep. revert acc. induction xs as [|x xs IH]; intros acc; simpl.
  - intros [= <-]. split; [by left|]. intros [?|(x & Hx & _)]; [done|].
    by apply elem_of_nil in Hx.
  - destruct (body acc x) as [s|] eqn:Hb; simpl; [|done].
    intros Hfold. rewrite (IH _ Hfold), (Hstep _ _ _ Hb).
    setoid_rewrite elem_of_cons. naive_solver.
Qed.

Section method_performance.
Import Leaderboard.
Local Arguments withMethodAverages : simpl never.


Lemma pushScore_avgs method x e e' :
  pushScore method x e = Ok e' →
  MethodPerformance.avgs e' = MethodPerformance.avgs e.
Proof.
  unfold pushScore. destruct (lookupOwn method _); [|done].
  by intros [= <-].
Qed.


Lemma recordScore_presence method acc ke acc' key :
  recordScore method acc ke = Ok acc' →
  is_Some (lookupOwn key acc')
  ↔ is_Some (lookupOwn key acc)
    ∨ (ke.1 = key ∧ is_Some (Mean_Dice ke.2)).
Proof.
  unfold recordScore. intros Hstep.
  destruct (Mean_Dice ke.2) as [obs|] eqn:Hobs.
  2:{ injection Hstep as <-. rewrite <-not_eq_None_Some. naive_solver. }
  destruct (getProp ke.1 acc) as [e| |] eqn:Hget; [| done |].
  - apply getProp_Own in Hget.
    destruct (pushScore method (Observation.mean obs) e) as [e'|];
      simpl in Hstep; [|done].
    injection Hstep as <-. rewrite lookupOwn_setProp.
    case_decide; subst; [rewrite Hget|]; naive_solver.
  - destruct (pushScore method (Observation.mean obs) newMethodPerformance)
      as [e'|]; simpl in Hstep; [|done].
    injection Hstep as <-. rewrite lookupOwn_setProp.
    case_decide; subst; naive_solver.
Qed.


Lemma collectMethodPerformance_presence (rawData : RawData) perf key :
  collectMethodPerformance rawData = Ok perf →
  is_Some (lookupOwn key perf) ↔ observed rawData key.
Proof.
  unfold collectMethodPerformance, observed. intros Hrun.
  eapply (foldM_presence (fun s => is_Some (lookupOwn key s))
            (fun me : string * MethodData =>
               ∃ de m obs, de ∈ me.2 ∧ (key, m) ∈ de.2
                 ∧ Mean_Dice m = Some obs)) in Hrun.
  - rewrite Hrun. simpl. split.
    + intros [[? [=]]|(me & Hme & de & m & obs & ?)]. naive_solver.
    + intros (me & de & m & obs & ?). right. naive_solver.
  - clear. intros s me s' Hme.
    eapply (foldM_presence (fun s => is_Some (lookupOwn key s))
              (fun de : string * Models =>
                 ∃ m obs, (key, m) ∈ de.2 ∧ Mean_Dice m = Some obs)) in Hme.
    + rewrite Hme. naive_solver.
    + clear. intros s de s' Hde.
      eapply (foldM_presence (fun s => is_Some (lookupOwn key s))
                (fun ke : string * Metrics =>
                   ke.1 = key ∧ is_Some (Mean_Dice ke.2))) in Hde.
      * rewrite Hde. split.
        -- intros [?|([k m] & Hin & <- & obs & Hobs)]; [by left|]. right. eauto.
        -- intros [?|(m & obs & Hin & Hobs)]; [by left|]. right.
           exists (key, m). eauto.
      * clear. intros s0 ke s1. apply recordScore_presence.
Qed.





Lemma averageMethodPerformance_done acc seen acc' key v :
  foldM (fun averaged (ke : string * MethodPerformance.t) =>
           e' ← withMethodAverages ke.2;
           Ok (averaged ++ [(ke.1, e')]))
        acc seen = Ok acc' →
  lookupOwn key seen = Some v → lookupOwn key acc' = Some v.
Proof.
  revert seen. induction acc as [|[k e] acc IH]; intros seen; simpl.
  - by intros [= <-].
  - destruct (withMethodAverages e) as [e'|]; simpl; [|done].
    intros Hfold Hseen. apply (IH _ Hfold).
    by rewrite lookupOwn_app, Hseen.
Qed.

Lemma averageMethodPerformance_rest acc seen acc' key :
  foldM (fun averaged (ke : string * MethodPerformance.t) =>
           e' ← withMethodAverages ke.2;
           Ok (averaged ++ [(ke.1, e')]))
        acc seen = Ok acc' →
  lookupOwn key seen = None →
  match lookupOwn key acc with
  | Some e => ∃ e', withMethodAverages e = Ok e'
                    ∧ lookupOwn key acc' = Some e'
  | None => lookupOwn key acc' = None
  end.
Proof.
  revert seen. induction acc as [|[k e] acc IH]; intros seen; simpl.
  - by intros [= <-].
  - destruct (withMethodAverages e) as [e'|] eqn:He; simpl;
      [|done].
    intros Hfold Hseen. destruct (decide (key = k)) as [->|Hne].
    + exists e'. split; [done|].
      apply (averageMethodPerformance_done _ _ _ _ _ Hfold).
      rewrite lookupOwn_app, Hseen. simpl. by rewrite decide_True.
    + apply (IH _ Hfold). rewrite lookupOwn_app, Hseen. simpl.
      by rewrite decide_False.
Qed.

Lemma averageMethodPerformance_lookup acc acc' key :
  averageMethodPerformance acc = Ok acc' →
  match lookupOwn key acc with
  | Some e => ∃ e', withMethodAverages e = Ok e'
                    ∧ lookupOwn key acc' = Some e'
  | None => lookupOwn key acc' = None
  end.
Proof. intros H. by apply (averageMethodPerformance_rest _ _ _ _ H). Qed.

(** [modelMethodPerformance] after [computeDetailedStats]. *)
Lemma modelMethodPerformance_lookup rawData stats out key :
  computeDetailedStats rawData stats = Ok out →
  ∃ perf, collectMethodPerformance rawData = Ok perf
    ∧ match lookupOwn key perf with
      | Some e => ∃ e', withMethodAverages e = Ok e'
                    ∧ lookupOwn key (modelMethodPerformance out) = Some e'
      | None => lookupOwn key (modelMethodPerformance out) = None
      end.
Proof.
  unfold computeDetailedStats. intros Hrun.
  destruct (collectCategoryRanks rawData (initCategoryRanks (model_ranks stats)))
    as [ranks|]; simpl in Hrun; [|done].
  destruct (collectMethodPerformance rawData) as [perf|]; simpl in Hrun; [|done].
  destruct (averageMethodPerformance perf) as [perf'|] eqn:Havg;
    simpl in Hrun; [|done].
  destruct (computeModelDatasetRanks rawData (model_ranks stats)) as [dr|];
    simpl in Hrun; [|done].
  injection Hrun as <-. simpl. exists perf. split; [done|].
  by apply averageMethodPerformance_lookup.
Qed.
End method_performance.



(** C10. After [computeDetailedStats], [modelMethodPerformance] has a key
    for a model exactly when the model has a Mean_Dice observation under
    some (method, dataset) of the raw table; in particular a model that is
    listed in the summary and has no observation has no entry at all, and
    a lookup for it yields no record. *)
Theorem method_performance_keys rawData stats out :
  Leaderboard.computeDetailedStats rawData stats = Ok out →
  (∀ key, is_Some (lookupOwn key (Leaderboard.modelMethodPerformance out))
          ↔ observed rawData key)
  ∧ (∀ m, m ∈ model_ranks stats → ¬ observed rawData (model_key m) →
       lookupOwn (model_key m) (Leaderboard.modelMethodPerformance out) = None
       ∧ ∀ e, getProp (model_key m) (Leaderboard.modelMethodPerformance out)
              ≠ Own e).
Proof.
  intros Hrun.
  assert (∀ key, is_Some (lookupOwn key (Leaderboard.modelMethodPerformance out))
                 ↔ observed rawData key) as Hkeys.
  { intros key.
    destruct (modelMethodPerformance_lookup _ _ _ key Hrun)
      as (perf & Hperf & Hkey).
    rewrite <-(collectMethodPerformance_presence _ _ key Hperf).
    destruct (lookupOwn key perf) as [e|].
    - destruct Hkey as (e' & _ & ->). split; eauto.
    - rewrite Hkey. split; intros [? [=]]. }
  split; [done|]. intros m Hm Hno.
  assert (lookupOwn (model_key m) (Leaderboard.modelMethodPerformance out) = None)
    as Hnone.
  { apply eq_None_not_Some. by rewrite Hkeys. }
  split; [done|]. intros e He%getProp_Own. congruence.
Qed.

Lemma method_performance_keys_witness :
  Leaderboard.computeDetailedStats sampleRawData sampleStats
    = Ok sampleDetailedStats
  ∧ lookupOwn "m3" (Leaderboard.modelMethodPerformance sampleDetailedStats)
    = None
  ∧ is_Some (lookupOwn "m4"
               (Leaderboard.modelMethodPerformance sampleDetailedStats)).
Proof.
  assert (Leaderboard.computeDetailedStats sampleRawData sampleStats
          = Ok sampleDetailedStats) as Hrun by (vm_compute; reflexivity).
  split_and!; [done | reflexivity |].
  apply (proj1 (method_performance_keys _ _ _ Hrun)).
  eexists _, _, _, _.
  split_and!; [left | right; left | right; right; left | reflexivity].
Defined.


(** ** The cross-method rank averager *)

Lemma bind_not_nil {A B} (f : A → list B) (l : list A) :
  l ≫= f ≠ [] ↔ ∃ x, x ∈ l ∧ f x ≠ [].
Proof.
  induction l as [|a l IH]; csimpl.
  - split; [done|]. intros (x & Hx & _). by apply elem_of_nil in Hx.
  - split.
    + intros Hne. destruct (f a) as [|b bs] eqn:Hfa.
      * apply IH in Hne as (x & Hx & Hfx). exists x. split; [by right | done].
      * exists a. split; [left | by rewrite Hfa].
    + intros (x & [->|Hx]%elem_of_cons & Hfx) [Ha Hl]%app_eq_nil; [done|].
      revert Hl. apply IH. eauto.
Qed.

Section dataset_ranks.
Import Leaderboard.

Lemma keys_setProp {V} k (v : V) (o : JsObject V) :
  keys (setProp k v o) = if decide (k ∈ keys o) then keys o else keys o ++ [k].
Proof.
  unfold keys. induction o as [|[k' v'] o IH]; csimpl; [done|].
  destruct (decide (k = k')) as [->|Hne]; csimpl.
  - rewrite decide_True; [done | left].
  - rewrite IH. destruct (decide (k ∈ o.*1)) as [Hin|Hin].
    + rewrite decide_True; [done | by right].
    + rewrite decide_False; [done|]. by intros [?|?]%elem_of_cons.
Qed.

Lemma NoDup_keys_setProp {V} k (v : V) (o : JsObject V) :
  NoDup (keys o) → NoDup (keys (setProp k v o)).
Proof.
  intros Hnd. rewrite keys_setProp. case_decide; [done|].
  apply NoDup_app. split_and!; [done | | apply NoDup_singleton].
  intros x Hx ->%list_elem_of_singleton. done.
Qed.

Lemma recordMethodRank_gathered acc p acc' key :
  recordMethodRank acc p = Ok acc' →
  gathered key acc' = gathered key acc ++ if decide (p.1 = key) then [p.2] else [].
Proof.
  unfold recordMethodRank, gathered. intros Hstep.
  destruct (getProp p.1 acc) as [l| |] eqn:Hget; [| done |];
    injection Hstep as <-; rewrite lookupOwn_setProp.
  - apply getProp_Own in Hget. case_decide; subst.
    + by rewrite Hget.
    + by rewrite app_nil_r.
  - apply getProp_Undefined in Hget as [Hnone _]. case_decide; subst.
    + by rewrite Hnone.
    + by rewrite app_nil_r.
Qed.

Lemma recordMethodRank_presence acc p acc' key :
  recordMethodRank acc p = Ok acc' →
  is_Some (lookupOwn key acc') ↔ is_Some (lookupOwn key acc) ∨ p.1 = key.
Proof.
  unfold recordMethodRank. intros Hstep.
  destruct (getProp p.1 acc) as [l| |] eqn:Hget; [| done |];
    injection Hstep as <-; rewrite lookupOwn_setProp.
  - apply getProp_Own in Hget. case_decide; subst; [rewrite Hget|]; naive_solver.
  - case_decide; naive_solver.
Qed.

Lemma recordMethodRank_NoDup acc p acc' :
  recordMethodRank acc p = Ok acc' → NoDup (keys acc) → NoDup (keys acc').
Proof.
  unfold recordMethodRank.
  destruct (getProp p.1 acc); [| done |]; intros [= <-];
    apply NoDup_keys_setProp.
Qed.

Lemma modelRanksByMethod_gathered (rawData : RawData) dataset byMethod key :
  modelRanksByMethod rawData dataset = Ok byMethod →
  gathered key byMethod = methodRanks rawData dataset key.
Proof.
  unfold modelRanksByMethod, methodRanks. intros Hrun.
  eapply (foldM_append (fun s => Some (gathered key s))
            (fun me : string * MethodData =>
               match lookupOwn dataset me.2 with
               | Some models => ranksOf key (rankModels models)
               | None => []
               end)) in Hrun.
  - by injection Hrun.
  - clear. intros s me s' Hme. simpl. f_equal.
    destruct (getProp dataset me.2) as [models| |] eqn:Hget.
    + apply getProp_Own in Hget. rewrite Hget.
      eapply (foldM_append (fun s => Some (gathered key s))
                (fun p : string * nat => if decide (p.1 = key) then [p.2] else []))
        in Hme.
      * injection Hme as ->. f_equal. unfold ranksOf.
        clear. induction (rankModels models) as [|p l IH]; [done|].
        rewrite filter_cons. csimpl. case_decide; csimpl; by rewrite IH.
      * clear. intros s0 p s1 Hp. simpl. f_equal.
        by apply recordMethodRank_gathered.
    + apply getProp_Inherited in Hget as [-> _]. injection Hme as <-.
      by rewrite app_nil_r.
    + apply getProp_Undefined in Hget as [-> _]. injection Hme as <-.
      by rewrite app_nil_r.
Qed.

Lemma modelRanksByMethod_presence (rawData : RawData) dataset byMethod key :
  modelRanksByMethod rawData dataset = Ok byMethod →
  is_Some (lookupOwn key byMethod) ↔ methodRanks rawData dataset key ≠ [].
Proof.
  unfold modelRanksByMethod, methodRanks. intros Hrun.
  eapply (foldM_presence (fun s => is_Some (lookupOwn key s))
            (fun me : string * MethodData =>
               match lookupOwn dataset me.2 with
               | Some models => ranksOf key (rankModels models)
               | None => []
               end ≠ [])) in Hrun.
  - rewrite Hrun, bind_not_nil. simpl. split; [|by right].
    by intros [[? [=]]|?].
  - clear. intros s me s' Hme.
    destruct (getProp dataset me.2) as [models| |] eqn:Hget.
    + apply getProp_Own in Hget. rewrite Hget.
      eapply (foldM_presence (fun s => is_Some (lookupOwn key s))
                (fun p : string * nat => p.1 = key)) in Hme.
      * rewrite Hme. unfold ranksOf.
        assert ((∃ x, x ∈ rankModels models ∧ x.1 = key)
                ↔ (filter (fun p => p.1 = key) (rankModels models)).*2 ≠ [])
          as ->; [|done].
        split.
        -- intros (p & Hp & Hk) Hnil. apply fmap_nil_inv in Hnil.
           assert (p ∈ filter (fun p => p.1 = key) (rankModels models)) as Hin
             by by apply list_elem_of_filter.
           rewrite Hnil in Hin. by apply elem_of_nil in Hin.
        -- destruct (filter _ (rankModels models)) as [|p l] eqn:Hf; [done|].
           intros _. exists p.
           assert (p ∈ filter (fun p => p.1 = key) (rankModels models)) as Hin
             by (rewrite Hf; left).
           apply list_elem_of_filter in Hin. naive_solver.
      * clear. intros s0 p s1. apply recordMethodRank_presence.
    + apply getProp_Inherited in Hget as [-> _]. injection Hme as <-. tauto.
    + apply getProp_Undefined in Hget as [-> _]. injection Hme as <-. tauto.
Qed.

Lemma modelRanksByMethod_NoDup (rawData : RawData) dataset byMethod :
  modelRanksByMethod rawData dataset = Ok byMethod → NoDup (keys byMethod).
Proof.
  unfold modelRanksByMethod.
  apply (foldM_invariant (fun s : JsObject (list nat) => NoDup (keys s)));
    [|constructor].
  intros s me s' _ Hs Hme. destruct (getProp dataset me.2); simplify_eq; [|done..].
  eapply (foldM_invariant (fun s : JsObject (list nat) => NoDup (keys s)));
    [|exact Hs|exact Hme].
  intros s0 p s1 _ Hs0 Hp. by eapply recordMethodRank_NoDup.
Qed.

(** The loop that stores the averages of one dataset. *)
Lemma storeAverageRanks_lookup dataset (byMethod : JsObject (list nat))
    acc acc' key r :
  NoDup (keys byMethod) →
  foldM (storeAverageRank dataset) byMethod acc = Ok acc' →
  lookupOwn key acc = Some r →
  ∃ r', lookupOwn key acc' = Some r'
    ∧ DatasetRanks.datasets r'
      = match lookupOwn key byMethod with
        | Some ranks =>
            setProp dataset (average (num <$> ranks)) (DatasetRanks.datasets r)
        | None => DatasetRanks.datasets r
        end.
Proof.
  revert acc r. induction byMethod as [|[k ranks] byMethod IH];
    intros acc r Hnd; simpl.
  - intros [= <-] Hr. eauto.
  - unfold keys in Hnd. rewrite fmap_cons in Hnd.
    apply NoDup_cons in Hnd as [Hk Hnd].
    destruct (storeAverageRank dataset acc (k, ranks)) as [acc1|] eqn:Hstep;
      simpl; [|done].
    intros Hfold Hr. unfold storeAverageRank in Hstep. simpl in Hstep.
    destruct (getProp k acc) as [r0| |] eqn:Hget; [| done |];
      injection Hstep as <-.
    + apply getProp_Own in Hget. destruct (decide (key = k)) as [->|Hne].
      * rewrite Hget in Hr. injection Hr as ->.
        edestruct IH as (r' & Hr' & Hd);
          [exact Hnd | exact Hfold | apply lookupOwn_setProp_eq |].
        exists r'. split; [done|]. rewrite Hd.
        by rewrite (proj2 (lookupOwn_None k byMethod)).
      * edestruct IH as (r' & Hr' & Hd);
          [exact Hnd | exact Hfold
          | rewrite lookupOwn_setProp_ne by done; exact Hr |].
        eauto.
    + apply getProp_Undefined in Hget as [Hnone _].
      destruct (decide (key = k)) as [->|Hne]; [congruence|].
      by eapply IH.
Qed.

Lemma initDatasetRanks_lookup (modelRanks : list ModelRankRecord) m :
  m ∈ modelRanks →
  ∃ r, lookupOwn (model_key m) (initDatasetRanks modelRanks) = Some r
    ∧ DatasetRanks.datasets r = [].
Proof.
  unfold initDatasetRanks.
  induction modelRanks as [|m0 modelRanks IH] using rev_ind.
  - intros H. by apply elem_of_nil in H.
  - rewrite fold_left_app. simpl. rewrite lookupOwn_setProp.
    intros [Hin|Hin%list_elem_of_singleton]%elem_of_app.
    + case_decide; eauto.
    + subst. rewrite decide_True by done. eauto.
Qed.

(** The loop over the datasets. *)
Lemma storeDatasets_lookup (rawData : RawData) (ds : list string)
    acc acc' key r d :
  foldM (fun acc dataset =>
           byMethod ← modelRanksByMethod rawData dataset;
           foldM (storeAverageRank dataset) byMethod acc)
        ds acc = Ok acc' →
  lookupOwn key acc = Some r →
  ∃ r', lookupOwn key acc' = Some r'
    ∧ lookupOwn d (DatasetRanks.datasets r')
      = if decide (d ∈ ds ∧ methodRanks rawData d key ≠ [])
        then Some (average (num <$> methodRanks rawData d key))
        else lookupOwn d (DatasetRanks.datasets r).
Proof.
  revert acc r. induction ds as [|d0 ds IH]; intros acc r; cbn [foldM].
  - intros [= <-] Hr. exists r. split; [done|].
    rewrite decide_False; [done|]. intros [H _]. by apply elem_of_nil in H.
  - destruct (modelRanksByMethod rawData d0) as [byMethod|] eqn:Hby;
      cbn [mbind result_bind]; [|done].
    destruct (foldM (storeAverageRank d0) byMethod acc) as [acc1|] eqn:Hstore;
      cbn [mbind result_bind]; [|done].
    intros Hfold Hr.
    destruct (storeAverageRanks_lookup _ _ _ _ _ _
                (modelRanksByMethod_NoDup _ _ _ Hby) Hstore Hr)
      as (r1 & Hr1 & Hd1).
    destruct (IH _ _ Hfold Hr1) as (r' & Hr' & Hd').
    exists r'. split; [done|]. rewrite Hd', Hd1.
    pose proof (modelRanksByMethod_gathered _ _ _ key Hby) as Hg.
    pose proof (modelRanksByMethod_presence _ _ _ key Hby) as Hp.
    unfold gathered in Hg.
    destruct (lookupOwn key byMethod) as [ranks|]; simpl in Hg.
    + subst ranks. assert (methodRanks rawData d0 key ≠ []) as Hne
        by (apply Hp; eauto).
      rewrite lookupOwn_setProp.
      repeat case_decide; subst; try done; exfalso; set_unfold; naive_solver.
    + assert (methodRanks rawData d0 key = []) as Hnil by done.
      repeat case_decide; subst; try done; exfalso; set_unfold; naive_solver.
Qed.

Lemma elem_of_setAdd (l s : list string) x :
  x ∈ fold_left setAdd l s ↔ x ∈ s ∨ x ∈ l.
Proof.
  revert s. induction l as [|y l IH]; intros s; simpl.
  - set_solver.
  - rewrite IH. unfold setAdd. case_bool_decide; set_solver.
Qed.

Lemma elem_of_allDatasets (rawData : RawData) d :
  d ∈ allDatasets rawData ↔ ∃ me, me ∈ rawData ∧ d ∈ keys me.2.
Proof.
  unfold allDatasets, values.
  assert (∀ s, d ∈ fold_left (fun s methodData =>
                                fold_left setAdd (keys methodData) s)
                     rawData.*2 s
               ↔ d ∈ s ∨ ∃ me, me ∈ rawData ∧ d ∈ keys me.2) as Hgen.
  { induction rawData as [|me rawData IH]; intros s; csimpl.
    - set_solver.
    - rewrite IH, elem_of_setAdd. set_solver. }
  rewrite Hgen. set_solver.
Qed.

(** A model is ranked exactly when it has an observation. *)
Lemma ranksOf_rankModels_ne_nil (models : Models) key :
  ranksOf key (rankModels models) ≠ []
  ↔ ∃ m obs, (key, m) ∈ models ∧ Mean_Dice m = Some obs.
Proof.
  transitivity (key ∈ (rankModels models).*1).
  - unfold ranksOf. split.
    + destruct (filter _ (rankModels models)) as [|p l] eqn:Hf; [done|].
      intros _.
      assert (p ∈ filter (fun p => p.1 = key) (rankModels models)) as Hin
        by (rewrite Hf; left).
      apply list_elem_of_filter in Hin as [<- Hin].
      by apply list_elem_of_fmap_2.
    + intros ([k rank] & -> & Hin)%list_elem_of_fmap Hnil.
      apply fmap_nil_inv in Hnil.
      assert ((k, rank) ∈ filter (fun p => p.1 = (k, rank).1) (rankModels models))
        as Hf by by apply list_elem_of_filter.
      rewrite Hnil in Hf. by apply elem_of_nil in Hf.
  - rewrite rankModels_names. unfold sortedScores.
    rewrite (sort_Permutation _ _ (descending_sign ScoreItem.score)).
    rewrite list_elem_of_fmap. setoid_rewrite elem_of_scoreItems. split.
    + intros (x & -> & k & m & obs & Hin & Hobs & ->). eauto.
    + intros (m & obs & Hin & Hobs). eexists. split; [|eauto 6]. done.
Qed.

Lemma methodRanks_ne_nil (rawData : RawData) dataset key :
  methodRanks rawData dataset key ≠ [] ↔ observedOn rawData dataset key.
Proof.
  unfold methodRanks, observedOn. rewrite bind_not_nil. split.
  - intros (me & Hme & Hne).
    destruct (lookupOwn dataset me.2) as [models|] eqn:Hl; [|done].
    apply ranksOf_rankModels_ne_nil in Hne as (m & obs & ? & ?). eauto 8.
  - intros (me & models & m & obs & Hme & Hl & Hin & Hobs).
    exists me. split; [done|]. rewrite Hl.
    apply ranksOf_rankModels_ne_nil. eauto.
Qed.
End dataset_ranks.




(** ** The best-result selector *)

Lemma lookupOwn_fold_setProp {A V} (f : A → string) (g : A → V) (l : list A)
    (o : JsObject V) (x : A) :
  x ∈ l → (∀ y, y ∈ l → f y = f x → g y = g x) →
  lookupOwn (f x) (fold_left (fun o y => setProp (f y) (g y) o) l o)
  = Some (g x).
Proof.
  induction l as [|z l IH] using rev_ind.
  - intros H. by apply elem_of_nil in H.
  - intros Hin Hsame. rewrite fold_left_app. simpl. rewrite lookupOwn_setProp.
    destruct (decide (f z = f x)) as [Heq|Hne].
    + f_equal. apply Hsame; [|done]. apply elem_of_app. right. left.
    + apply elem_of_app in Hin as [Hin|Hin%list_elem_of_singleton]; [|by subst].
      apply IH; [done|]. intros y Hy. apply Hsame. apply elem_of_app. by left.
Qed.

Section best_result.
Import Performance.

Lemma pushData_append method metricKey (models : Models) metricData :
  fold_left (pushDatum method metricKey) models metricData
  = metricData
    ++ (datumOf <$> (ke ← models;
                     match lookupOwn metricKey ke.2 with
                     | Some obs => [(method, ke.1, obs)]
                     | None => []
                     end)).
Proof.
  revert metricData. induction models as [|ke models IH]; intros metricData;
    csimpl.
  - by rewrite app_nil_r.
  - rewrite IH. unfold pushDatum.
    destruct (lookupOwn metricKey ke.2) as [obs|]; csimpl; [|done].
    by rewrite <-app_assoc.
Qed.

(** The array before the sort: the data of the observations in the order
    they are met. *)
Lemma collectMetricData_observations (rawData : RawData) dataset metricKey :
  collectMetricData rawData dataset metricKey
  = datumOf <$> observations rawData dataset metricKey.
Proof.
  unfold collectMetricData, observations.
  assert (∀ metricData,
    fold_left (fun metricData (me : string * MethodData) =>
                 match getProp dataset me.2 with
                 | Own models =>
                     fold_left (pushDatum me.1 metricKey) models metricData
                 | Inherited => metricData
                 | Undefined => metricData
                 end) rawData metricData
    = metricData
      ++ (datumOf <$> (me ← rawData;
            match lookupOwn dataset me.2 with
            | Some models =>
                ke ← models;
                match lookupOwn metricKey ke.2 with
                | Some obs => [(me.1, ke.1, obs)]
                | None => []
                end
            | None => []
            end))) as Hgen; [|apply Hgen].
  induction rawData as [|me rawData IH]; intros metricData; csimpl.
  - by rewrite app_nil_r.
  - rewrite IH, fmap_app, app_assoc. f_equal.
    destruct (getProp dataset me.2) as [models| |] eqn:Hget.
    + apply getProp_Own in Hget. rewrite Hget. apply pushData_append.
    + apply getProp_Inherited in Hget as [-> _]. by rewrite app_nil_r.
    + apply getProp_Undefined in Hget as [-> _]. by rewrite app_nil_r.
Qed.

Lemma metrics_keys_unique (x y : string * string) :
  x ∈ metrics → y ∈ metrics → y.1 = x.1 → y = x.
Proof.
  unfold metrics. intros Hx Hy.
  repeat (apply elem_of_cons in Hx as [->|Hx]);
    [..|by apply elem_of_nil in Hx];
    repeat (apply elem_of_cons in Hy as [->|Hy]);
    try (by apply elem_of_nil in Hy); done.
Qed.

(** The entry of a dataset and a metric in the result. *)
Lemma processPerformanceData_lookup (rawData : RawData) dataset metric :
  (∃ me, me ∈ rawData ∧ dataset ∈ keys me.2) →
  metric ∈ metrics →
  ∃ d, lookupOwn dataset (processPerformanceData rawData) = Some d
    ∧ lookupOwn metric.1 (Dataset.metrics d)
      = Some (summarize rawData dataset metric).
Proof.
  intros Hd Hm. exists (processDataset rawData dataset). split.
  - unfold processPerformanceData.
    apply (lookupOwn_fold_setProp id (processDataset rawData)).
    + by apply elem_of_allDatasets.
    + intros y _ Heq. unfold id in Heq. by subst.
  - unfold processDataset. cbn [Dataset.metrics].
    apply (lookupOwn_fold_setProp fst (summarize rawData dataset)); [done|].
    intros y Hy Heq. f_equal. by apply metrics_keys_unique.
Qed.
End best_result.

(** C6. For every dataset occurring in the raw table and every configured
    metric, the [best] field computed by [processPerformanceData] is null
    exactly when no (method, model) pair has an observation of the metric
    for the dataset; otherwise it is the datum of an observation of
    maximal mean, namely the first one of that mean in the order the
    observations are met: every earlier one has a strictly smaller mean. *)
Theorem best_result_first_maximum (rawData : RawData) dataset metric :
  (∃ me, me ∈ rawData ∧ dataset ∈ keys me.2) →
  metric ∈ Performance.metrics →
  let met := observations rawData dataset metric.1 in
  ∃ d s,
    lookupOwn dataset (Performance.processPerformanceData rawData) = Some d
    ∧ lookupOwn metric.1 (Performance.Dataset.metrics d) = Some s
    ∧ (Performance.MetricSummary.best s = None ↔ met = [])
    ∧ (met = [] ↔
       ∀ me models ke, me ∈ rawData → lookupOwn dataset me.2 = Some models →
         ke ∈ models → lookupOwn metric.1 ke.2 = None)
    ∧ ∀ b, Performance.MetricSummary.best s = Some b →
        ∃ earlier o later,
          met = earlier ++ o :: later
          ∧ b = datumOf o
          ∧ Forall (fun x => (Observation.mean x.2 < Observation.mean o.2)%Q)
                   earlier
          ∧ Forall (fun x => (Observation.mean x.2 <= Observation.mean o.2)%Q)
                   later.
Proof.
  intros Hd Hm met.
  destruct (processPerformanceData_lookup rawData dataset metric Hd Hm)
    as (d & Hlook & Hs).
  exists d, (Performance.summarize rawData dataset metric).
  split_and!; [done | done | | |].
  - unfold Performance.summarize. simpl.
    rewrite collectMetricData_observations. fold met.
    destruct (sort Performance.byMeanDescending (datumOf <$> met)) as [|b rest]
      eqn:Hsort; simpl.
    + apply (proj1 (sort_nil _ _ (descending_sign Performance.Datum.mean) _))
        in Hsort.
      apply fmap_nil_inv in Hsort. by rewrite Hsort.
    + split; [done|]. intros ->. done.
  - unfold met, observations. split.
    + intros Hnil me models ke Hme Hmodels Hke.
      destruct (lookupOwn metric.1 ke.2) as [obs|] eqn:Hobs; [|done].
      exfalso. revert Hnil. apply bind_not_nil. exists me. split; [done|].
      rewrite Hmodels. apply bind_not_nil. exists ke. split; [done|].
      by rewrite Hobs.
    + intros Hnone. destruct (decide (met = [])) as [|Hne]; [done|].
      exfalso. apply bind_not_nil in Hne as (me & Hme & Hne).
      destruct (lookupOwn dataset me.2) as [models|] eqn:Hmodels; [|done].
      apply bind_not_nil in Hne as (ke & Hke & Hne).
      by rewrite (Hnone me models ke) in Hne.
  - intros b. unfold Performance.summarize. simpl.
    rewrite collectMetricData_observations. fold met.
    destruct (sort Performance.byMeanDescending (datumOf <$> met)) as [|b' rest]
      eqn:Hsort; simpl; [done|]. intros [= ->].
    apply (sort_head _ _ (descending_sign Performance.Datum.mean)) in Hsort
      as (pre & post & Hl & Hpre & Hpost).
    apply fmap_app_inv in Hl as (earlier & rest' & -> & Hrest & ->).
    symmetry in Hrest.
    apply fmap_cons_inv in Hrest as (o & later & -> & -> & ->).
    exists earlier, o, later. split_and!; [done | done | |].
    + exact (proj1 (Forall_fmap _ _ _) Hpre).
    + exact (proj1 (Forall_fmap _ _ _) Hpost).
Qed.

Lemma best_result_first_maximum_witness :
  (∃ me, me ∈ sampleRawData ∧ "GlaS" ∈ keys me.2)
  ∧ ("Mean_Dice", "mDice") ∈ Performance.metrics
  ∧ ("mIoU", "mIoU") ∈ Performance.metrics
  ∧ (∃ d s b,
       lookupOwn "GlaS" (Performance.processPerformanceData sampleRawData)
         = Some d
       ∧ lookupOwn "Mean_Dice" (Performance.Dataset.metrics d) = Some s
       ∧ Performance.MetricSummary.best s = Some b
       ∧ Performance.Datum.model b = "m2"
       ∧ Performance.Datum.method b = "frozen")
  ∧ (∃ d s,
       lookupOwn "GlaS" (Performance.processPerformanceData sampleRawData)
         = Some d
       ∧ lookupOwn "mIoU" (Performance.Dataset.metrics d) = Some s
       ∧ Performance.MetricSummary.best s = None).
Proof.
  assert (∃ me, me ∈ sampleRawData ∧ "GlaS" ∈ keys me.2) as Hd.
  { eexists. split; [left | right; left]. }
  assert (("Mean_Dice", "mDice") ∈ Performance.metrics) as Hdice by left.
  assert (("mIoU", "mIoU") ∈ Performance.metrics) as Hiou by (right; left).
  split_and!; [done..| |].
  - destruct (best_result_first_maximum sampleRawData _ _ Hd Hdice)
      as (d & s & Hlook & Hs & _).
    exists d, s. vm_compute in Hlook. injection Hlook as <-.
    vm_compute in Hs. injection Hs as <-.
    eexists. split_and!; reflexivity.
  - destruct (best_result_first_maximum sampleRawData _ _ Hd Hiou)
      as (d & s & Hlook & Hs & Hnone & _).
    exists d, s. split_and!; [done..|]. by apply Hnone.
Defined.

(** ** Throwing *)

(** C7. The aggregation functions are not total on every mismatch between
    the models of the raw table and the models of the summary: a model key
    of the raw table that names a member of [Object.prototype] (here
    "constructor") and is not listed in the summary passes the guard
    [if (modelCategoryRanks[item.model])], and the [push] that follows throws;
    [computeModelDatasetRanks] throws on the same table at
    [modelRanksByMethod[item.model].push]. *)
Theorem aggregation_throws_on_inherited_model_key :
  Leaderboard.computeDetailedStats sampleInheritedKey sampleStats = TypeError
  ∧ Leaderboard.computeModelDatasetRanks sampleInheritedKey
      (model_ranks sampleStats) = TypeError
  ∧ Leaderboard.collectCategoryRanks sampleInheritedKey
      (Leaderboard.initCategoryRanks (model_ranks sampleStats)) = TypeError
  ∧ Leaderboard.collectMethodPerformance sampleInheritedKey = TypeError.
Proof. split_and!; reflexivity. Qed.


Section totality.
Import Leaderboard.
Local Arguments withMethodAverages : simpl never.

Lemma elem_of_setProp {V} k (v : V) (o : JsObject V) x :
  x ∈ setProp k v o → x = (k, v) ∨ x ∈ o.
Proof.
  induction o as [|[k' v'] o IH]; simpl.
  - intros ->%list_elem_of_singleton. by left.
  - case_decide; subst.
    + intros [->|?]%elem_of_cons; [by left|]. right. by right.
    + intros [->|?]%elem_of_cons; [right; left|].
      destruct IH as [|]; [done|by left|]. right. by right.
Qed.












End totality.

(** ** Determinism *)



(** ** No write to an object that existed before the call

    [n0] is the size of the heap when the call starts: the objects given
    to the call, and everything they refer to, are below [n0]. *)

Section frame.
Import Heap.
Local Open Scope nat_scope.
Variable n0 : nat.

Lemma frame_refl h : frame n0 h h.
Proof. by split. Qed.

Lemma frame_trans h1 h2 h3 : frame n0 h1 h2 → frame n0 h2 h3 → frame n0 h1 h3.
Proof.
  intros [Hl1 H1] [Hl2 H2]. split; [auto|].
  intros l Hl. by rewrite H2, H1.
Qed.

Lemma wp_ret {A} (a : A) Q h : Q a h → wp n0 (mret a) Q h.
Proof. intros HQ. split; [apply frame_refl | done]. Qed.

Lemma wp_bind {A B} (m : M A) (k : A → M B) Q h :
  wp n0 m (fun a h' => wp n0 (k a) Q h') h → wp n0 (m ≫= k) Q h.
Proof.
  unfold wp, mbind, M_bind. destruct (m h) as [[a|] h']; simpl.
  - intros [Hf [Hf' HQ]]. split; [by eapply frame_trans | done].
  - by intros [Hf _].
Qed.

Lemma wp_mono {A} (m : M A) (Q Q' : A → heap → Prop) h :
  (∀ a h', Q a h' → Q' a h') → wp n0 m Q h → wp n0 m Q' h.
Proof.
  unfold wp. intros HQ [Hf H]. split; [done|].
  destruct (m h).1; auto.
Qed.

Lemma wp_forEach {A} (I : heap → Prop) (xs : list A) (body : A → M unit) h :
  (∀ x h', x ∈ xs → I h' → wp n0 (body x) (fun _ => I) h') →
  I h → wp n0 (forEach xs body) (fun _ => I) h.
Proof.
  revert h. induction xs as [|x xs IH]; intros h Hbody HI; simpl.
  - by apply wp_ret.
  - apply wp_bind. eapply wp_mono; [|apply Hbody; [left | done]].
    intros [] h' HI'. apply IH; [|done].
    intros y h'' Hy. apply Hbody. by right.
Qed.

(** Reads leave the heap as it is. *)
Lemma wp_get v k Q h :
  (∀ x, getValue v k h = Ok x → Q x h) → wp n0 (get v k) Q h.
Proof.
  intros HQ. unfold wp, get. simpl. split; [apply frame_refl|].
  destruct (getValue v k h) eqn:Hg; auto.
Qed.

Lemma wp_entries v Q h :
  (∀ es, entriesOf v h = Ok es → Q es h) → wp n0 (entries v) Q h.
Proof.
  intros HQ. unfold wp, entries. simpl. split; [apply frame_refl|].
  destruct (entriesOf v h) eqn:Hg; auto.
Qed.

Lemma wp_elements v Q h :
  (∀ xs, elementsOf v h = Ok xs → Q xs h) → wp n0 (elements v) Q h.
Proof.
  intros HQ. unfold wp, elements. simpl. split; [apply frame_refl|].
  destruct (elementsOf v h) eqn:Hg; auto.
Qed.

(** A new object is beyond [n0]. *)
Lemma wp_alloc c Q h :
  n0 ≤ length h → Q (Ref (length h)) (h ++ [c]) → wp n0 (alloc c) Q h.
Proof.
  intros Hn HQ. unfold wp, alloc. simpl. split; [|done]. split.
  - rewrite length_app. lia.
  - intros l Hl. apply lookup_app_l. lia.
Qed.

(** A write through a fresh value leaves the cells below [n0] alone. *)
Lemma frame_store v k x h : freshVal n0 v → frame n0 h (store v k x h).
Proof.
  intros Hv. unfold store. destruct v as [| | | |l|]; try apply frame_refl.
  destruct (h !! l) as [c|]; [|apply frame_refl]. simpl in Hv. split.
  - by rewrite length_insert.
  - intros l' Hl'. apply list_lookup_insert_ne. lia.
Qed.

Lemma wp_set v k x (Q : unit → heap → Prop) h :
  freshVal n0 v → Q () (store v k x h) → wp n0 (set v k x) Q h.
Proof.
  intros Hv HQ. unfold wp, set.
  destruct v; cbn [fst snd]; (split; [|done]);
    first [apply frame_refl | by apply frame_store].
Qed.

Lemma wp_push v x (Q : unit → heap → Prop) h :
  freshVal n0 v →
  (∀ l c xs, v = Ref l → h !! l = Some c → elems c = Some xs →
     Q () (<[l := {| props := props c; elems := Some (xs ++ [x]) |}]> h)) →
  wp n0 (push v x) Q h.
Proof.
  intros Hv HQ. unfold wp, push.
  destruct v as [| | | |l|]; simpl; try (split; [apply frame_refl | done]).
  destruct (h !! l) as [c|] eqn:Hc; simpl; [|split; [apply frame_refl | done]].
  destruct (elems c) as [xs|] eqn:Hxs; simpl; [|split; [apply frame_refl | done]].
  split; [|by eapply HQ]. simpl in Hv. split.
  - by rewrite length_insert.
  - intros l' Hl'. apply list_lookup_insert_ne. lia.
Qed.

Lemma wp_readonly {A} (m : M A) Q h :
  readonly m → (∀ a, Q a h) → wp n0 m Q h.
Proof.
  intros Hm HQ. unfold wp. pose proof (Hm h) as Hh.
  destruct (m h) as [r h']. simpl in *. subst h'.
  split; [apply frame_refl|]. destruct r; [apply HQ | done].
Qed.

Lemma readonly_ret {A} (a : A) : readonly (mret a).
Proof. done. Qed.

Lemma readonly_bind {A B} (m : M A) (k : A → M B) :
  readonly m → (∀ a, readonly (k a)) → readonly (m ≫= k).
Proof.
  intros Hm Hk h. unfold mbind, M_bind. specialize (Hm h).
  destruct (m h) as [[a|] h']; simpl in *; subst; [apply Hk | done].
Qed.

Lemma readonly_get v k : readonly (get v k).
Proof. done. Qed.

Lemma readonly_entries v : readonly (entries v).
Proof. done. Qed.

Lemma readonly_elements v : readonly (elements v).
Proof. done. Qed.

Lemma readonly_scoreItems es : readonly (scoreItems es).
Proof.
  induction es as [|[k m] es IH]; simpl; [apply readonly_ret|].
  apply readonly_bind; [apply readonly_get|]. intros d.
  destruct (truthy d); [|done].
  apply readonly_bind; [apply readonly_get|]. intros s.
  apply readonly_bind; [done|]. intros rest. apply readonly_ret.
Qed.

Lemma readonly_sortedScores v : readonly (sortedScores v).
Proof.
  unfold sortedScores. apply readonly_bind; [apply readonly_entries|].
  intros es. apply readonly_bind; [apply readonly_scoreItems|].
  intros items. apply readonly_ret.
Qed.

Lemma readonly_allDatasets ms s : readonly (allDatasets ms s).
Proof.
  revert s. induction ms as [|me ms IH]; intros s; simpl; [apply readonly_ret|].
  apply readonly_bind; [apply readonly_entries|]. intros ds. apply IH.
Qed.

(** *** What the accumulators hold

    [names] are the property names under which the code looks for an
    object to write to. *)

Lemma grows_alloc h c : grows n0 h (h ++ [c]).
Proof.
  split; [rewrite length_app; lia|].
  intros l c' k x Hl Hc' Hkx. right. exists c'.
  by rewrite lookup_app_l in Hc'.
Qed.

Lemma grows_store v k x h : freshVal n0 x → grows n0 h (store v k x h).
Proof.
  intros Hx. unfold store.
  assert (grows n0 h h) as Hrefl.
  { split; [done|]. intros l c' k' x' _ Hc' Hin. right. eauto. }
  destruct v as [| | | |l|]; try done.
  destruct (h !! l) as [c|] eqn:Hc; [|done].
  split; [by rewrite length_insert|].
  intros l' c' k' x' Hl' Hc' Hin. destruct (decide (l = l')) as [<-|Hne].
  - rewrite list_lookup_insert_eq in Hc' by done. injection Hc' as <-.
    simpl in Hin. apply elem_of_setProp in Hin as [[= -> ->]|Hin]; [by left|].
    right. eauto.
  - rewrite list_lookup_insert_ne in Hc' by done. right. eauto.
Qed.

Lemma grows_push h l c xs :
  h !! l = Some c →
  grows n0 h (<[l := {| props := props c; elems := Some xs |}]> h).
Proof.
  intros Hc. split; [by rewrite length_insert|].
  intros l' c' k x Hl' Hc' Hin. right. destruct (decide (l = l')) as [<-|Hne].
  - rewrite list_lookup_insert_eq in Hc' by done. injection Hc' as <-. eauto.
  - rewrite list_lookup_insert_ne in Hc' by done. eauto.
Qed.

Lemma goodRef_fresh names h v : goodRef n0 names h v → freshVal n0 v.
Proof. destruct v; simpl; tauto. Qed.

Lemma goodRef_grows names h h' v :
  grows n0 h h' → goodRef n0 names h v → goodRef n0 names h' v.
Proof.
  intros [Hlen Hold]. destruct v as [| | | |r|]; simpl; try done.
  intros (Hn & Hr & Hprops). split_and!; [done | lia |].
  intros c' k x Hc' Hin Hk.
  destruct (Hold r c' k x Hr Hc' Hin) as [|(c & Hc & Hin')]; [done|].
  by eapply Hprops.
Qed.

(** A dictionary whose own cell did not change stays good. *)
Lemma goodMap_grows names h h' root :
  grows n0 h h' → h' !! root = h !! root →
  goodMap n0 names h root → goodMap n0 names h' root.
Proof.
  intros Hg Hsame (Hn & Hr & Hvals). pose proof Hg as [Hlen _].
  split_and!; [done | lia |].
  intros c k v Hc Hin. rewrite Hsame in Hc.
  eapply goodRef_grows; [done|]. by eapply Hvals.
Qed.

Lemma goodMap_alloc names h root c :
  goodMap n0 names h root → goodMap n0 names (h ++ [c]) root.
Proof.
  intros Hmap. eapply goodMap_grows; [apply grows_alloc | | done].
  destruct Hmap as (_ & Hr & _). by apply lookup_app_l.
Qed.

Lemma goodMap_push names h root l c xs :
  h !! l = Some c → goodMap n0 names h root →
  goodMap n0 names (<[l := {| props := props c; elems := Some xs |}]> h) root.
Proof.
  intros Hc (Hn & Hr & Hvals).
  split_and!; [done | by rewrite length_insert |].
  intros c' k v Hc' Hin.
  eapply goodRef_grows; [by apply grows_push|].
  destruct (decide (l = root)) as [->|Hne].
  - rewrite list_lookup_insert_eq in Hc' by done. injection Hc' as <-.
    by eapply Hvals.
  - rewrite list_lookup_insert_ne in Hc' by done. by eapply Hvals.
Qed.

(** Writing a good value anywhere keeps a dictionary good. *)
Lemma goodMap_store names h root v k x :
  goodRef n0 names h x → goodMap n0 names h root →
  goodMap n0 names (store v k x h) root.
Proof.
  intros Hx (Hn & Hr & Hvals).
  pose proof (grows_store v k x h (goodRef_fresh _ _ _ Hx)) as Hg.
  pose proof Hg as [Hlen _].
  split_and!; [done | lia |].
  intros c' k' v' Hc' Hin. eapply goodRef_grows; [done|].
  unfold store in Hc'. destruct v as [| | | |l|]; try by eapply Hvals.
  destruct (h !! l) as [c|] eqn:Hc; [|by eapply Hvals].
  destruct (decide (l = root)) as [->|Hne].
  - rewrite list_lookup_insert_eq in Hc' by done. injection Hc' as <-.
    simpl in Hin. apply elem_of_setProp in Hin as [[= -> ->]|Hin]; [done|].
    by eapply Hvals.
  - rewrite list_lookup_insert_ne in Hc' by done. by eapply Hvals.
Qed.

(** A new empty dictionary. *)
Lemma goodMap_new names h :
  n0 ≤ length h → goodMap n0 names (h ++ [object []]) (length h).
Proof.
  intros Hn. split_and!; [done | rewrite length_app; simpl; lia |].
  intros c k v Hc Hin. rewrite lookup_app_r, Nat.sub_diag in Hc by done.
  injection Hc as <-. by apply elem_of_nil in Hin.
Qed.

Lemma goodMap_length names h root : goodMap n0 names h root → n0 ≤ length h.
Proof. intros (? & ? & _). lia. Qed.

(** What a read in a good dictionary yields. *)
Lemma goodMap_get names h root k x :
  goodMap n0 names h root → getValue (Ref root) k h = Ok x → goodRef n0 names h x.
Proof.
  intros (_ & _ & Hvals). unfold getValue.
  destruct (h !! root) as [c|] eqn:Hc; [|by intros [= <-]].
  destruct (getProp k (props c)) as [y| |] eqn:Hget; intros [= <-]; try done.
  apply getProp_Own, lookupOwn_Some_elem in Hget. by eapply Hvals.
Qed.

Lemma goodMap_entries names h root es v :
  goodMap n0 names h root → entriesOf (Ref root) h = Ok es → v ∈ es.*2 →
  goodRef n0 names h v.
Proof.
  intros (_ & _ & Hvals). unfold entriesOf.
  destruct (h !! root) as [c|] eqn:Hc; intros [= <-].
  - intros ([k v'] & -> & Hin)%list_elem_of_fmap. by eapply Hvals.
  - intros H. by apply elem_of_nil in H.
Qed.

(** What a read under one of the [names] in a good reference yields. *)
Lemma goodRef_get (names : string → Prop) h v k x :
  goodRef n0 names h v → names k → getValue v k h = Ok x → freshVal n0 x.
Proof.
  unfold getValue. destruct v as [| | | |r|]; try by intros _ _ [= <-].
  intros (_ & _ & Hprops) Hk.
  destruct (h !! r) as [c|] eqn:Hc; [|by intros [= <-]].
  destruct (getProp k (props c)) as [y| |] eqn:Hget; intros [= <-]; try done.
  apply getProp_Own, lookupOwn_Some_elem in Hget. by eapply Hprops.
Qed.
End frame.


Section frame_functions.
Import Heap.
Local Open Scope nat_scope.
Variable n0 : nat.

Lemma lookup_new (h : heap) c : (h ++ [c]) !! length h = Some c.
Proof. by rewrite lookup_app_r, Nat.sub_diag. Qed.

(** A new object is a good reference when its properties under [names]
    are fresh. *)
Lemma goodRef_new names (h : heap) c :
  n0 ≤ length h →
  (∀ k x, (k, x) ∈ props c → names k → freshVal n0 x) →
  goodRef n0 names (h ++ [c]) (Ref (length h)).
Proof.
  intros Hn Hc. split_and!; [done | rewrite length_app; simpl; lia |].
  intros c' k x Hc' Hin Hk. rewrite lookup_new in Hc'. injection Hc' as <-.
  by eapply Hc.
Qed.

Lemma wp_initCategoryRanks mcr model h :
  goodMap n0 named h mcr →
  wp n0 (initCategoryRanks (Ref mcr) model)
     (fun _ h' => goodMap n0 named h' mcr) h.
Proof.
  intros Hmap. pose proof (goodMap_length _ _ _ _ Hmap) as Hn.
  unfold initCategoryRanks.
  apply wp_bind, wp_get; intros key _.
  apply wp_bind, wp_get; intros display _.
  apply wp_bind, wp_get; intros overall _.
  apply wp_bind, wp_alloc; [done|]. set (h1 := h ++ [array []]).
  assert (length h1 = S (length h)) as Hl1
    by (unfold h1; rewrite length_app; simpl; lia).
  apply wp_bind, wp_alloc; [lia|]. set (h2 := h1 ++ [array []]).
  assert (length h2 = S (length h1)) as Hl2
    by (unfold h2; rewrite length_app; simpl; lia).
  apply wp_bind, wp_alloc; [lia|]. set (h3 := h2 ++ [array []]).
  assert (length h3 = S (length h2)) as Hl3
    by (unfold h3; rewrite length_app; simpl; lia).
  apply wp_bind, wp_alloc; [lia|].
  apply wp_set; [simpl; by destruct Hmap|].
  apply goodMap_store.
  - apply goodRef_new; [lia|]. simpl. intros k x Hin Hk.
    unfold named, namedCategories in Hk.
    repeat (apply elem_of_cons in Hin as [[= -> ->]|Hin]);
      [..|by apply elem_of_nil in Hin]; simpl; first [lia | set_solver].
  - by do 4 apply goodMap_alloc.
Qed.

Lemma wp_recordCategoryRank mcr category p h :
  named category → goodMap n0 named h mcr →
  wp n0 (recordCategoryRank (Ref mcr) category p)
     (fun _ h' => goodMap n0 named h' mcr) h.
Proof.
  intros Hc Hmap. unfold recordCategoryRank.
  apply wp_bind, wp_get; intros r _.
  destruct (truthy r); [|by apply wp_ret].
  apply wp_bind, wp_get; intros r' Hr'.
  apply wp_bind, wp_get; intros ranks Hranks.
  apply wp_push.
  - eapply goodRef_get; [|exact Hc|exact Hranks]. by eapply goodMap_get.
  - intros l c xs _ Hl _. by apply goodMap_push.
Qed.

Lemma wp_collectCategoryRanks mcr rawData h :
  goodMap n0 named h mcr →
  wp n0 (collectCategoryRanks (Ref mcr) rawData)
     (fun _ h' => goodMap n0 named h' mcr) h.
Proof.
  intros Hmap. unfold collectCategoryRanks.
  apply wp_bind, wp_entries; intros ms _.
  apply wp_forEach; [|done]. clear h Hmap. intros me h _ Hmap.
  apply wp_bind, wp_entries; intros ds _.
  apply wp_forEach; [|done]. clear h Hmap. intros de h _ Hmap.
  case_decide as Hother; [by apply wp_ret|].
  apply wp_bind, wp_readonly; [apply readonly_sortedScores|]. intros scores.
  apply wp_forEach; [|done]. clear h Hmap. intros p h _ Hmap.
  apply wp_recordCategoryRank; [|done].
  pose proof (getDatasetCategory_range de.1) as Hrange.
  unfold named, namedCategories. set_solver.
Qed.


Lemma length_store v k x (h : heap) : length (store v k x h) = length h.
Proof.
  unfold store. destruct v; try done.
  destruct (h !! l); [by rewrite length_insert | done].
Qed.

(** The two averaging loops write to the entries of the accumulator. *)
Lemma wp_setCategoryAverage modelData category h :
  freshVal n0 modelData → n0 ≤ length h →
  wp n0 (setCategoryAverage modelData category)
     (fun _ h' => n0 ≤ length h') h.
Proof.
  intros Hfresh Hn. unfold setCategoryAverage.
  apply wp_bind, wp_get; intros ranks _.
  apply wp_bind, wp_elements; intros xs _.
  apply wp_set; [done|]. by rewrite length_store.
Qed.

Lemma wp_averageCategoryRanks mcr h :
  goodMap n0 named h mcr →
  wp n0 (averageCategoryRanks (Ref mcr)) (fun _ h' => n0 ≤ length h') h.
Proof.
  intros Hmap. pose proof (goodMap_length _ _ _ _ Hmap) as Hn.
  unfold averageCategoryRanks.
  apply wp_bind, wp_entries; intros es Hes.
  assert (∀ v, v ∈ es.*2 → freshVal n0 v) as Hfresh.
  { intros v Hv. eapply goodRef_fresh, goodMap_entries; eauto. }
  apply (wp_forEach n0 (fun h' => n0 ≤ length h')); [|done].
  clear h Hmap Hn Hes. intros modelData h Hin Hn.
  apply (wp_forEach n0 (fun h' => n0 ≤ length h')); [|done].
  clear h Hn. intros category h _ Hn.
  apply wp_setCategoryAverage; auto.
Qed.

Lemma wp_setMethodAverage modelData method h :
  freshVal n0 modelData → n0 ≤ length h →
  wp n0 (setMethodAverage modelData method) (fun _ h' => n0 ≤ length h') h.
Proof.
  intros Hfresh Hn. unfold setMethodAverage.
  apply wp_bind, wp_get; intros scores _.
  apply wp_bind, wp_elements; intros xs _.
  apply wp_set; [done|]. by rewrite length_store.
Qed.

Lemma wp_averageMethodPerformance mmp h :
  goodMap n0 anyName h mmp →
  wp n0 (averageMethodPerformance (Ref mmp)) (fun _ h' => n0 ≤ length h') h.
Proof.
  intros Hmap. pose proof (goodMap_length _ _ _ _ Hmap) as Hn.
  unfold averageMethodPerformance.
  apply wp_bind, wp_entries; intros es Hes.
  assert (∀ v, v ∈ es.*2 → freshVal n0 v) as Hfresh.
  { intros v Hv. eapply goodRef_fresh, goodMap_entries; eauto. }
  apply (wp_forEach n0 (fun h' => n0 ≤ length h')); [|done].
  clear h Hmap Hn Hes. intros modelData h Hin Hn.
  apply (wp_forEach n0 (fun h' => n0 ≤ length h')); [|done].
  clear h Hn. intros method h _ Hn.
  apply wp_setMethodAverage; auto.
Qed.

(** The collection of the scores per method. *)
Lemma wp_recordScore mmp method ke h :
  goodMap n0 anyName h mmp →
  wp n0 (recordScore (Ref mmp) method ke)
     (fun _ h' => goodMap n0 anyName h' mmp) h.
Proof.
  intros Hmap. unfold recordScore.
  apply wp_bind, wp_get; intros d _.
  destruct (truthy d); [|by apply wp_ret].
  apply wp_bind, wp_get; intros e _.
  apply wp_bind.
  apply (wp_mono n0 _ (fun _ h' => goodMap n0 anyName h' mmp)).
  - clear h Hmap. intros _ h Hmap.
    apply wp_bind, wp_get; intros e' He'.
    apply wp_bind, wp_get; intros scores Hscores.
    apply wp_bind, wp_get; intros d' _.
    apply wp_bind, wp_get; intros x _.
    apply wp_push.
    + apply (goodRef_get n0 anyName h e' method);
        [by eapply goodMap_get | exact I | exact Hscores].
    + intros l c xs _ Hl _. by apply goodMap_push.
  - destruct (truthy e); [by apply wp_ret|].
    pose proof (goodMap_length _ _ _ _ Hmap) as Hn.
    apply wp_bind, wp_alloc; [done|].
    apply wp_bind, wp_set; [simpl; by destruct Hmap|].
    assert (goodMap n0 anyName
              (store (Ref mmp) ke.1 (Ref (length h)) (h ++ [object []])) mmp)
      as Hmap'.
    { apply goodMap_store; [|by apply goodMap_alloc].
      apply goodRef_new; [done|]. simpl. intros k x Hin.
      by apply elem_of_nil in Hin. }
    revert Hmap'. generalize (store (Ref mmp) ke.1 (Ref (length h))
                                (h ++ [object []])).
    clear h Hmap Hn. intros h Hmap.
    apply wp_forEach; [|done]. clear h Hmap. intros m h _ Hmap.
    pose proof (goodMap_length _ _ _ _ Hmap) as Hn.
    apply wp_bind, wp_get; intros e' He'.
    apply wp_bind, wp_alloc; [done|].
    apply wp_set; [eapply goodRef_fresh, goodMap_get; eauto|].
    apply goodMap_store; [|by apply goodMap_alloc].
    apply goodRef_new; [done|]. simpl. intros k x Hin.
    by apply elem_of_nil in Hin.
Qed.

Lemma wp_collectMethodPerformance mmp rawData h :
  goodMap n0 anyName h mmp →
  wp n0 (collectMethodPerformance (Ref mmp) rawData)
     (fun _ h' => goodMap n0 anyName h' mmp) h.
Proof.
  intros Hmap. unfold collectMethodPerformance.
  apply wp_bind, wp_entries; intros ms _.
  apply wp_forEach; [|done]. clear h Hmap. intros me h _ Hmap.
  apply wp_bind, wp_entries; intros ds _.
  apply wp_forEach; [|done]. clear h Hmap. intros de h _ Hmap.
  apply wp_bind, wp_entries; intros ks _.
  apply wp_forEach; [|done]. clear h Hmap. intros ke h _ Hmap.
  by apply wp_recordScore.
Qed.

(** The ranks per dataset. *)
Lemma wp_initDatasetRanks mdr model h :
  goodMap n0 datasetsName h mdr →
  wp n0 (initDatasetRanks (Ref mdr) model)
     (fun _ h' => goodMap n0 datasetsName h' mdr) h.
Proof.
  intros Hmap. pose proof (goodMap_length _ _ _ _ Hmap) as Hn.
  unfold initDatasetRanks.
  apply wp_bind, wp_get; intros key _.
  apply wp_bind, wp_get; intros display _.
  apply wp_bind, wp_alloc; [done|]. set (h1 := h ++ [object []]).
  assert (length h1 = S (length h)) as Hl1
    by (unfold h1; rewrite length_app; simpl; lia).
  apply wp_bind, wp_alloc; [lia|].
  apply wp_set; [simpl; by destruct Hmap|].
  apply goodMap_store.
  - apply goodRef_new; [lia|]. simpl. intros k x Hin Hk.
    unfold datasetsName in Hk. subst k.
    repeat (apply elem_of_cons in Hin as [[= ->]|Hin]);
      [..|by apply elem_of_nil in Hin]; simpl; lia.
  - by do 2 apply goodMap_alloc.
Qed.

Lemma wp_recordMethodRank mdr byMethod p h :
  goodMap n0 datasetsName h mdr → goodMap n0 anyName h byMethod →
  wp n0 (recordMethodRank (Ref byMethod) p)
     (fun _ h' => goodMap n0 datasetsName h' mdr
                  ∧ goodMap n0 anyName h' byMethod) h.
Proof.
  intros Hmdr Hby. unfold recordMethodRank.
  apply wp_bind, wp_get; intros x _.
  apply wp_bind.
  apply (wp_mono n0 _ (fun _ h' => goodMap n0 datasetsName h' mdr
                                   ∧ goodMap n0 anyName h' byMethod)).
  - clear h Hmdr Hby. intros _ h [Hmdr Hby].
    apply wp_bind, wp_get; intros y Hy.
    apply wp_push; [eapply goodRef_fresh, goodMap_get; eauto|].
    intros l c xs _ Hl _. split; by apply goodMap_push.
  - destruct (truthy x); [by apply wp_ret|].
    pose proof (goodMap_length _ _ _ _ Hby) as Hn.
    apply wp_bind, wp_alloc; [done|].
    apply wp_set; [simpl; by destruct Hby|].
    assert (∀ names, goodRef n0 names (h ++ [array []]) (Ref (length h)))
      as Hnew.
    { intros names. apply goodRef_new; [done|]. simpl. intros k y Hin.
      by apply elem_of_nil in Hin. }
    split; (apply goodMap_store; [apply Hnew | by apply goodMap_alloc]).
Qed.

Lemma wp_storeAverageRank mdr dataset kr h :
  goodMap n0 datasetsName h mdr →
  wp n0 (storeAverageRank (Ref mdr) dataset kr)
     (fun _ h' => goodMap n0 datasetsName h' mdr) h.
Proof.
  intros Hmdr. unfold storeAverageRank.
  apply wp_bind, wp_get; intros r _.
  destruct (truthy r); [|by apply wp_ret].
  apply wp_bind, wp_elements; intros xs _.
  apply wp_bind, wp_get; intros r' Hr'.
  apply wp_bind, wp_get; intros datasets Hd.
  apply wp_set.
  - apply (goodRef_get n0 datasetsName h r' "datasets");
      [by eapply goodMap_get | reflexivity | exact Hd].
  - by apply goodMap_store.
Qed.

Lemma wp_averageDataset mdr rawData dataset h :
  goodMap n0 datasetsName h mdr →
  wp n0 (averageDataset (Ref mdr) rawData dataset)
     (fun _ h' => goodMap n0 datasetsName h' mdr) h.
Proof.
  intros Hmdr. pose proof (goodMap_length _ _ _ _ Hmdr) as Hn.
  unfold averageDataset.
  apply wp_bind, wp_alloc; [done|].
  assert (goodMap n0 datasetsName (h ++ [object []]) mdr
          ∧ goodMap n0 anyName (h ++ [object []]) (length h)) as Hboth.
  { split; [by apply goodMap_alloc | by apply goodMap_new]. }
  revert Hboth. generalize (h ++ [object []]). generalize (length h).
  clear h Hmdr Hn. intros byMethod h Hboth.
  apply wp_bind, wp_entries; intros ms _.
  apply wp_bind.
  apply (wp_mono n0 _ (fun _ h' => goodMap n0 datasetsName h' mdr
                                   ∧ goodMap n0 anyName h' byMethod)).
  - clear h Hboth. intros _ h [Hmdr Hby].
    apply wp_bind, wp_entries; intros es _.
    apply wp_forEach; [|done]. clear h Hmdr Hby. intros kr h _ Hmdr.
    by apply wp_storeAverageRank.
  - apply (wp_forEach n0 (fun h' => goodMap n0 datasetsName h' mdr
                                    ∧ goodMap n0 anyName h' byMethod));
      [|done].
    clear h Hboth. intros me h _ [Hmdr Hby].
    apply wp_bind, wp_get; intros models _.
    destruct (truthy models); [|by apply wp_ret].
    apply wp_bind, wp_get; intros models' _.
    apply wp_bind, wp_readonly; [apply readonly_sortedScores|]. intros scores.
    apply (wp_forEach n0 (fun h' => goodMap n0 datasetsName h' mdr
                                    ∧ goodMap n0 anyName h' byMethod));
      [|done].
    clear h Hmdr Hby. intros p h _ [Hmdr Hby].
    by apply wp_recordMethodRank.
Qed.

Lemma wp_computeModelDatasetRanks rawData modelRanks h :
  n0 ≤ length h →
  wp n0 (computeModelDatasetRanks rawData modelRanks)
     (fun _ h' => n0 ≤ length h') h.
Proof.
  intros Hn. unfold computeModelDatasetRanks.
  apply wp_bind, wp_alloc; [done|].
  pose proof (goodMap_new n0 datasetsName h Hn) as Hmdr.
  revert Hmdr. generalize (h ++ [object []]). generalize (length h).
  clear h Hn. intros mdr h Hmdr.
  apply wp_bind, wp_elements; intros models _.
  apply wp_bind.
  apply (wp_mono n0 _ (fun _ h' => goodMap n0 datasetsName h' mdr)).
  - clear h Hmdr. intros _ h Hmdr.
    apply wp_bind, wp_entries; intros ms _.
    apply wp_bind, wp_readonly; [apply readonly_allDatasets|]. intros datasets.
    apply wp_bind.
    apply (wp_mono n0 _ (fun _ h' => goodMap n0 datasetsName h' mdr)).
    + intros _ h' Hmdr'. apply wp_ret. by eapply goodMap_length.
    + apply wp_forEach; [|done]. clear h Hmdr. intros dataset h _ Hmdr.
      by apply wp_averageDataset.
  - apply wp_forEach; [|done]. clear h Hmdr. intros model h _ Hmdr.
    by apply wp_initDatasetRanks.
Qed.

Lemma wp_computeDetailedStats rawData stats h :
  n0 ≤ length h →
  wp n0 (computeDetailedStats rawData stats) (fun _ h' => n0 ≤ length h') h.
Proof.
  intros Hn. unfold computeDetailedStats.
  apply wp_bind, wp_alloc; [done|].
  pose proof (goodMap_new n0 named h Hn) as Hmcr.
  revert Hmcr. generalize (h ++ [object []]). generalize (length h).
  clear h Hn. intros mcr h Hmcr.
  apply wp_bind, wp_get; intros model_ranks _.
  apply wp_bind, wp_elements; intros models _.
  apply wp_bind.
  apply (wp_mono n0 _ (fun _ h' => goodMap n0 named h' mcr));
    [|apply wp_forEach; [|done]; intros model h' _ Hmcr';
      by apply wp_initCategoryRanks].
  clear h Hmcr. intros _ h Hmcr.
  apply wp_bind.
  apply (wp_mono n0 _ (fun _ h' => goodMap n0 named h' mcr));
    [|by apply wp_collectCategoryRanks].
  clear h Hmcr. intros _ h Hmcr.
  apply wp_bind.
  apply (wp_mono n0 _ (fun _ h' => n0 ≤ length h'));
    [|by apply wp_averageCategoryRanks].
  clear h Hmcr. intros _ h Hn.
  apply wp_bind, wp_alloc; [done|].
  pose proof (goodMap_new n0 anyName h Hn) as Hmmp.
  revert Hmmp. generalize (h ++ [object []]). generalize (length h).
  clear h Hn. intros mmp h Hmmp.
  apply wp_bind.
  apply (wp_mono n0 _ (fun _ h' => goodMap n0 anyName h' mmp));
    [|by apply wp_collectMethodPerformance].
  clear h Hmmp. intros _ h Hmmp.
  apply wp_bind.
  apply (wp_mono n0 _ (fun _ h' => n0 ≤ length h'));
    [|by apply wp_averageMethodPerformance].
  clear h Hmmp. intros _ h Hn.
  apply wp_bind, wp_get; intros model_ranks' _.
  apply wp_bind.
  apply (wp_mono n0 _ (fun _ h' => n0 ≤ length h'));
    [|by apply wp_computeModelDatasetRanks].
  clear h Hn. intros mdr h Hn.
  apply wp_alloc; [done|]. rewrite length_app. lia.
Qed.
End frame_functions.


(** *** The two aggregation functions *)

Lemma frame_take (h h' : Heap.heap) : frame (length h) h h' → take (length h) h' = h.
Proof.
  intros [Hlen Hsame]. specialize (Hlen (Nat.le_refl _)).
  apply list_eq. intros i.
  destruct (decide (i < length h)%nat) as [Hi|Hi].
  - rewrite lookup_take_lt by done. by apply Hsame.
  - rewrite lookup_take_ge by lia. symmetry. apply lookup_ge_None. lia.
Qed.

(** On the heap that holds the sample table and summary, the call returns,
    and what it returns reads as the aggregate of the tables does. *)
Example heap_aggregation_on_sample :
  ∃ r s h out h',
    Store.loaded sampleRawData sampleStats = (Ok (r, s), h)
    ∧ Heap.computeDetailedStats r s h = (Ok out, h')
    ∧ Store.numberAt out ["modelCategoryRanks"; "m1"; "GlandAvg"] h'
      = categoryAvgOf sampleDetailedStats "m1" "Gland"
    ∧ Store.numberAt out ["modelCategoryRanks"; "m3"; "GlandAvg"] h'
      = categoryAvgOf sampleDetailedStats "m3" "Gland"
    ∧ Store.numberAt out ["modelMethodPerformance"; "m1"; "frozenAvg"] h'
      = methodAvgOf sampleDetailedStats "m1" "frozen"
    ∧ Store.numberAt out ["modelMethodPerformance"; "m4"; "loraAvg"] h'
      = methodAvgOf sampleDetailedStats "m4" "lora"
    ∧ Store.numberAt out ["modelDatasetRanks"; "m1"; "datasets"; "GlaS"] h'
      = datasetRankOf sampleDetailedStats "m1" "GlaS"
    ∧ Store.numberAt out ["modelDatasetRanks"; "m3"; "datasets"; "GlaS"] h'
      = datasetRankOf sampleDetailedStats "m3" "GlaS"
    ∧ is_Some (categoryAvgOf sampleDetailedStats "m1" "Gland")
    ∧ is_Some (methodAvgOf sampleDetailedStats "m1" "frozen")
    ∧ is_Some (datasetRankOf sampleDetailedStats "m1" "GlaS")
    ∧ take (length h) h' = h.
Proof. do 5 eexists. vm_compute. repeat split; by eexists. Qed.

(** C8: the aggregation functions do not change their inputs.  Whatever
    objects the heap [h] holds for the raw table and the summary, and
    whatever [rawData], [stats] and [modelRanks] refer to, after
    [computeDetailedStats] and after [computeModelDatasetRanks], on return
    as on a throw, every object of [h] has the properties and the elements
    it had before the call: the objects made by the call come after them. *)
Theorem aggregation_leaves_inputs_unchanged
    (rawData stats modelRanks : Heap.value) (h : Heap.heap) :
  take (length h) (Heap.computeDetailedStats rawData stats h).2 = h
  ∧ take (length h) (Heap.computeModelDatasetRanks rawData modelRanks h).2 = h.
Proof.
  split; apply frame_take.
  - by destruct (wp_computeDetailedStats (length h) rawData stats h).
  - by destruct (wp_computeModelDatasetRanks (length h) rawData modelRanks h).
Qed.

(** * Further properties of the code *)

(** ** Loading *)

Section loading.
Import Leaderboard LeaderboardTables.
Context (loadMethodData : string → option MethodData).

Lemma load_lookup (ms : list string) (o : RawData) m :
  lookupOwn m (fold_left (storeMethod loadMethodData) ms o)
  = if decide (m ∈ ms ∧ is_Some (loadMethodData m)) then loadMethodData m
    else lookupOwn m o.
Proof.
  revert o. induction ms as [|a ms IH]; intros o; cbn [fold_left].
  - rewrite decide_False; [done|]. intros [H _]. by apply elem_of_nil in H.
  - rewrite IH. unfold storeMethod.
    destruct (loadMethodData a) as [data|] eqn:Ha;
      rewrite ?lookupOwn_setProp;
      repeat case_decide; subst; try done; try congruence.
    all: exfalso; set_unfold; unfold is_Some in *; naive_solver congruence.
Qed.

Lemma load_keys (ms : list string) (o : RawData) :
  NoDup ms → (∀ m, m ∈ ms → m ∉ keys o) →
  keys (fold_left (storeMethod loadMethodData) ms o)
  = keys o ++ filter (fun m => is_Some (loadMethodData m)) ms.
Proof.
  revert o. induction ms as [|a ms IH]; intros o Hnd Hfresh; cbn [fold_left].
  - by rewrite filter_nil, app_nil_r.
  - apply NoDup_cons in Hnd as [Ha Hnd]. rewrite filter_cons.
    assert (a ∉ keys o) as Hao by (apply Hfresh; left).
    unfold storeMethod at 2. destruct (loadMethodData a) as [data|] eqn:Hda.
    + rewrite decide_True by eauto. rewrite IH; [|done|].
      * rewrite keys_setProp, decide_False by done. by rewrite <-app_assoc.
      * intros m Hm. rewrite keys_setProp, decide_False by done.
        intros [?|Hx%list_elem_of_singleton]%elem_of_app; [|by subst].
        eapply Hfresh; [by right | done].
    + rewrite decide_False by (by intros [? [=]]).
      apply IH; [done|]. intros m Hm. apply Hfresh. by right.
Qed.
End loading.

(** X1. Whatever files fail to load, the table that [loadAllData] builds
    has as keys exactly the methods of [CONFIG.methods] whose file was
    loaded, in the order of [CONFIG.methods]; under such a key is the
    content of the file, and no other key is there. *)
Theorem loadAllData_methods (loadMethodData : string → option MethodData) :
  keys (LeaderboardTables.loadAllData loadMethodData)
  = filter (fun m => is_Some (loadMethodData m)) Leaderboard.methods
  ∧ (∀ m, lookupOwn m (LeaderboardTables.loadAllData loadMethodData)
          = if decide (m ∈ Leaderboard.methods) then loadMethodData m
            else None)
  ∧ configuredMethods (LeaderboardTables.loadAllData loadMethodData).
Proof.
  assert (keys (LeaderboardTables.loadAllData loadMethodData)
          = filter (fun m => is_Some (loadMethodData m)) Leaderboard.methods)
    as Hkeys.
  { unfold LeaderboardTables.loadAllData. rewrite load_keys; [done| |].
    - unfold Leaderboard.methods. repeat constructor; set_solver.
    - intros m _ H. by apply elem_of_nil in H. }
  split_and!; [done| |].
  - intros m. unfold LeaderboardTables.loadAllData. rewrite load_lookup.
    repeat case_decide; try done; [naive_solver|].
    destruct (loadMethodData m) eqn:Hm; [|done].
    exfalso. naive_solver.
  - intros me Hme.
    assert (me.1 ∈ keys (LeaderboardTables.loadAllData loadMethodData)) as Hk
      by (unfold keys; by apply list_elem_of_fmap_2).
    rewrite Hkeys in Hk. by apply list_elem_of_filter in Hk as [_ ?].
Qed.




(** ** The leaderboard table *)

Lemma filter_ext_elem {A} (P1 P2 : A → Prop) `{!∀ x, Decision (P1 x)}
    `{!∀ x, Decision (P2 x)} (l : list A) :
  (∀ x, x ∈ l → P1 x ↔ P2 x) → filter P1 l = filter P2 l.
Proof.
  induction l as [|x l IH]; intros Hext; [done|].
  rewrite !filter_cons. rewrite IH by (intros y Hy; apply Hext; by right).
  pose proof (Hext x (list_elem_of_here _ _)) as Hx.
  destruct (decide (P1 x)), (decide (P2 x)); try done; tauto.
Qed.

Lemma elem_of_keys_filter {V} (P : string * V → Prop)
    `{!∀ x, Decision (P x)} (Q : string → Prop) (o : JsObject V) k :
  (∀ e, P e ↔ Q e.1) →
  k ∈ keys (filter P o) ↔ k ∈ keys o ∧ Q k.
Proof.
  intros HPQ. unfold keys. rewrite !list_elem_of_fmap. split.
  - intros ([k' v] & -> & [HP Hin]%list_elem_of_filter). split.
    + by exists (k', v).
    + by apply HPQ in HP.
  - intros [([k' v] & -> & Hin) HQ]. exists (k', v). split; [done|].
    apply list_elem_of_filter. split; [by apply HPQ | done].
Qed.

Lemma CONFIG_allDatasets_NoDup : NoDup LeaderboardTables.CONFIG_allDatasets.
Proof. apply (bool_decide_unpack _). by vm_compute. Qed.

(** The names of the configuration and their lower-case forms are
    ordinary property names. *)
Lemma CONFIG_allDatasets_ordinary d :
  d ∈ LeaderboardTables.CONFIG_allDatasets →
  (d ∉ objectPrototypeKeys) ∧ (JsString.toLowerCase d ∉ objectPrototypeKeys).
Proof.
  revert d. apply Forall_forall. apply (bool_decide_unpack _). by vm_compute.
Qed.

(** X3. The dataset columns of the leaderboard are the names of
    [CONFIG.allDatasets], in that order and each once, for which
    [dataset_sota] has a key equal to the name or to its lower-case form;
    a key of [dataset_sota] outside the configuration adds no column; and
    every column has one of the categories Nuclear, Gland and Tissue. *)
Theorem getUniqueDatasets_columns {V} (datasetSota : JsObject V) :
  LeaderboardTables.getUniqueDatasets datasetSota
    `sublist_of` LeaderboardTables.CONFIG_allDatasets
  ∧ NoDup (LeaderboardTables.getUniqueDatasets datasetSota)
  ∧ (∀ d, d ∈ LeaderboardTables.getUniqueDatasets datasetSota
          ↔ d ∈ LeaderboardTables.CONFIG_allDatasets
            ∧ (d ∈ keys datasetSota
               ∨ JsString.toLowerCase d ∈ keys datasetSota))
  ∧ LeaderboardTables.getUniqueDatasets datasetSota
    = LeaderboardTables.getUniqueDatasets
        (filter (fun e : string * V =>
                   e.1 ∈ LeaderboardTables.CONFIG_allDatasets
                   ∨ e.1 ∈ JsString.toLowerCase
                             <$> LeaderboardTables.CONFIG_allDatasets)
                datasetSota)
  ∧ (∀ d, d ∈ LeaderboardTables.getUniqueDatasets datasetSota →
          Leaderboard.getDatasetCategory d ∈ namedCategories).
Proof.
  unfold LeaderboardTables.getUniqueDatasets. split_and!.
  - apply sublist_filter.
  - apply NoDup_filter, CONFIG_allDatasets_NoDup.
  - intros d. rewrite list_elem_of_filter. tauto.
  - apply filter_ext_elem. intros d Hd.
    rewrite !(elem_of_keys_filter _
      (fun k => k ∈ LeaderboardTables.CONFIG_allDatasets
                ∨ k ∈ JsString.toLowerCase
                        <$> LeaderboardTables.CONFIG_allDatasets)) by done.
    assert (JsString.toLowerCase d
              ∈ JsString.toLowerCase <$> LeaderboardTables.CONFIG_allDatasets)
      by (by apply list_elem_of_fmap_2).
    tauto.
  - intros d [_ Hd]%list_elem_of_filter. revert d Hd.
    apply Forall_forall. apply (bool_decide_unpack _). by vm_compute.
Qed.

Lemma sum_ge_bound (xs : list Q) (b : Q) :
  Forall (fun x => (b <= x)%Q) xs → (num (length xs) * b <= sum xs)%Q.
Proof.
  induction 1 as [|x xs Hx _ IH]; simpl length.
  - change (0 * b <= 0)%Q. lra.
  - rewrite sum_cons, num_S. lra.
Qed.

Lemma average_ge_bound (xs : list Q) (b : Q) :
  xs ≠ [] → Forall (fun x => (b <= x)%Q) xs → (b <= average xs)%Q.
Proof.
  intros Hne Hall. unfold average.
  assert (0 < num (length xs))%Q as Hpos.
  { apply num_pos. destruct xs; [done | simpl; lia]. }
  apply Qle_shift_div_l; [done|].
  rewrite Qmult_comm. by apply sum_ge_bound.
Qed.

Lemma truthyNumber_pos (q : Q) : (0 < q)%Q → truthyNumber q = true.
Proof.
  intros Hq. unfold truthyNumber. apply negb_true_iff.
  apply not_true_iff_false. intros Heq%Qeq_bool_iff. lra.
Qed.

(** A rank is at least 1, and so is an average of ranks. *)
Lemma methodRanks_bound (rawData : RawData) dataset key :
  Forall (fun rank => (1 ≤ rank)%nat) (methodRanks rawData dataset key).
Proof.
  apply Forall_forall. intros rank. unfold methodRanks.
  rewrite list_elem_of_bind. intros (me & Hrank & Hme).
  destruct (lookupOwn dataset me.2) as [models|];
    [|by apply elem_of_nil in Hrank].
  unfold ranksOf in Hrank.
  apply list_elem_of_fmap in Hrank as ([name rank'] & -> & Hin).
  apply list_elem_of_filter in Hin as [_ Hin].
  apply rankModels_bound in Hin. simpl. lia.
Qed.

Lemma averageRank_pos (rawData : RawData) dataset key q :
  averageRank rawData dataset key = Some q → (1 <= q)%Q.
Proof.
  unfold averageRank. case_decide as Hne; [done|]. intros [= <-].
  apply average_ge_bound.
  - by destruct (methodRanks rawData dataset key).
  - apply Forall_fmap. eapply Forall_impl; [apply methodRanks_bound|].
    intros rank Hr. simpl. change 1%Q with (num 1). by apply num_le.
Qed.

Lemma averageRank_observed (rawData : RawData) dataset key :
  is_Some (averageRank rawData dataset key) ↔ observedOn rawData dataset key.
Proof.
  rewrite <-methodRanks_ne_nil. unfold averageRank.
  case_decide as H; split; done.
Qed.

(** What [computeModelDatasetRanks] leaves under a listed model. *)
Lemma computeModelDatasetRanks_lookup rawData modelRanks out m :
  Leaderboard.computeModelDatasetRanks rawData modelRanks = Ok out →
  m ∈ modelRanks →
  ∃ r, lookupOwn (model_key m) out = Some r
    ∧ ∀ d, lookupOwn d (Leaderboard.DatasetRanks.datasets r)
           = averageRank rawData d (model_key m).
Proof.
  intros Hrun Hm.
  destruct (initDatasetRanks_lookup _ _ Hm) as (r0 & Hr0 & Hempty).
  pose proof (fun d => storeDatasets_lookup _ _ _ _ _ _ d Hrun Hr0) as Hall.
  destruct (Hall "") as (r & Hr & _). exists r. split; [done|].
  intros d. destruct (Hall d) as (r' & Hr' & Hd).
  rewrite Hr in Hr'. injection Hr' as <-. rewrite Hd, Hempty.
  unfold averageRank. simpl.
  destruct (decide (methodRanks rawData d (model_key m) = [])) as [Hnil|Hne].
  - rewrite decide_False; [done|]. tauto.
  - rewrite decide_True; [done|]. split; [|done].
    apply elem_of_allDatasets.
    apply methodRanks_ne_nil in Hne as (me & models & _ & _ & Hme & Hl & _).
    exists me. split; [done|]. apply lookupOwn_is_Some. eauto.
Qed.

Lemma computeDetailedStats_datasetRanks rawData stats out :
  Leaderboard.computeDetailedStats rawData stats = Ok out →
  Leaderboard.computeModelDatasetRanks rawData (model_ranks stats)
  = Ok (Leaderboard.modelDatasetRanks out).
Proof.
  unfold Leaderboard.computeDetailedStats.
  destruct (Leaderboard.collectCategoryRanks _ _); [|done]. simpl.
  destruct (Leaderboard.collectMethodPerformance _); [|done]. simpl.
  destruct (Leaderboard.averageMethodPerformance _); [|done]. simpl.
  destruct (Leaderboard.computeModelDatasetRanks _ _); [|done]. simpl.
  by intros [= <-].
Qed.

(** A row filled key by key over distinct keys. *)
Lemma keys_fold_setProp {V} (g : string → V) (ds : list string) :
  NoDup ds →
  keys (fold_left (fun row d => setProp d (g d) row) ds []) = ds.
Proof.
  induction ds as [|d ds IH] using rev_ind; [done|].
  intros [Hnd [Hdisj _]]%NoDup_app. rewrite fold_left_app. simpl.
  rewrite keys_setProp, IH by done.
  rewrite decide_False; [done|]. intros Hin. apply (Hdisj d Hin). left.
Qed.

Lemma lookupOwn_cells {V} (g : string → V) (ds : list string) d :
  d ∈ ds →
  lookupOwn d (fold_left (fun row d => setProp d (g d) row) ds [])
  = Some (g d).
Proof.
  intros Hd.
  by apply (lookupOwn_fold_setProp (fun d => d) g ds [] d); [|intros ? _ ->].
Qed.

Lemma truthyRank_averageRank rawData key r d :
  (∀ d, lookupOwn d r = averageRank rawData d key) →
  LeaderboardTables.truthyRank r d = averageRank rawData d key.
Proof.
  intros Hr. unfold LeaderboardTables.truthyRank. rewrite Hr.
  destruct (averageRank rawData d key) as [q|] eqn:Hq; [|done].
  apply averageRank_pos in Hq. rewrite truthyNumber_pos; [done | lra].
Qed.

(** X4. The leaderboard table built from the aggregate of a raw table has
    one row per listed model, in the order of the list; the row of a model
    carries its position and key, is marked [isTop3] for the first three
    rows, and has one cell per dataset column.  The cell of a column is the
    cross-method average rank of the model for the dataset of that name,
    or else for the dataset named by its lower-case form, and is [null]
    exactly when the model has a Mean_Dice observation under neither
    name. *)
Theorem leaderboard_table_cells {V} rawData stats out
    (datasetSota : JsObject V) idx m d :
  Leaderboard.computeDetailedStats rawData stats = Ok out →
  model_ranks stats !! idx = Some m →
  d ∈ LeaderboardTables.getUniqueDatasets datasetSota →
  let table :=
    LeaderboardTables.renderLeaderboardTable (model_ranks stats) out
      datasetSota in
  length table = length (model_ranks stats)
  ∧ ∃ row c,
      table !! idx = Some row
      ∧ LeaderboardTables.TableRow.model_key row = model_key m
      ∧ LeaderboardTables.TableRow.rank row = position m
      ∧ LeaderboardTables.TableRow.isTop3 row = bool_decide (idx < 3)%nat
      ∧ keys (LeaderboardTables.TableRow.cells row)
        = LeaderboardTables.getUniqueDatasets datasetSota
      ∧ lookupOwn d (LeaderboardTables.TableRow.cells row) = Some c
      ∧ c = match averageRank rawData d (model_key m) with
            | Some q => Some q
            | None => averageRank rawData (JsString.toLowerCase d) (model_key m)
            end
      ∧ (c = None ↔ ¬ observedOn rawData d (model_key m)
                    ∧ ¬ observedOn rawData (JsString.toLowerCase d)
                          (model_key m)).
Proof.
  intros Hrun Hm Hd table.
  apply computeDetailedStats_datasetRanks in Hrun.
  destruct (computeModelDatasetRanks_lookup _ _ _ m Hrun) as (r & Hr & Hval);
    [by eapply list_elem_of_lookup_2|].
  split.
  { unfold table, LeaderboardTables.renderLeaderboardTable.
    by rewrite length_fmap, indexed_length. }
  assert (LeaderboardTables.datasetCell (LeaderboardTables.datasetRanksOf out
                                    (model_key m)) d
          = match averageRank rawData d (model_key m) with
            | Some q => Some q
            | None =>
                averageRank rawData (JsString.toLowerCase d) (model_key m)
            end) as Hcell.
  { unfold LeaderboardTables.datasetCell, LeaderboardTables.datasetRanksOf.
    apply getProp_Own in Hr. rewrite Hr.
    by rewrite !(truthyRank_averageRank rawData (model_key m)) by done. }
  exists (LeaderboardTables.tableRow out
            (LeaderboardTables.getUniqueDatasets datasetSota) (idx, m)).
  eexists. split_and!; [| done | done | done | | | reflexivity |].
  - unfold table, LeaderboardTables.renderLeaderboardTable.
    by rewrite list_lookup_fmap, indexed_lookup, Hm.
  - simpl. apply keys_fold_setProp.
    unfold LeaderboardTables.getUniqueDatasets.
    apply NoDup_filter, CONFIG_allDatasets_NoDup.
  - simpl. rewrite lookupOwn_cells by done. by rewrite Hcell.
  - rewrite <-!averageRank_observed.
    destruct (averageRank rawData d (model_key m)) as [q|] eqn:Hq.
    + split; [done|]. intros [H _]. exfalso. apply H. eauto.
    + destruct (averageRank rawData (JsString.toLowerCase d) (model_key m))
        as [q|] eqn:Hq'.
      * split; [done|]. intros [_ H]. exfalso. apply H. eauto.
      * split; [|done]. intros _. split; by intros [? [=]].
Qed.

Lemma leaderboard_table_cells_witness :
  Leaderboard.computeDetailedStats sampleRawData sampleStats
    = Ok sampleDetailedStats
  ∧ model_ranks sampleStats !! 0%nat = Some (sampleModel "m1" 1.5)
  ∧ model_ranks sampleStats !! 2%nat = Some (sampleModel "m3" 3)
  ∧ "GlaS" ∈ LeaderboardTables.getUniqueDatasets [("GlaS", ())]
  ∧ (∃ row q,
       LeaderboardTables.renderLeaderboardTable (model_ranks sampleStats)
         sampleDetailedStats [("GlaS", ())] !! 0%nat = Some row
       ∧ lookupOwn "GlaS" (LeaderboardTables.TableRow.cells row) = Some (Some q)
       ∧ (q == 3)%Q)
  ∧ (∃ row,
       LeaderboardTables.renderLeaderboardTable (model_ranks sampleStats)
         sampleDetailedStats [("GlaS", ())] !! 2%nat = Some row
       ∧ lookupOwn "GlaS" (LeaderboardTables.TableRow.cells row) = Some None).
Proof.
  assert (Leaderboard.computeDetailedStats sampleRawData sampleStats
          = Ok sampleDetailedStats) as Hrun by (vm_compute; reflexivity).
  assert ("GlaS" ∈ LeaderboardTables.getUniqueDatasets [("GlaS", ())]) as Hd
    by (vm_compute; set_solver).
  split_and!; [done | done | done | done | |].
  - destruct (leaderboard_table_cells sampleRawData sampleStats
                sampleDetailedStats [("GlaS", ())] 0 (sampleModel "m1" 1.5)
                "GlaS" Hrun eq_refl Hd)
      as (_ & row & c & Hrow & _ & _ & _ & _ & Hc & -> & _).
    exists row. eexists. split_and!; [exact Hrow | exact Hc | reflexivity].
  - destruct (leaderboard_table_cells sampleRawData sampleStats
                sampleDetailedStats [("GlaS", ())] 2 (sampleModel "m3" 3)
                "GlaS" Hrun eq_refl Hd)
      as (_ & row & c & Hrow & _ & _ & _ & _ & Hc & -> & _).
    exists row. split; [exact Hrow | exact Hc].
Defined.

(** ** [Array.prototype.sort] with any comparator that is an ordering *)

Lemma insertSorted_Permutation_any {A} (cmp : A → A → Q) x l :
  insertSorted cmp x l ≡ₚ x :: l.
Proof.
  induction l as [|y l IH]; [done|]. simpl.
  destruct (Qlt_le_dec 0 (cmp x y)); [|done].
  rewrite IH. apply Permutation_swap.
Qed.

Lemma sort_Permutation_any {A} (cmp : A → A → Q) l : sort cmp l ≡ₚ l.
Proof.
  induction l as [|x l IH]; simpl; [done|].
  by rewrite insertSorted_Permutation_any, IH.
Qed.

Section sort_by_order.
Context {A : Type} (cmp : A → A → Q).

Hypothesis cmp_asym : ∀ x y, (0 < cmp x y)%Q → mayPrecede cmp y x.
Hypothesis cmp_trans :
  ∀ x y z, mayPrecede cmp x y → mayPrecede cmp y z → mayPrecede cmp x z.

Lemma insertSorted_ordered x l :
  StronglySorted (mayPrecede cmp) l → StronglySorted (mayPrecede cmp) (insertSorted cmp x l).
Proof.
  induction 1 as [|y l Hl IH Hy]; simpl.
  - repeat constructor.
  - destruct (Qlt_le_dec 0 (cmp x y)) as [Hlt|Hle].
    + constructor; [done|].
      rewrite insertSorted_Permutation_any. constructor; [|done].
      by apply cmp_asym.
    + assert (mayPrecede cmp x y) as Hxy by (unfold mayPrecede; lra).
      constructor; [by constructor|]. constructor; [done|].
      eapply Forall_impl; [exact Hy|]. intros z Hz. by eapply cmp_trans.
Qed.

Lemma sort_ordered l : StronglySorted (mayPrecede cmp) (sort cmp l).
Proof.
  induction l as [|x l IH]; simpl; [constructor|].
  by apply insertSorted_ordered.
Qed.

(** Elements none of which has to go behind another keep their order. *)
Lemma insertSorted_class (P : A → Prop) `{!∀ x, Decision (P x)} x l :
  (∀ a b, P a → P b → mayPrecede cmp a b) →
  filter P (insertSorted cmp x l) = filter P (x :: l).
Proof.
  intros HP. induction l as [|y l IH]; [done|]. simpl.
  destruct (Qlt_le_dec 0 (cmp x y)) as [Hlt|Hle]; [|done].
  rewrite filter_cons, IH, !filter_cons.
  destruct (decide (P y)) as [Hy|Hy]; destruct (decide (P x)) as [Hx|Hx];
    try done.
  by destruct (HP x y Hx Hy).
Qed.

Lemma sort_class (P : A → Prop) `{!∀ x, Decision (P x)} l :
  (∀ a b, P a → P b → mayPrecede cmp a b) →
  filter P (sort cmp l) = filter P l.
Proof.
  intros HP. induction l as [|x l IH]; simpl; [done|].
  by rewrite insertSorted_class, !filter_cons, IH.
Qed.

(** Filtering a sorted array and sorting the filtered array give the same. *)
Lemma insertSorted_filter_order (P : A → Prop) `{!∀ x, Decision (P x)} x l :
  StronglySorted (mayPrecede cmp) l →
  filter P (insertSorted cmp x l)
  = if decide (P x) then insertSorted cmp x (filter P l) else filter P l.
Proof.
  induction 1 as [|y l Hl IH Hy].
  - simpl. rewrite filter_cons, filter_nil. by case_decide.
  - cbn [insertSorted]. destruct (Qlt_le_dec 0 (cmp x y)) as [Hlt|Hle].
    + rewrite !(filter_cons _ y), IH.
      destruct (decide (P y)); [|done].
      destruct (decide (P x)); [|done].
      cbn [insertSorted]. by destruct (Qlt_le_dec 0 (cmp x y)); [|lra].
    + rewrite filter_cons. destruct (decide (P x)); [|done].
      destruct (filter P (y :: l)) as [|z l'] eqn:Hf; [done|].
      assert (z ∈ y :: l) as Hz.
      { eapply list_elem_of_filter. rewrite Hf. left. }
      assert (mayPrecede cmp x y) as Hxy by (unfold mayPrecede; lra).
      assert (mayPrecede cmp x z) as Hxz.
      { apply elem_of_cons in Hz as [->|Hz]; [done|].
        rewrite Forall_forall in Hy. eapply cmp_trans; [exact Hxy|].
        by apply Hy. }
      cbn [insertSorted]. by destruct (Qlt_le_dec 0 (cmp x z)).
Qed.

Lemma sort_filter_order (P : A → Prop) `{!∀ x, Decision (P x)} l :
  filter P (sort cmp l) = sort cmp (filter P l).
Proof.
  induction l as [|x l IH]; simpl; [done|].
  rewrite insertSorted_filter_order by apply sort_ordered.
  rewrite filter_cons, IH. by destruct (decide (P x)).
Qed.
End sort_by_order.

(** ** Sorting the leaderboard *)

Section handle_sort.
Import LeaderboardTables.

Lemma mayPrecede_compareRows (s : Sort.t) (a b : TableRow.t) :
  mayPrecede (fun a b => Number.comparison (compareRows s a b)) a b
  ↔ inOrder (Sort.direction s)
            (numericValue (Sort.column s) a) (numericValue (Sort.column s) b).
Proof.
  unfold mayPrecede, compareRows, inOrder.
  destruct (Sort.direction s), (numericValue (Sort.column s) a) as [x|],
    (numericValue (Sort.column s) b) as [y|]; simpl;
    split; intros; try done; try lra.
Qed.

Lemma inOrder_total d va vb : ¬ inOrder d va vb → inOrder d vb va.
Proof.
  destruct d, va as [x|], vb as [y|]; simpl; intros; try done; try lra.
Qed.

Lemma inOrder_trans d va vb vc :
  inOrder d va vb → inOrder d vb vc → inOrder d va vc.
Proof.
  destruct d, va as [x|], vb as [y|], vc as [z|]; simpl; intros;
    try done; try lra.
Qed.

Lemma sameValue_inOrder d va vb : sameValue va vb → inOrder d va vb.
Proof.
  destruct d, va as [x|], vb as [y|]; simpl; intros; try done; try lra.
Qed.

Lemma sameValue_trans va vb vc :
  sameValue vb va → sameValue vc va → sameValue vb vc.
Proof.
  destruct va as [x|], vb as [y|], vc as [z|]; simpl; intros;
    try done; try lra.
Qed.

Lemma toggleSort_column s column : Sort.column (toggleSort s column) = column.
Proof. unfold toggleSort. by case_decide. Qed.
End handle_sort.

(** X5. A click on the header of a numeric column shows the rows of
    [tableData], each once, sorted by that column: ascending when the
    column is not the one of the current sort state, and in the toggled
    direction when it is (the state starts at [rank] ascending, so the
    first click on Rank sorts descending).  Ascending, the rows with a
    number come from small to large and the rows without one ([null]) come
    last; descending, the rows without a number come first, and then the
    numbers from large to small. *)
Theorem handleSort_order (s : LeaderboardTables.Sort.t)
    (tableData : list LeaderboardTables.TableRow.t) (column : string) :
  numericColumn column →
  let s' := (LeaderboardTables.handleSort s tableData column).1 in
  let rows := (LeaderboardTables.handleSort s tableData column).2 in
  LeaderboardTables.Sort.column s' = column
  ∧ LeaderboardTables.Sort.direction s'
    = (if decide (LeaderboardTables.Sort.column s = column) then
         match LeaderboardTables.Sort.direction s with
         | LeaderboardTables.asc => LeaderboardTables.desc
         | LeaderboardTables.desc => LeaderboardTables.asc
         end
       else LeaderboardTables.asc)
  ∧ rows ≡ₚ tableData
  ∧ ∀ i j a b, (i < j)%nat → rows !! i = Some a → rows !! j = Some b →
      inOrder (LeaderboardTables.Sort.direction s')
              (LeaderboardTables.numericValue column a)
              (LeaderboardTables.numericValue column b).
Proof.
  intros _ s' rows. unfold s', rows, LeaderboardTables.handleSort. simpl.
  split_and!.
  - apply toggleSort_column.
  - unfold LeaderboardTables.toggleSort. by case_decide.
  - apply sort_Permutation_any.
  - intros i j a b Hij Ha Hb.
    set (t := LeaderboardTables.toggleSort s column) in *.
    rewrite <-(toggleSort_column s column). fold t.
    apply mayPrecede_compareRows.
    eapply StronglySorted_lookup; [|exact Hij|exact Ha|exact Hb].
    apply sort_ordered.
    + intros x y Hlt. apply mayPrecede_compareRows, inOrder_total.
      intros H%mayPrecede_compareRows. by apply H.
    + intros x y z Hxy%mayPrecede_compareRows Hyz%mayPrecede_compareRows.
      apply mayPrecede_compareRows. by eapply inOrder_trans.
Qed.

(** X6. The sort of [handleSort] starts from [tableData] on every click:
    in either direction, the rows that have the same value in the sorted
    column, and the rows that have none, appear in the order they have in
    [tableData], whatever was sorted before. *)
Theorem handleSort_stable (s : LeaderboardTables.Sort.t)
    (tableData : list LeaderboardTables.TableRow.t) (column : string)
    (v : option Q) :
  numericColumn column →
  let rows := (LeaderboardTables.handleSort s tableData column).2 in
  filter (fun a => sameValue (LeaderboardTables.numericValue column a) v) rows
  = filter (fun a => sameValue (LeaderboardTables.numericValue column a) v)
           tableData.
Proof.
  intros _ rows. unfold rows, LeaderboardTables.handleSort. simpl.
  apply sort_class. intros a b Ha Hb.
  apply mayPrecede_compareRows. rewrite toggleSort_column.
  apply sameValue_inOrder. by eapply sameValue_trans.
Qed.

Lemma handleSort_order_witness :
  numericColumn "GlaS"
  ∧ LeaderboardTables.TableRow.model_key
      <$> (LeaderboardTables.handleSort LeaderboardTables.currentSort
             sampleTable "GlaS").2
    = ["m2"; "m1"; "m3"]
  ∧ LeaderboardTables.TableRow.model_key
      <$> (LeaderboardTables.handleSort
             (LeaderboardTables.handleSort LeaderboardTables.currentSort
                sampleTable "GlaS").1
             sampleTable "GlaS").2
    = ["m3"; "m1"; "m2"]
  ∧ (LeaderboardTables.handleSort LeaderboardTables.currentSort
       sampleTable "GlaS").2 ≡ₚ sampleTable.
Proof.
  assert (numericColumn "GlaS") as Hcol.
  { right. right. apply (bool_decide_unpack _). by vm_compute. }
  split_and!; [done | by vm_compute | by vm_compute |].
  exact (proj1 (proj2 (proj2
           (handleSort_order LeaderboardTables.currentSort sampleTable
              "GlaS" Hcol)))).
Defined.

Lemma handleSort_stable_witness :
  numericColumn "overall"
  ∧ LeaderboardTables.TableRow.model_key
      <$> filter (fun a => sameValue
                    (LeaderboardTables.numericValue "overall" a) (Some 1.5%Q))
            (LeaderboardTables.handleSort
               {| LeaderboardTables.Sort.column := "overall";
                  LeaderboardTables.Sort.direction := LeaderboardTables.asc |}
               sampleTable "overall").2
    = ["m1"; "m2"].
Proof.
  assert (numericColumn "overall") as Hcol by (right; by left).
  split; [done|].
  rewrite (handleSort_stable _ sampleTable "overall" (Some 1.5%Q) Hcol).
  by vm_compute.
Defined.

(** ** Filtering a sorted array *)

Lemma StronglySorted_sublist_of {A} (R : relation A) (l1 l2 : list A) :
  l1 `sublist_of` l2 → StronglySorted R l2 → StronglySorted R l1.
Proof.
  induction 1 as [|x l1 l2 Hsub IH|x l1 l2 Hsub IH]; intros Hs; [done| |].
  - apply StronglySorted_inv in Hs as [Hs Hx]. constructor; [by apply IH|].
    apply Forall_forall. intros y Hy. rewrite Forall_forall in Hx.
    apply Hx. by eapply elem_of_sublist.
  - apply StronglySorted_inv in Hs as [Hs _]. by apply IH.
Qed.

Section sort_then_filter.
Context {A : Type} (cmp : A → A → Q) (key : A → Q).
Hypothesis cmp_sign : ∀ a b, (0 < cmp a b)%Q ↔ (key a < key b)%Q.
Context (P : A → Prop) `{!∀ x, Decision (P x)}.

Lemma insertSorted_filter_comm x l :
  StronglySorted (fun a b => (key b <= key a)%Q) l →
  filter P (insertSorted cmp x l)
  = if decide (P x) then insertSorted cmp x (filter P l) else filter P l.
Proof.
  induction 1 as [|y l Hl IH Hy].
  - simpl. rewrite filter_cons, filter_nil. by case_decide.
  - destruct (cmp_cases cmp key cmp_sign x y) as [[Hlt Hins]|[Hle Hins]];
      rewrite Hins.
    + rewrite !(filter_cons _ y), IH.
      destruct (decide (P y)); [|done].
      destruct (decide (P x)); [|done].
      destruct (cmp_cases cmp key cmp_sign x y) as [[_ ->]|[Hle _]];
        [done | lra].
    + rewrite filter_cons. destruct (decide (P x)); [|done].
      destruct (filter P (y :: l)) as [|z l'] eqn:Hf; [done|].
      assert (z ∈ y :: l) as Hz.
      { eapply list_elem_of_filter. rewrite Hf. left. }
      assert (key z <= key y)%Q as Hzy.
      { apply elem_of_cons in Hz as [->|Hz]; [lra|].
        rewrite Forall_forall in Hy. by apply Hy. }
      destruct (cmp_cases cmp key cmp_sign x z) as [[Hlt _]|[_ ->]];
        [lra | done].
Qed.

Lemma sort_filter_comm l : filter P (sort cmp l) = sort cmp (filter P l).
Proof.
  induction l as [|x l IH]; simpl; [done|].
  rewrite insertSorted_filter_comm by (by apply sort_sorted).
  rewrite filter_cons, IH. by destruct (decide (P x)).
Qed.
End sort_then_filter.

(** ** The tasks table and the task cards *)

(** X7. The rows of the tasks table for one of the tasks [nuclear],
    [gland] and [tissue] are the entries of [dataset_sota] of that
    category, sorted by mDice from large to small with equal values in
    the order of the file: filtering after the sort loses and reorders
    nothing.  For any other task name than these and [all] the table has
    no row. *)
Theorem tasks_table_rows (datasetSota : JsObject DatasetSotaRecord)
    (activeTask : string) :
  (∀ category, (activeTask, category) ∈ LeaderboardTables.categoryMap →
     LeaderboardTables.renderTasksTable datasetSota activeTask
     = sort LeaderboardTables.byMDiceDescending
         (filter (fun e => sota_category e.2 = category) datasetSota))
  ∧ (activeTask ∉ ["all"; "nuclear"; "gland"; "tissue"] →
     LeaderboardTables.renderTasksTable datasetSota activeTask = [])
  ∧ StronglySorted (fun a b => (mDice b.2 <= mDice a.2)%Q)
      (LeaderboardTables.renderTasksTable datasetSota activeTask)
  ∧ LeaderboardTables.renderTasksTable datasetSota activeTask
      `sublist_of` LeaderboardTables.renderTasksTable datasetSota "all".
Proof.
  pose proof (descending_sign (fun e : string * DatasetSotaRecord => mDice e.2))
    as Hsign.
  assert (∀ l, StronglySorted
                 (fun a b : string * DatasetSotaRecord =>
                    (mDice b.2 <= mDice a.2)%Q)
                 (sort LeaderboardTables.byMDiceDescending l)) as Hsorted.
  { intros l. exact (sort_sorted _ _ Hsign l). }
  unfold LeaderboardTables.renderTasksTable. split_and!.
  - intros category Hin.
    assert (activeTask ≠ "all" ∧
            getProp activeTask LeaderboardTables.categoryMap = Own category)
      as [Hne ->].
    { unfold LeaderboardTables.categoryMap in *.
      repeat (apply elem_of_cons in Hin as [[= -> ->]|Hin]);
        [by split..|by apply elem_of_nil in Hin]. }
    rewrite decide_False by done.
    exact (sort_filter_comm _ _ Hsign _ _).
  - intros Hother. rewrite decide_False by set_solver.
    assert (getProp activeTask LeaderboardTables.categoryMap ≠ Own "Nuclear"
            ∧ ∀ c, getProp activeTask LeaderboardTables.categoryMap ≠ Own c)
      as [_ Hnone].
    { split; [|intros c]; intros Hc%getProp_Own; simpl in Hc;
        repeat case_decide; simplify_eq; set_solver. }
    destruct (getProp activeTask LeaderboardTables.categoryMap) as [c| |];
      [by destruct (Hnone c)| |];
      (induction (sort _ datasetSota) as [|e l IH]; [done|];
       rewrite filter_cons, IH; by case_decide).
  - case_decide; [apply Hsorted|].
    eapply StronglySorted_sublist_of; [apply sublist_filter | apply Hsorted].
  - rewrite (decide_True (P := "all" = "all")) by done.
    case_decide; [done | apply sublist_filter].
Qed.

Lemma mathMax_cases (a b : Q) :
  (mathMax a b = a ∧ (b <= a)%Q) ∨ (mathMax a b = b ∧ (a < b)%Q).
Proof. unfold mathMax. destruct (Qlt_le_dec a b); [right | left]; done. Qed.

(** [Math.max] of a non-empty list is one of its members and at least as
    large as every member. *)
Lemma mathMaxOf_spec (x : Q) (xs : list Q) :
  LeaderboardTables.mathMaxOf x xs ∈ x :: xs
  ∧ Forall (fun y => (y <= LeaderboardTables.mathMaxOf x xs)%Q) (x :: xs).
Proof.
  unfold LeaderboardTables.mathMaxOf. revert x.
  induction xs as [|y xs IH]; intros x; simpl.
  - split; [left|]. repeat constructor. lra.
  - destruct (IH (mathMax x y)) as [Hin Hall].
    apply Forall_cons in Hall as [Hm Hall].
    destruct (mathMax_cases x y) as [[Heq Hle]|[Heq Hlt]]; rewrite Heq in *.
    + split.
      * apply elem_of_cons in Hin as [->|Hin]; [left | right; by right].
      * repeat constructor; [done | lra | done].
    + split.
      * right. done.
      * repeat constructor; [lra | done | done].
Qed.

Lemma fold_left_plus_mDice (l : list DatasetSotaRecord) (a : Q) :
  (fold_left (fun sum d => sum + mDice d) l a == a + sum (mDice <$> l))%Q.
Proof.
  revert a. induction l as [|d l IH]; intros a; csimpl.
  - unfold sum. simpl. lra.
  - rewrite IH, sum_cons. lra.
Qed.

(** X8. A task card counts the entries of [dataset_sota] of its category;
    with none, it shows 0 for both statistics; otherwise "Avg. SOTA" is
    the arithmetic mean of their mDice, and "Best SOTA" is the mDice of
    one of them and at least that of each. *)
Theorem task_card_stats (datasetSota : JsObject DatasetSotaRecord)
    (category : string) :
  let card := LeaderboardTables.renderTaskCard datasetSota category in
  let scores :=
    mDice <$> filter (fun d => sota_category d = category)
                     (values datasetSota) in
  LeaderboardTables.TaskCard.count card = length scores
  ∧ (scores = [] →
       LeaderboardTables.TaskCard.avgDice card = 0%Q
       ∧ LeaderboardTables.TaskCard.bestDice card = 0%Q)
  ∧ (scores ≠ [] →
       (LeaderboardTables.TaskCard.avgDice card * num (length scores)
        == sum scores)%Q
       ∧ LeaderboardTables.TaskCard.bestDice card ∈ scores
       ∧ Forall (fun x => (x <= LeaderboardTables.TaskCard.bestDice card)%Q)
                scores).
Proof.
  intros card scores. unfold card, LeaderboardTables.renderTaskCard.
  cbn [LeaderboardTables.TaskCard.count LeaderboardTables.TaskCard.avgDice
       LeaderboardTables.TaskCard.bestDice].
  set (datasets := filter (fun d => sota_category d = category)
                          (values datasetSota)) in *.
  assert (length scores = length datasets) as Hlen
    by (unfold scores; by rewrite length_fmap).
  split_and!; [done | |].
  - intros Hnil. fold scores. rewrite Hnil. split; [|done].
    rewrite decide_False; [done|].
    rewrite <-Hlen, Hnil. simpl. lia.
  - intros Hne. fold scores.
    assert (0 < length datasets)%nat as Hpos
      by (rewrite <-Hlen; destruct scores; [done | simpl; lia]).
    rewrite decide_True by done.
    assert (fold_left (fun sum d => sum + mDice d) datasets 0
              / num (length datasets) == average scores)%Q as Havg.
    { unfold average. rewrite Hlen, fold_left_plus_mDice. fold scores.
      field. pose proof (num_pos _ Hpos). lra. }
    destruct scores as [|x xs] eqn:Hs; [done|].
    destruct (mathMaxOf_spec x xs) as [Hin Hall].
    split_and!; [| done | done].
    rewrite Havg. by apply average_spec.
Qed.

(** ** The method table *)

Section method_table.
Import Leaderboard LeaderboardTables.

Lemma bestMethodStep_cases perfData (best : option string * Q) method :
  (bestMethodStep perfData best method = best
   ∧ ∀ s, methodAverage perfData method = Some s → (s <= best.2)%Q)
  ∨ (∃ s, bestMethodStep perfData best method = (Some method, s)
        ∧ methodAverage perfData method = Some s ∧ (best.2 < s)%Q).
Proof.
  unfold bestMethodStep, methodAverage.
  destruct (lookupOwn (method +:+ "Avg") (MethodPerformance.avgs perfData))
    as [[s|]|]; [|by left..].
  destruct (Qlt_le_dec best.2 s); [right; eauto | left].
  split; [done|]. by intros ? [= <-].
Qed.

Lemma bestMethod_fold perfData (ms : list string) (init : option string * Q) :
  let r := fold_left (bestMethodStep perfData) ms init in
  (r = init
   ∧ ∀ m s, m ∈ ms → methodAverage perfData m = Some s → (s <= init.2)%Q)
  ∨ (∃ pre m post s,
       ms = pre ++ m :: post ∧ r = (Some m, s)
       ∧ methodAverage perfData m = Some s ∧ (init.2 < s)%Q
       ∧ (∀ m' s', m' ∈ pre → methodAverage perfData m' = Some s' →
            (s' < s)%Q)
       ∧ (∀ m' s', m' ∈ post → methodAverage perfData m' = Some s' →
            (s' <= s)%Q)).
Proof.
  revert init. induction ms as [|a ms IH]; intros init; cbn [fold_left].
  - left. split; [done|]. intros m s H. by apply elem_of_nil in H.
  - destruct (bestMethodStep_cases perfData init a)
      as [[Hsame Ha]|(sa & Hnew & Ha & Hlt)].
    + rewrite Hsame.
      destruct (IH init) as [[Hr Hall]|(pre & m & post & s & -> & Hr & Hm
                                         & Hlt & Hpre & Hpost)].
      * left. split; [done|].
        intros m s [->|Hin]%elem_of_cons; [apply Ha | by apply Hall].
      * right. exists (a :: pre), m, post, s.
        split_and!; [done..| |done].
        intros m' s' [->|Hin]%elem_of_cons Hs'; [|by eapply Hpre].
        apply Ha in Hs'. lra.
    + rewrite Hnew.
      destruct (IH (Some a, sa)) as [[Hr Hall]|(pre & m & post & s & -> & Hr
                                                & Hm & Hlt' & Hpre & Hpost)].
      * right. exists [], a, ms, sa.
        split_and!; [done..| |done].
        intros m' s' H. by apply elem_of_nil in H.
      * right. exists (a :: pre), m, post, s. simpl in Hlt'.
        split_and!; [done | done | done | lra | | done].
        intros m' s' [->|Hin]%elem_of_cons Hs'; [|by eapply Hpre].
        rewrite Ha in Hs'. injection Hs' as <-. done.
Qed.
End method_table.

(** X9. The best method of a row of the method table is the first method
    of [CONFIG.methods] whose average is the largest of the averages of
    the row, provided that average is above -1; the methods whose average
    is [null] are passed over, and when no method has an average above -1
    there is no best method and the row shows "-". *)
Theorem best_method_first_maximum
    (perfData : Leaderboard.MethodPerformance.t) :
  match LeaderboardTables.bestMethod perfData with
  | Some m =>
      ∃ pre post s,
        Leaderboard.methods = pre ++ m :: post
        ∧ methodAverage perfData m = Some s ∧ (-1 < s)%Q
        ∧ (∀ m' s', m' ∈ pre → methodAverage perfData m' = Some s' →
             (s' < s)%Q)
        ∧ (∀ m' s', m' ∈ post → methodAverage perfData m' = Some s' →
             (s' <= s)%Q)
  | None =>
      ∀ m s, m ∈ Leaderboard.methods → methodAverage perfData m = Some s →
        (s <= -1)%Q
  end.
Proof.
  unfold LeaderboardTables.bestMethod.
  destruct (bestMethod_fold perfData Leaderboard.methods (None, (-1)%Q))
    as [[-> Hall]|(pre & m & post & s & Hms & -> & Hm & Hlt & Hpre & Hpost)];
    simpl.
  - exact Hall.
  - exists pre, post, s. by split_and!.
Qed.

Section method_rows.
Import Leaderboard LeaderboardTables.
Local Arguments withMethodAverages : simpl never.


Lemma modelMethodPerformance_keys rawData stats out key :
  computeDetailedStats rawData stats = Ok out →
  key ∈ keys (modelMethodPerformance out) ↔ observed rawData key.
Proof.
  intros Hrun. rewrite <-lookupOwn_is_Some.
  destruct (modelMethodPerformance_lookup _ _ _ key Hrun)
    as (perf & Hperf & Hkey).
  rewrite <-(collectMethodPerformance_presence _ _ key Hperf).
  destruct (lookupOwn key perf) as [e|].
  - destruct Hkey as (e' & _ & ->). split; eauto.
  - rewrite Hkey. split; intros [? [=]].
Qed.

End method_rows.

Section rows_of_aggregate.
Import Leaderboard LeaderboardTables.
Context (rawData : RawData) (stats : Stats) (out : DetailedStats).
Hypothesis Hrun : computeDetailedStats rawData stats = Ok out.


End rows_of_aggregate.



Lemma foldM_throws {A S} (body : S → A → result S) (xs : list A) (x : A) acc :
  x ∈ xs → (∀ s, body s x = TypeError) → foldM body xs acc = TypeError.
Proof.
  intros Hx Hthrow. revert acc.
  induction xs as [|y xs IH]; intros acc; [by apply elem_of_nil in Hx|].
  cbn [foldM]. apply elem_of_cons in Hx as [<-|Hx].
  - by rewrite Hthrow.
  - destruct (body acc y); cbn [mbind result_bind]; [by apply IH | done].
Qed.

(** X11. [renderMethodTable] throws when a listed model is keyed by the
    name of a member of [Object.prototype] and has no Mean_Dice
    observation: the lookup of its entry yields that member, which passes
    the test [if (!perfData) return], and [formatNumber] is then called on
    [undefined]. *)
Theorem method_table_throws_on_inherited_key (rawData : RawData)
    (stats : Stats) (out : Leaderboard.DetailedStats) (m : ModelRankRecord) :
  Leaderboard.computeDetailedStats rawData stats = Ok out →
  m ∈ model_ranks stats →
  model_key m ∈ objectPrototypeKeys →
  ¬ observed rawData (model_key m) →
  LeaderboardTables.renderMethodTable (model_ranks stats) out = TypeError.
Proof.
  intros Hrun Hm Hkey Hno. unfold LeaderboardTables.renderMethodTable.
  apply (foldM_throws _ _ m); [done|]. intros rows.
  unfold LeaderboardTables.renderMethodRow.
  assert (getProp (model_key m) (Leaderboard.modelMethodPerformance out)
          = Inherited) as ->; [|done].
  apply getProp_Inherited. split; [|done].
  apply lookupOwn_None. by rewrite (modelMethodPerformance_keys _ _ _ _ Hrun).
Qed.

Lemma method_table_throws_on_inherited_key_witness :
  Leaderboard.computeDetailedStats sampleRawData sampleInheritedStats
    = Ok sampleInheritedDetailedStats
  ∧ sampleModel "toString" 2 ∈ model_ranks sampleInheritedStats
  ∧ "toString" ∈ objectPrototypeKeys
  ∧ ¬ observed sampleRawData "toString"
  ∧ LeaderboardTables.renderMethodTable (model_ranks sampleInheritedStats)
      sampleInheritedDetailedStats = TypeError.
Proof.
  assert (Leaderboard.computeDetailedStats sampleRawData sampleInheritedStats
          = Ok sampleInheritedDetailedStats) as Hrun
    by (vm_compute; reflexivity).
  assert (sampleModel "toString" 2 ∈ model_ranks sampleInheritedStats) as Hm
    by (right; left).
  assert ("toString" ∈ objectPrototypeKeys) as Hkey
    by (apply (bool_decide_unpack _); by vm_compute).
  assert (¬ observed sampleRawData "toString") as Hno.
  { rewrite <-(modelMethodPerformance_keys _ _ _ _ Hrun).
    apply (bool_decide_unpack _). by vm_compute. }
  split_and!; [done..|].
  exact (method_table_throws_on_inherited_key _ _ _ _ Hrun Hm Hkey Hno).
Defined.

(** ** The model card *)

Lemma bestPerf_fold (modelKey : string)
    (l : JsObject DatasetSotaRecord) (init : Q) :
  let held :=
    mDice <$> filter (fun d => sota_model_key d = modelKey) l.*2 in
  let best :=
    fold_left (fun best (e : string * DatasetSotaRecord) =>
                 if decide (sota_model_key e.2 = modelKey)
                 then mathMax best (mDice e.2) else best) l init in
  (init <= best)%Q
  ∧ Forall (fun x => (x <= best)%Q) held
  ∧ (best = init ∨ best ∈ held).
Proof.
  revert init. induction l as [|[k d] l IH]; intros init; csimpl.
  - split_and!; [lra | constructor | by left].
  - rewrite filter_cons. simpl. case_decide as Hd; [|apply IH].
    destruct (IH (mathMax init (mDice d))) as (H0 & Hall & Hin).
    destruct (mathMax_cases init (mDice d)) as [[Heq Hle]|[Heq Hlt]];
      rewrite Heq in *.
    + split_and!; [done | |].
      * csimpl. constructor; [lra | done].
      * destruct Hin as [?|?]; [by left | right; by right].
    + split_and!; [lra | |].
      * csimpl. constructor; [lra | done].
      * right. destruct Hin as [->|?]; [left | by right].
Qed.

(** X12. The best performance shown on the model card is never below 0:
    it is 0 when the model holds the best result of no dataset, and
    otherwise the largest mDice among the entries of [dataset_sota] that
    name the model, unless all of these are negative. *)
Theorem best_perf_floor (modelKey : string)
    (datasetSota : JsObject DatasetSotaRecord) :
  let held :=
    mDice <$> filter (fun d => sota_model_key d = modelKey)
                     (values datasetSota) in
  let best := LeaderboardTables.bestPerf modelKey datasetSota in
  (0 <= best)%Q
  ∧ Forall (fun x => (x <= best)%Q) held
  ∧ (best = 0%Q ∨ best ∈ held)
  ∧ (held = [] → best = 0%Q).
Proof.
  intros held best.
  destruct (bestPerf_fold modelKey datasetSota 0) as (H0 & Hall & Hin).
  unfold held, best, LeaderboardTables.bestPerf, values.
  split_and!; [done | done | done |].
  intros Hnil. destruct Hin as [?|Hin]; [done|].
  rewrite Hnil in Hin. by apply elem_of_nil in Hin.
Qed.

(** ** The dataset table of a model *)

Section model_results.
Import Leaderboard LeaderboardTables.

Lemma lookupOwn_elem_NoDup {V} k (v : V) (o : JsObject V) :
  NoDup (keys o) → (k, v) ∈ o → lookupOwn k o = Some v.
Proof.
  unfold keys. induction o as [|[k' v'] o IH]; csimpl.
  - intros _ H. by apply elem_of_nil in H.
  - intros [Hk Hnd]%NoDup_cons [[= -> ->]|Hin]%elem_of_cons.
    + by rewrite decide_True.
    + rewrite decide_False; [by apply IH|].
      intros ->. apply Hk. by apply (list_elem_of_fmap_2 fst) in Hin.
Qed.

(** One step of the first loop, seen from the entry of [d]. *)
Lemma recordResult_lookup modelKey method acc de d :
  d ∉ objectPrototypeKeys →
  lookupOwn d (recordResult modelKey method acc de)
  = if decide (de.1 = d) then
      match getProp modelKey de.2 with
      | Own metrics =>
          match Mean_Dice metrics with
          | Some obs =>
              better ModelResult.score (lookupOwn d acc)
                     (newResult method de.1 obs)
          | None => lookupOwn d acc
          end
      | Inherited => lookupOwn d acc
      | Undefined => lookupOwn d acc
      end
    else lookupOwn d acc.
Proof.
  intros Hd. unfold recordResult.
  destruct (getProp modelKey de.2) as [metrics| |]; [|by case_decide..].
  destruct (Mean_Dice metrics) as [obs|]; [|by case_decide].
  destruct (decide (de.1 = d)) as [Heq|Hne].
  - subst d. rewrite (getProp_plain _ _ Hd). unfold better.
    destruct (lookupOwn de.1 acc) as [r|] eqn:Hr;
      cbn [newResult ModelResult.score].
    + destruct (Qlt_le_dec (ModelResult.score r) (Observation.mean obs));
        [by rewrite lookupOwn_setProp_eq | done].
    + by rewrite lookupOwn_setProp_eq.
  - destruct (getProp de.1 acc) as [r| |]; [|done|].
    + destruct (Qlt_le_dec (ModelResult.score r) (Observation.mean obs));
        [|done].
      by rewrite lookupOwn_setProp_ne.
    + by rewrite lookupOwn_setProp_ne.
Qed.

Lemma recordResult_inherited modelKey method acc de d :
  d ∈ objectPrototypeKeys → lookupOwn d acc = None →
  lookupOwn d (recordResult modelKey method acc de) = None.
Proof.
  intros Hd Hnone. unfold recordResult.
  destruct (getProp modelKey de.2) as [metrics| |]; [|done..].
  destruct (Mean_Dice metrics) as [obs|]; [|done].
  destruct (decide (de.1 = d)) as [Heq|Hne].
  - subst d.
    assert (getProp de.1 acc = Inherited) as -> by by apply getProp_Inherited.
    done.
  - destruct (getProp de.1 acc) as [r| |]; [|done|].
    + destruct (Qlt_le_dec (ModelResult.score r) (Observation.mean obs));
        [|done].
      by rewrite lookupOwn_setProp_ne.
    + by rewrite lookupOwn_setProp_ne.
Qed.

Lemma recordResult_NoDup modelKey method acc de :
  NoDup (keys acc) → NoDup (keys (recordResult modelKey method acc de)).
Proof.
  intros Hnd. unfold recordResult.
  destruct (getProp modelKey de.2) as [metrics| |]; [|done..].
  destruct (Mean_Dice metrics) as [obs|]; [|done].
  destruct (getProp de.1 acc) as [r| |]; [|done|].
  - destruct (Qlt_le_dec (ModelResult.score r) (Observation.mean obs));
      [|done].
    by apply NoDup_keys_setProp.
  - by apply NoDup_keys_setProp.
Qed.

Lemma collectModelResults_NoDup modelKey (rawData : RawData) :
  NoDup (keys (collectModelResults modelKey rawData)).
Proof.
  unfold collectModelResults.
  assert (∀ acc : JsObject ModelResult.t, NoDup (keys acc) →
            NoDup (keys (fold_left
              (fun modelResults (me : string * MethodData) =>
                 fold_left (recordResult modelKey me.1) me.2 modelResults)
              rawData acc))) as Hgen.
  { induction rawData as [|me rawData IH]; intros acc Hacc; [done|].
    cbn [fold_left]. apply IH. clear IH. revert acc Hacc.
    induction me.2 as [|de l IHl]; intros acc Hacc; [done|].
    cbn [fold_left]. by apply IHl, recordResult_NoDup. }
  apply Hgen. constructor.
Qed.

Lemma collectModelResults_lookup modelKey (rawData : RawData) d :
  d ∉ objectPrototypeKeys →
  lookupOwn d (collectModelResults modelKey rawData)
  = fold_left (better ModelResult.score) (candidates modelKey rawData d) None.
Proof.
  intros Hd. unfold collectModelResults, candidates.
  change (@None ModelResult.t)
    with (lookupOwn d ([] : JsObject ModelResult.t)) at 1.
  generalize ([] : JsObject ModelResult.t) as acc.
  induction rawData as [|me rawData IH]; intros acc; [done|].
  cbn [fold_left]. rewrite IH. csimpl. rewrite fold_left_app. f_equal.
  clear IH. revert acc.
  induction me.2 as [|de l IHl]; intros acc; [done|].
  cbn [fold_left]. rewrite IHl. csimpl. rewrite fold_left_app. f_equal.
  rewrite recordResult_lookup by done.
  case_decide; [|done].
  destruct (getProp modelKey de.2) as [metrics| |]; [|done..].
  by destruct (Mean_Dice metrics).
Qed.

Lemma collectModelResults_inherited modelKey (rawData : RawData) d :
  d ∈ objectPrototypeKeys →
  lookupOwn d (collectModelResults modelKey rawData) = None.
Proof.
  intros Hd. unfold collectModelResults.
  assert (∀ acc : JsObject ModelResult.t, lookupOwn d acc = None →
            lookupOwn d (fold_left
              (fun modelResults (me : string * MethodData) =>
                 fold_left (recordResult modelKey me.1) me.2 modelResults)
              rawData acc) = None) as Hgen.
  { induction rawData as [|me rawData IH]; intros acc Hacc; [done|].
    cbn [fold_left]. apply IH. clear IH. revert acc Hacc.
    induction me.2 as [|de l IHl]; intros acc Hacc; [done|].
    cbn [fold_left]. by apply IHl, recordResult_inherited. }
  by apply Hgen.
Qed.

(** The item kept is the first of the largest. *)
Lemma fold_better {A} (score : A → Q) (l : list A) (held : option A) :
  match fold_left (better score) l held with
  | Some r =>
      (held = Some r ∧ Forall (fun c => (score c <= score r)%Q) l)
      ∨ (∃ pre post,
           l = pre ++ r :: post
           ∧ (∀ h, held = Some h → (score h < score r)%Q)
           ∧ Forall (fun c => (score c < score r)%Q) pre
           ∧ Forall (fun c => (score c <= score r)%Q) post)
  | None => held = None ∧ l = []
  end.
Proof.
  revert held. induction l as [|c l IH]; intros held; cbn [fold_left].
  - destruct held as [h|]; [left | done]. by split.
  - specialize (IH (better score held c)).
    destruct (fold_left (better score) l (better score held c)) as [r|];
      [|by destruct IH as [Hb _]; destruct held; simpl in Hb;
          [destruct (Qlt_le_dec _ _)|]].
    unfold better in IH.
    destruct held as [h|].
    + destruct (Qlt_le_dec (score h) (score c)) as [Hlt|Hle].
      * destruct IH as [[[= <-] Hall]|(pre & post & -> & Hh & Hpre & Hpost)].
        -- right. exists [], l. split_and!; [done | | constructor | done].
           by intros ? [= <-].
        -- right. exists (c :: pre), post.
           specialize (Hh c eq_refl).
           split_and!; [done | | by constructor | done].
           intros ? [= <-]. lra.
      * destruct IH as [[[= <-] Hall]|(pre & post & -> & Hh & Hpre & Hpost)].
        -- left. split; [done|]. by constructor.
        -- right. exists (c :: pre), post.
           specialize (Hh h eq_refl).
           split_and!; [done | by intros ? [= <-] | | done].
           constructor; [lra | done].
    + destruct IH as [[[= <-] Hall]|(pre & post & -> & Hh & Hpre & Hpost)].
      * right. exists [], l. by split_and!.
      * right. exists (c :: pre), post.
        specialize (Hh c eq_refl). split_and!; [done | done | | done].
        by constructor.
Qed.

Lemma candidates_category modelKey (rawData : RawData) d c :
  c ∈ candidates modelKey rawData d → ModelResult.category c = getDatasetCategory d.
Proof.
  unfold candidates. intros (me & Hc & Hme)%list_elem_of_bind.
  apply list_elem_of_bind in Hc as (de & Hc & Hde).
  case_decide as Hd; [|by apply elem_of_nil in Hc]. subst d.
  destruct (getProp modelKey de.2) as [metrics| |];
    [|by apply elem_of_nil in Hc..].
  destruct (Mean_Dice metrics) as [obs|]; [|by apply elem_of_nil in Hc].
  by apply list_elem_of_singleton in Hc as ->.
Qed.
End model_results.

Section model_rank.
Import Leaderboard LeaderboardTables.

Lemma countAbove_fold (score : Q) (models : Models) (n : nat) :
  fold_left (countAbove score) models n
  = (n + length (filter (fun o : string * string * Observation.t =>
                           (score < Observation.mean o.2)%Q)
                        (ke ← models;
                         match lookupOwn "Mean_Dice" ke.2 with
                         | Some obs => [("", ke.1, obs)]
                         | None => []
                         end)))%nat.
Proof.
  revert n. induction models as [|ke models IH]; intros n; csimpl; [lia|].
  rewrite IH, filter_app, length_app. unfold countAbove, Mean_Dice.
  destruct (lookupOwn "Mean_Dice" ke.2) as [obs|]; [|simpl; lia].
  rewrite filter_cons, filter_nil. simpl.
  destruct (Qlt_le_dec score (Observation.mean obs)) as [Hlt|Hle].
  - rewrite decide_True by done. simpl. lia.
  - rewrite decide_False by lra. simpl. lia.
Qed.

Lemma length_filter_method (score : Q) (models : Models) (m1 m2 : string) :
  length (filter (fun o : string * string * Observation.t =>
                    (score < Observation.mean o.2)%Q)
                 (ke ← models;
                  match lookupOwn "Mean_Dice" ke.2 with
                  | Some obs => [(m1, ke.1, obs)]
                  | None => []
                  end))
  = length (filter (fun o : string * string * Observation.t =>
                      (score < Observation.mean o.2)%Q)
                   (ke ← models;
                    match lookupOwn "Mean_Dice" ke.2 with
                    | Some obs => [(m2, ke.1, obs)]
                    | None => []
                    end)).
Proof.
  induction models as [|ke models IH]; csimpl; [done|].
  rewrite !filter_app, !length_app, IH. f_equal.
  destruct (lookupOwn "Mean_Dice" ke.2) as [obs|]; [|done].
  rewrite !filter_cons, !filter_nil. simpl. by case_decide.
Qed.

(** The rank counts the observations above the score. *)
Lemma rankIn_observations (rawData : RawData) dataset (score : Q) :
  rankIn rawData dataset score
  = S (length (filter (fun o : string * string * Observation.t =>
                         (score < Observation.mean o.2)%Q)
                      (observations rawData dataset "Mean_Dice"))).
Proof.
  unfold rankIn, observations.
  assert (∀ n, fold_left
    (fun rank (me : string * MethodData) =>
       match getProp dataset me.2 with
       | Own models => fold_left (countAbove score) models rank
       | Inherited => rank
       | Undefined => rank
       end) rawData n
    = (n + length (filter (fun o : string * string * Observation.t =>
                             (score < Observation.mean o.2)%Q)
         (me ← rawData;
          match lookupOwn dataset me.2 with
          | Some models =>
              ke ← models;
              match lookupOwn "Mean_Dice" ke.2 with
              | Some obs => [(me.1, ke.1, obs)]
              | None => []
              end
          | None => []
          end)))%nat) as Hgen.
  { induction rawData as [|me rawData IH]; intros n; csimpl; [lia|].
    rewrite IH, filter_app, length_app. unfold getProp.
    destruct (lookupOwn dataset me.2) as [models|].
    - rewrite countAbove_fold, (length_filter_method _ _ "" me.1). lia.
    - case_bool_decide; simpl; lia. }
  by rewrite Hgen.
Qed.
End model_rank.

Section model_dataset_table.
Import Leaderboard LeaderboardTables.

Lemma elem_of_renderModelDatasetTable modelKey (rawData : RawData) dataset r :
  (dataset, r) ∈ renderModelDatasetTable modelKey rawData
  ↔ ∃ e, lookupOwn dataset (collectModelResults modelKey rawData) = Some e
       ∧ r = (setRank rawData (dataset, e)).2.
Proof.
  unfold renderModelDatasetTable. rewrite sort_Permutation_any.
  rewrite list_elem_of_fmap. split.
  - intros ([k e] & [= -> ->] & Hin). exists e. split; [|done].
    apply lookupOwn_elem_NoDup; [apply collectModelResults_NoDup | done].
  - intros (e & He & ->). exists (dataset, e). split; [done|].
    by apply lookupOwn_Some_elem.
Qed.

Lemma keys_renderModelDatasetTable modelKey (rawData : RawData) :
  (renderModelDatasetTable modelKey rawData).*1
  ≡ₚ keys (collectModelResults modelKey rawData).
Proof.
  unfold renderModelDatasetTable. rewrite sort_Permutation_any.
  unfold keys. rewrite <-list_fmap_compose. done.
Qed.
End model_dataset_table.

(** X13. The dataset table of a model has one row per dataset for which
    the model has a Mean_Dice observation under some method (a dataset
    named like a member of [Object.prototype] gets no row); the rows are
    sorted by score from large to small; the score of a row is the largest
    mean the model has for the dataset over the methods, and the method
    shown is the first method, in the order of the raw table, that reaches
    it. *)
Theorem model_dataset_rows (modelKey : string) (rawData : RawData) :
  let rows := LeaderboardTables.renderModelDatasetTable modelKey rawData in
  NoDup rows.*1
  ∧ StronglySorted
      (fun a b => (LeaderboardTables.ModelResult.score b.2
                   <= LeaderboardTables.ModelResult.score a.2)%Q) rows
  ∧ (∀ dataset,
       dataset ∈ rows.*1
       ↔ (dataset ∉ objectPrototypeKeys)
         ∧ candidates modelKey rawData dataset ≠ [])
  ∧ (∀ dataset r, (dataset, r) ∈ rows →
       ∃ pre best post,
         candidates modelKey rawData dataset = pre ++ best :: post
         ∧ LeaderboardTables.ModelResult.score r
           = LeaderboardTables.ModelResult.score best
         ∧ LeaderboardTables.ModelResult.method r
           = LeaderboardTables.ModelResult.method best
         ∧ LeaderboardTables.ModelResult.category r
           = Leaderboard.getDatasetCategory dataset
         ∧ Forall (fun c => (LeaderboardTables.ModelResult.score c
                             < LeaderboardTables.ModelResult.score r)%Q) pre
         ∧ Forall (fun c => (LeaderboardTables.ModelResult.score c
                             <= LeaderboardTables.ModelResult.score r)%Q)
                  post).
Proof.
  intros rows.
  assert (∀ dataset,
            dataset ∈ keys (LeaderboardTables.collectModelResults modelKey
                              rawData)
            ↔ (dataset ∉ objectPrototypeKeys)
              ∧ candidates modelKey rawData dataset ≠ []) as Hkeys.
  { intros dataset. rewrite <-lookupOwn_is_Some.
    destruct (decide (dataset ∈ objectPrototypeKeys)) as [Hin|Hout].
    - rewrite collectModelResults_inherited by done.
      split; [by intros [? [=]] | tauto].
    - rewrite collectModelResults_lookup by done.
      pose proof (fold_better LeaderboardTables.ModelResult.score
                    (candidates modelKey rawData dataset) None) as H.
      destruct (fold_left (better _) _ None) as [r|].
      + split; [|eauto]. intros _. split; [done|].
        destruct H as [[[=] _]|(pre & post & -> & _)]. by destruct pre.
      + destruct H as [_ ->]. split; [by intros [? [=]] | tauto]. }
  split_and!.
  - unfold rows. rewrite keys_renderModelDatasetTable.
    apply collectModelResults_NoDup.
  - exact (sort_sorted _ _ (descending_sign _) _).
  - intros dataset. unfold rows. rewrite keys_renderModelDatasetTable.
    apply Hkeys.
  - intros dataset r (e & He & ->)%elem_of_renderModelDatasetTable.
    assert (dataset ∉ objectPrototypeKeys) as Hout.
    { apply (proj1 (Hkeys dataset)). apply lookupOwn_is_Some. eauto. }
    rewrite collectModelResults_lookup in He by done.
    pose proof (fold_better LeaderboardTables.ModelResult.score
                  (candidates modelKey rawData dataset) None) as H.
    rewrite He in H.
    destruct H as [[[=] _]|(pre & post & Hc & _ & Hpre & Hpost)].
    exists pre, e, post. split_and!; try done.
    simpl. apply (candidates_category modelKey rawData).
    rewrite Hc. apply elem_of_app. right. left.
Qed.

(** X14. The rank shown in a row of the dataset table of a model is one
    more than the number of Mean_Dice observations for that dataset, over
    all methods and all models, whose mean is strictly above the score of
    the row; it is 1 exactly when no observation is above the score, it
    counts every method of a better model separately, and the badge shows
    at most 18. *)
Theorem model_dataset_rank (modelKey : string) (rawData : RawData)
    (dataset : string) (r : LeaderboardTables.ModelResult.t) :
  (dataset, r) ∈ LeaderboardTables.renderModelDatasetTable modelKey rawData →
  let above :=
    filter (fun o : string * string * Observation.t =>
              (LeaderboardTables.ModelResult.score r < Observation.mean o.2)%Q)
           (observations rawData dataset "Mean_Dice") in
  ∃ n, LeaderboardTables.ModelResult.rank r = Some n
    ∧ n = S (length above)
    ∧ (n = 1%nat
       ↔ Forall (fun o : string * string * Observation.t =>
                   (Observation.mean o.2
                    <= LeaderboardTables.ModelResult.score r)%Q)
                (observations rawData dataset "Mean_Dice"))
    ∧ (1 ≤ LeaderboardTables.shownRank n ≤ 18)%nat.
Proof.
  intros (e & He & ->)%elem_of_renderModelDatasetTable above.
  unfold above. simpl. eexists. split; [reflexivity|].
  rewrite rankIn_observations. split; [done|]. split.
  - set (P := fun o : string * string * Observation.t =>
                (LeaderboardTables.ModelResult.score e < Observation.mean o.2)%Q).
    split.
    + intros [= Hlen]. apply length_zero_iff_nil in Hlen.
      apply Forall_forall. intros o Ho.
      destruct (Qlt_le_dec (LeaderboardTables.ModelResult.score e)
                           (Observation.mean o.2)) as [Hlt|Hle]; [|done].
      assert (o ∈ filter P (observations rawData dataset "Mean_Dice")) as Hin
        by by apply list_elem_of_filter.
      rewrite Hlen in Hin. by apply elem_of_nil in Hin.
    + intros Hall. f_equal. apply length_zero_iff_nil.
      induction Hall as [|o l Ho _ IH]; [done|].
      rewrite filter_cons, IH. rewrite decide_False; [done|].
      unfold P. lra.
  - unfold LeaderboardTables.shownRank. lia.
Qed.

Lemma model_dataset_rank_witness :
  ("GlaS", sampleModelRow)
    ∈ LeaderboardTables.renderModelDatasetTable "m1" sampleRawData
  ∧ LeaderboardTables.ModelResult.rank sampleModelRow = Some 3%nat
  ∧ length (observations sampleRawData "GlaS" "Mean_Dice") = 3%nat.
Proof.
  assert (("GlaS", sampleModelRow)
            ∈ LeaderboardTables.renderModelDatasetTable "m1" sampleRawData)
    as Hrow by (vm_compute; right; left).
  split_and!; [done | | reflexivity].
  destruct (model_dataset_rank _ _ _ _ Hrow) as (n & Hn & -> & _).
  exact Hn.
Defined.

(** ** The dataset cards of the performance tab *)

Section card_order.
Import PerformanceCards.
Context (localeCompare : string → string → Q).
Hypothesis localeCompare_asym :
  ∀ x y, (0 < localeCompare x y)%Q → ¬ (0 < localeCompare y x)%Q.
Hypothesis localeCompare_trans :
  ∀ x y z, ¬ (0 < localeCompare x y)%Q → ¬ (0 < localeCompare y z)%Q →
           ¬ (0 < localeCompare x z)%Q.

Lemma compareCards_cases (a b : string * Card.t) :
  ((categoryOrder (Card.category a.2) == categoryOrder (Card.category b.2))%Q
   ∧ compareCards localeCompare a b
     = localeCompare (Card.name a.2) (Card.name b.2))
  ∨ (¬ (categoryOrder (Card.category a.2)
        == categoryOrder (Card.category b.2))%Q
     ∧ compareCards localeCompare a b
       = (categoryOrder (Card.category a.2)
          - categoryOrder (Card.category b.2))%Q).
Proof.
  unfold compareCards.
  destruct (Qeq_bool _ 0) eqn:Heq.
  - left. apply Qeq_bool_iff in Heq. split; [lra | done].
  - right. split; [|done]. intros H.
    apply not_true_iff_false in Heq. apply Heq, Qeq_bool_iff. lra.
Qed.

Lemma mayPrecede_compareCards (a b : string * Card.t) :
  mayPrecede (compareCards localeCompare) a b
  ↔ (categoryOrder (Card.category a.2) < categoryOrder (Card.category b.2))%Q
    ∨ ((categoryOrder (Card.category a.2)
        == categoryOrder (Card.category b.2))%Q
       ∧ ¬ (0 < localeCompare (Card.name a.2) (Card.name b.2))%Q).
Proof.
  unfold mayPrecede.
  destruct (compareCards_cases a b) as [[Heq ->]|[Hne ->]]; split.
  - intros H. right. done.
  - intros [Hlt|[_ H]]; [lra | done].
  - intros H. left. lra.
  - intros [Hlt|[Heq _]]; [lra | done].
Qed.

Lemma compareCards_asym (x y : string * Card.t) :
  (0 < compareCards localeCompare x y)%Q →
  mayPrecede (compareCards localeCompare) y x.
Proof.
  intros Hlt. apply mayPrecede_compareCards.
  destruct (compareCards_cases x y) as [[Heq Hc]|[Hne Hc]]; rewrite Hc in Hlt.
  - right. split; [lra | by apply localeCompare_asym].
  - left. lra.
Qed.

Lemma compareCards_trans (x y z : string * Card.t) :
  mayPrecede (compareCards localeCompare) x y →
  mayPrecede (compareCards localeCompare) y z →
  mayPrecede (compareCards localeCompare) x z.
Proof.
  intros [Hxy|[Hxy Hn1]]%mayPrecede_compareCards
         [Hyz|[Hyz Hn2]]%mayPrecede_compareCards;
    apply mayPrecede_compareCards.
  - left. lra.
  - left. lra.
  - left. lra.
  - right. split; [lra | by eapply localeCompare_trans].
Qed.

Lemma sorted_cards (datasets : JsObject Card.t) :
  StronglySorted (mayPrecede (compareCards localeCompare))
                 (sort (compareCards localeCompare) datasets).
Proof. apply sort_ordered; [apply compareCards_asym | apply compareCards_trans]. Qed.

Lemma filtered_cards (P : string * Card.t → Prop) `{!∀ x, Decision (P x)}
    (datasets : JsObject Card.t) :
  sort (compareCards localeCompare) (filter P datasets)
  = filter P (sort (compareCards localeCompare) datasets).
Proof.
  symmetry.
  apply sort_filter_order; [apply compareCards_asym | apply compareCards_trans].
Qed.
End card_order.

(** X18. The dataset cards of the performance tab are sorted by the order
    number of their category, and, as [catOrder.Nuclear] is 0 and
    [0 || 99] is 99, the Nuclear cards have the number of the cards
    without category: whatever the filters, a Gland card comes before
    every Tissue card, and both come before every Nuclear card.  Here
    [localeCompare] is any comparison of names that is an ordering. *)
Theorem dataset_cards_category_order
    (localeCompare : string → string → Q)
    (processedData : JsObject PerformanceCards.Card.t)
    (filters : PerformanceCards.Filters.t) :
  (∀ x y, (0 < localeCompare x y)%Q → ¬ (0 < localeCompare y x)%Q) →
  (∀ x y z, ¬ (0 < localeCompare x y)%Q → ¬ (0 < localeCompare y z)%Q →
            ¬ (0 < localeCompare x z)%Q) →
  let cards :=
    PerformanceCards.renderAllDatasetCards localeCompare processedData
      filters in
  PerformanceCards.categoryOrder "Gland" = 1%Q
  ∧ PerformanceCards.categoryOrder "Tissue" = 2%Q
  ∧ PerformanceCards.categoryOrder "Nuclear" = 99%Q
  ∧ PerformanceCards.categoryOrder "Other" = 99%Q
  ∧ cards `sublist_of`
      sort (PerformanceCards.compareCards localeCompare) processedData
  ∧ ∀ i j a b, cards !! i = Some a → cards !! j = Some b → (i < j)%nat →
      (PerformanceCards.categoryOrder (PerformanceCards.Card.category a.2)
       <= PerformanceCards.categoryOrder (PerformanceCards.Card.category b.2))%Q.
Proof.
  intros Hasym Htrans cards.
  pose proof (sorted_cards localeCompare Hasym Htrans) as Hsorted.
  split_and!; [done..| |].
  - unfold cards, PerformanceCards.renderAllDatasetCards.
    repeat case_decide; rewrite ?(filtered_cards localeCompare Hasym Htrans).
    + done.
    + apply sublist_filter.
    + apply sublist_filter.
    + etransitivity; apply sublist_filter.
  - intros i j a b Ha Hb Hij.
    assert (mayPrecede (PerformanceCards.compareCards localeCompare) a b)
      as [H|[H _]]%mayPrecede_compareCards; [|lra..].
    eapply StronglySorted_lookup; [|exact Hij|exact Ha|exact Hb].
    apply Hsorted.
Qed.


Lemma dataset_cards_category_order_witness :
  (∀ x y, (0 < byLength x y)%Q → ¬ (0 < byLength y x)%Q)
  ∧ (∀ x y z, ¬ (0 < byLength x y)%Q → ¬ (0 < byLength y z)%Q →
              ¬ (0 < byLength x z)%Q)
  ∧ (PerformanceCards.renderAllDatasetCards byLength sampleCards
       sampleFilters).*1 = ["GlaS"; "BCSS"; "kumar"]
  ∧ PerformanceCards.renderAllDatasetCards byLength sampleCards sampleFilters
      `sublist_of` sort (PerformanceCards.compareCards byLength) sampleCards.
Proof.
  assert (∀ x y, (0 < byLength x y)%Q → ¬ (0 < byLength y x)%Q) as Hasym
    by (unfold byLength; intros; lra).
  assert (∀ x y z, ¬ (0 < byLength x y)%Q → ¬ (0 < byLength y z)%Q →
                   ¬ (0 < byLength x z)%Q) as Htrans
    by (unfold byLength; intros; lra).
  split_and!; [done | done | by vm_compute |].
  exact (proj1 (proj2 (proj2 (proj2 (proj2
           (dataset_cards_category_order byLength sampleCards sampleFilters
              Hasym Htrans)))))).
Defined.

(** ** The bars of a metric chart *)

Section chart_bars.
Import Performance PerformanceCards.

Lemma recordBest_lookup acc item m :
  m ∉ objectPrototypeKeys →
  lookupOwn m (recordBest acc item)
  = if decide (Datum.model item = m)
    then better Datum.mean (lookupOwn m acc) item
    else lookupOwn m acc.
Proof.
  intros Hm. unfold recordBest.
  destruct (decide (Datum.model item = m)) as [Heq|Hne].
  - subst m. rewrite (getProp_plain _ _ Hm). unfold better.
    destruct (lookupOwn (Datum.model item) acc) as [held|] eqn:Hheld.
    + destruct (Qlt_le_dec (Datum.mean held) (Datum.mean item));
        [by rewrite lookupOwn_setProp_eq | done].
    + by rewrite lookupOwn_setProp_eq.
  - destruct (getProp (Datum.model item) acc) as [held| |]; [|done|].
    + destruct (Qlt_le_dec (Datum.mean held) (Datum.mean item)); [|done].
      by rewrite lookupOwn_setProp_ne.
    + by rewrite lookupOwn_setProp_ne.
Qed.

Lemma recordBest_inherited acc item m :
  m ∈ objectPrototypeKeys → lookupOwn m acc = None →
  lookupOwn m (recordBest acc item) = None.
Proof.
  intros Hm Hnone. unfold recordBest.
  destruct (decide (Datum.model item = m)) as [Heq|Hne].
  - subst m.
    assert (getProp (Datum.model item) acc = Inherited) as ->
      by by apply getProp_Inherited.
    done.
  - destruct (getProp (Datum.model item) acc) as [held| |]; [|done|].
    + destruct (Qlt_le_dec (Datum.mean held) (Datum.mean item)); [|done].
      by rewrite lookupOwn_setProp_ne.
    + by rewrite lookupOwn_setProp_ne.
Qed.

Lemma recordBest_NoDup acc item :
  NoDup (keys acc) → NoDup (keys (recordBest acc item)).
Proof.
  intros Hnd. unfold recordBest.
  destruct (getProp (Datum.model item) acc) as [held| |]; [|done|].
  - destruct (Qlt_le_dec (Datum.mean held) (Datum.mean item)); [|done].
    by apply NoDup_keys_setProp.
  - by apply NoDup_keys_setProp.
Qed.

(** Every entry of [modelBest] is stored under the name of its model. *)
Lemma recordBest_keyed acc item :
  (∀ k b, (k, b) ∈ acc → Datum.model b = k) →
  ∀ k b, (k, b) ∈ recordBest acc item → Datum.model b = k.
Proof.
  intros Hacc k b. unfold recordBest.
  destruct (getProp (Datum.model item) acc) as [held| |]; [|apply Hacc|].
  - destruct (Qlt_le_dec (Datum.mean held) (Datum.mean item)); [|apply Hacc].
    intros [[= -> ->]|Hin]%elem_of_setProp; [done | by apply Hacc].
  - intros [[= -> ->]|Hin]%elem_of_setProp; [done | by apply Hacc].
Qed.

Lemma modelBest_NoDup (data : list Datum.t) acc :
  NoDup (keys acc) → NoDup (keys (fold_left recordBest data acc)).
Proof.
  revert acc. induction data as [|item data IH]; intros acc Hacc; [done|].
  cbn [fold_left]. by apply IH, recordBest_NoDup.
Qed.

Lemma modelBest_keyed (data : list Datum.t) acc :
  (∀ k b, (k, b) ∈ acc → Datum.model b = k) →
  ∀ k b, (k, b) ∈ fold_left recordBest data acc → Datum.model b = k.
Proof.
  revert acc. induction data as [|item data IH]; intros acc Hacc; [done|].
  cbn [fold_left]. by apply IH, recordBest_keyed.
Qed.

Lemma modelBest_lookup (data : list Datum.t) acc m :
  m ∉ objectPrototypeKeys →
  lookupOwn m (fold_left recordBest data acc)
  = fold_left (better Datum.mean)
              (filter (fun item => Datum.model item = m) data)
              (lookupOwn m acc).
Proof.
  intros Hm. revert acc.
  induction data as [|item data IH]; intros acc; [done|].
  cbn [fold_left]. rewrite IH, filter_cons, recordBest_lookup by done.
  by case_decide.
Qed.

Lemma modelBest_inherited (data : list Datum.t) acc m :
  m ∈ objectPrototypeKeys → lookupOwn m acc = None →
  lookupOwn m (fold_left recordBest data acc) = None.
Proof.
  intros Hm. revert acc.
  induction data as [|item data IH]; intros acc Hacc; [done|].
  cbn [fold_left]. by apply IH, recordBest_inherited.
Qed.
End chart_bars.

(** What [modelBest] holds once the loop is over. *)
Lemma modelBest_spec (data : list Performance.Datum.t) :
  let modelBest := fold_left PerformanceCards.recordBest data [] in
  NoDup (keys modelBest)
  ∧ Performance.Datum.model <$> values modelBest = keys modelBest
  ∧ (∀ m, lookupOwn m modelBest
          = if decide (m ∈ objectPrototypeKeys) then None
            else fold_left (better Performance.Datum.mean)
                   (filter (fun item => Performance.Datum.model item = m)
                           data) None)
  ∧ (∀ b, b ∈ values modelBest →
       ∃ pre post,
         filter (fun item => Performance.Datum.model item
                             = Performance.Datum.model b) data
         = pre ++ b :: post
         ∧ Forall (fun c => (Performance.Datum.mean c
                             < Performance.Datum.mean b)%Q) pre
         ∧ Forall (fun c => (Performance.Datum.mean c
                             <= Performance.Datum.mean b)%Q) post).
Proof.
  intros modelBest.
  assert (NoDup (keys modelBest)) as Hnd
    by (apply modelBest_NoDup; constructor).
  assert (∀ k b, (k, b) ∈ modelBest → Performance.Datum.model b = k) as Hkeyed.
  { apply modelBest_keyed. intros k b H. by apply elem_of_nil in H. }
  assert (∀ m, lookupOwn m modelBest
               = if decide (m ∈ objectPrototypeKeys) then None
                 else fold_left (better Performance.Datum.mean)
                        (filter (fun item => Performance.Datum.model item = m)
                                data) None) as Hlook.
  { intros m. unfold modelBest. case_decide as Hm.
    - by apply modelBest_inherited.
    - by apply modelBest_lookup. }
  split_and!; [done | | done |].
  - unfold values, keys. rewrite <-list_fmap_compose.
    apply list_fmap_ext. intros i [k b] Hi. simpl. apply Hkeyed.
    by eapply list_elem_of_lookup_2.
  - intros b Hb.
    apply list_elem_of_fmap in Hb as ([k b'] & -> & Hin). simpl.
    pose proof (Hkeyed _ _ Hin) as Hk. simpl in Hk. subst k.
    apply (lookupOwn_elem_NoDup _ _ _ Hnd) in Hin. rewrite Hlook in Hin.
    case_decide as Hm; [done|].
    pose proof (fold_better Performance.Datum.mean
                  (filter (fun item => Performance.Datum.model item
                                       = Performance.Datum.model b') data)
                  None) as Hbest.
    rewrite Hin in Hbest.
    destruct Hbest as [[[=] _]|(pre & post & Hf & _ & Hpre & Hpost)].
    by exists pre, post.
Qed.

(** X16. The bars of a metric chart are one per model that occurs in the
    data (a model named like a member of [Object.prototype] gets no bar),
    sorted by mean from large to small; the bar of a model is the first of
    its items with the largest mean. *)
Theorem chart_bars_best_per_model (data : list Performance.Datum.t) :
  let bars := PerformanceCards.sortedModels data in
  NoDup (Performance.Datum.model <$> bars)
  ∧ StronglySorted
      (fun a b => (Performance.Datum.mean b <= Performance.Datum.mean a)%Q)
      bars
  ∧ (∀ m, m ∈ Performance.Datum.model <$> bars
          ↔ (m ∉ objectPrototypeKeys) ∧ m ∈ Performance.Datum.model <$> data)
  ∧ (∀ b, b ∈ bars →
       ∃ pre post,
         filter (fun item => Performance.Datum.model item
                             = Performance.Datum.model b) data
         = pre ++ b :: post
         ∧ Forall (fun c => (Performance.Datum.mean c
                             < Performance.Datum.mean b)%Q) pre
         ∧ Forall (fun c => (Performance.Datum.mean c
                             <= Performance.Datum.mean b)%Q) post).
Proof.
  intros bars.
  destruct (modelBest_spec data) as (Hnd & Hmodels & Hlook & Hbest).
  set (modelBest := fold_left PerformanceCards.recordBest data []) in *.
  assert (bars ≡ₚ values modelBest) as Hperm
    by apply sort_Permutation_any.
  split_and!.
  - rewrite Hperm, Hmodels. done.
  - exact (sort_sorted _ _ (descending_sign _) _).
  - intros m. rewrite Hperm, Hmodels, <-lookupOwn_is_Some, Hlook.
    case_decide as Hm; [split; [by intros [? [=]] | tauto]|].
    pose proof (fold_better Performance.Datum.mean
                  (filter (fun item => Performance.Datum.model item = m) data)
                  None) as Hfold.
    destruct (fold_left _ _ None) as [r|].
    + split; [|eauto]. intros _. split; [done|].
      destruct Hfold as [[[=] _]|(pre & post & Hf & _)].
      assert (r ∈ filter (fun item => Performance.Datum.model item = m) data)
        as [<- Hin]%list_elem_of_filter
        by (rewrite Hf; apply elem_of_app; right; left).
      by apply list_elem_of_fmap_2.
    + destruct Hfold as [_ Hnil]. split; [by intros [? [=]]|].
      intros [_ (item & -> & Hin)%list_elem_of_fmap]. exfalso.
      assert (item ∈ filter (fun item' => Performance.Datum.model item'
                                          = Performance.Datum.model item) data)
        as Hf by by apply list_elem_of_filter.
      rewrite Hnil in Hf. by apply elem_of_nil in Hf.
  - intros b Hb. rewrite Hperm in Hb. by apply Hbest.
Qed.

(** ** The processed performance data *)





(** ** The bars for the data of a summary *)


Section sorted_input.
Context {A : Type} (cmp : A → A → Q) (key : A → Q).
Hypothesis cmp_sign : ∀ a b, (0 < cmp a b)%Q ↔ (key a < key b)%Q.

End sorted_input.

Section bars_of_sorted_data.
Import Performance PerformanceCards.

End bars_of_sorted_data.


(** ** The two tabs agree on the best result *)

(** X19. The dataset table of a model shows rank 1 for a dataset exactly
    when the score of the model there is at least the mean of the best
    result that the performance tab computes for Mean_Dice on that
    dataset. *)
Theorem rank_one_iff_best_result (modelKey : string) (rawData : RawData)
    (dataset : string) (r : LeaderboardTables.ModelResult.t)
    (best : Performance.Datum.t) :
  (dataset, r) ∈ LeaderboardTables.renderModelDatasetTable modelKey rawData →
  Performance.MetricSummary.best
    (Performance.summarize rawData dataset ("Mean_Dice", "mDice"))
  = Some best →
  LeaderboardTables.ModelResult.rank r = Some 1%nat
  ↔ (Performance.Datum.mean best <= LeaderboardTables.ModelResult.score r)%Q.
Proof.
  intros (e & He & ->)%elem_of_renderModelDatasetTable Hbest.
  cbn [LeaderboardTables.setRank snd LeaderboardTables.ModelResult.rank
       LeaderboardTables.ModelResult.score fst].
  rewrite rankIn_observations.
  unfold Performance.summarize in Hbest.
  cbn [Performance.MetricSummary.best fst] in Hbest.
  rewrite collectMetricData_observations in Hbest.
  set (obs := observations rawData dataset "Mean_Dice") in *.
  case_decide as Hlen; [|done].
  destruct (sort Performance.byMeanDescending (datumOf <$> obs))
    as [|b rest] eqn:Hs; [done|].
  injection Hbest as ->.
  apply (sort_head _ _ (descending_sign Performance.Datum.mean)) in Hs
    as (pre & post & Hl & Hpre & Hpost).
  assert (∀ o, o ∈ obs →
            (Observation.mean o.2 <= Performance.Datum.mean best)%Q) as Hmax.
  { intros o Ho.
    assert (datumOf o ∈ pre ++ best :: post) as Hin
      by (rewrite <-Hl; by apply list_elem_of_fmap_2).
    rewrite Forall_forall in Hpre. rewrite Forall_forall in Hpost.
    apply elem_of_app in Hin as [Hin|[Heq|Hin]%elem_of_cons].
    - apply Hpre in Hin. simpl in Hin. lra.
    - rewrite <-Heq. simpl. lra.
    - by apply Hpost in Hin. }
  assert (∃ o, o ∈ obs ∧ Observation.mean o.2 = Performance.Datum.mean best)
    as (o & Ho & Hmean).
  { assert (best ∈ datumOf <$> obs) as (o & Hb & Ho)%list_elem_of_fmap
      by (rewrite Hl; apply elem_of_app; right; left).
    exists o. split; [done|]. by rewrite Hb. }
  set (P := fun o : string * string * Observation.t =>
              (LeaderboardTables.ModelResult.score e < Observation.mean o.2)%Q).
  split.
  - intros [= Hnil%length_zero_iff_nil].
    destruct (Qlt_le_dec (LeaderboardTables.ModelResult.score e)
                         (Performance.Datum.mean best)) as [Hlt|Hle]; [|done].
    assert (o ∈ filter P obs) as Hin
      by (apply list_elem_of_filter; unfold P; rewrite Hmean; by split).
    rewrite Hnil in Hin. by apply elem_of_nil in Hin.
  - intros Hle. f_equal. f_equal. apply length_zero_iff_nil.
    assert (Forall (fun o => ¬ P o) obs) as Hall.
    { apply Forall_forall. intros o' Ho'. specialize (Hmax o' Ho').
      unfold P. lra. }
    clear -Hall. induction Hall as [|o' l Ho' _ IH]; [done|].
    rewrite filter_cons, IH. by rewrite decide_False.
Qed.

Lemma rank_one_iff_best_result_witness :
  ∃ best,
    ("GlaS", sampleModelRow)
      ∈ LeaderboardTables.renderModelDatasetTable "m1" sampleRawData
    ∧ Performance.MetricSummary.best
        (Performance.summarize sampleRawData "GlaS" ("Mean_Dice", "mDice"))
      = Some best
    ∧ ¬ (Performance.Datum.mean best
         <= LeaderboardTables.ModelResult.score sampleModelRow)%Q
    ∧ LeaderboardTables.ModelResult.rank sampleModelRow ≠ Some 1%nat.
Proof.
  assert (("GlaS", sampleModelRow)
            ∈ LeaderboardTables.renderModelDatasetTable "m1" sampleRawData)
    as Hrow by (vm_compute; right; left).
  eexists. split_and!; [done | by vm_compute | by vm_compute |].
  intros Hone.
  eapply (rank_one_iff_best_result "m1" sampleRawData "GlaS" sampleModelRow)
    in Hone; [|exact Hrow|by vm_compute].
  revert Hone. by vm_compute.
Defined.

(** ** The method cards *)

(** X20. The method cards are the entries of [method_comparison] sorted by
    avg_mDice from large to small; the "Best" badge is on the first card
    and on no other, and that card is the first entry in the order of the
    file whose avg_mDice is the largest. *)
Theorem method_cards_best (methodComparison : JsObject MethodComparison) :
  let cards := LeaderboardTables.renderMethodCards methodComparison in
  length cards = length methodComparison
  ∧ (∀ i card, cards !! i = Some card →
       LeaderboardTables.MethodCard.isBest card = bool_decide (i = 0%nat))
  ∧ (∀ card, cards !! 0%nat = Some card →
       ∃ pre post,
         methodComparison
         = pre ++ (LeaderboardTables.MethodCard.key card,
                   LeaderboardTables.MethodCard.data card) :: post
         ∧ Forall (fun e => (avg_mDice e.2
                             < avg_mDice
                                 (LeaderboardTables.MethodCard.data card))%Q)
                  pre
         ∧ Forall (fun e => (avg_mDice e.2
                             <= avg_mDice
                                  (LeaderboardTables.MethodCard.data card))%Q)
                  post).
Proof.
  intros cards. unfold cards, LeaderboardTables.renderMethodCards.
  pose proof (descending_sign (fun e : string * MethodComparison =>
                                 avg_mDice e.2)) as Hsign.
  split_and!.
  - by rewrite length_fmap, indexed_length, (sort_length _ _ Hsign).
  - intros i card. rewrite list_lookup_fmap, indexed_lookup.
    destruct (sort _ methodComparison !! i) as [e|]; [|done].
    by intros [= <-].
  - intros card. rewrite list_lookup_fmap, indexed_lookup.
    destruct (sort _ methodComparison) as [|[k d] rest] eqn:Hs; [done|].
    intros [= <-]. simpl.
    apply (sort_head _ _ Hsign) in Hs as (pre & post & -> & Hpre & Hpost).
    by exists pre, post.
Qed.

(** ** The keys of the aggregates *)

Section aggregate_keys.
Import Leaderboard.







End aggregate_keys.


